(** * FormularioEquipamiento: customer search and required-field validation

    A shallow embedding of
    - [componente_busqueda_clientes.py]: [normalizar_cuit_dni],
      [buscar_clientes_db] (with the SQL statement it sends),
      [verificar_cuit_dni_existe], [insertar_cliente_nuevo],
      [mostrar_tarjeta_cliente] and what
      [componente_selector_cliente_inteligente] does with the rows found;
    - [formulario_ST_V13.py]: [validar_campos_obligatorios],
      [obtener_rate_limit_key], [verificar_rate_limit],
      [registrar_solicitud_rate_limit], [sanitizar_texto] and
      [sanitizar_numero_serie].

    A Python [str] (and a PostgreSQL [text]) is a [string] holding the UTF-8
    encoding of its characters, so a character outside ASCII occupies two to
    four bytes; the operations that count or classify characters ([len],
    [str.strip], the [_] of LIKE) are written on that encoding. *)

From Stdlib Require Import String Ascii List ZArith Lia Bool Arith Sorted.
From Stdlib Require Import DecimalString DecimalNat DecimalPos DecimalZ Permutation.
Import ListNotations.

Open Scope list_scope.
Open Scope string_scope.

(* ===================================================================== *)
(** ** Python strings *)
(* ===================================================================== *)

Module Texto.

Definition codigo (c : ascii) : nat := nat_of_ascii c.

(** The class [[0-9]] of a Python 3 [str] pattern: the ten ASCII digits. *)
Definition es_digito (c : ascii) : bool :=
  ((48 <=? codigo c) && (codigo c <=? 57))%nat.

(** A byte [10xxxxxx] continues a UTF-8 character begun earlier. *)
Definition es_continuacion (c : ascii) : bool :=
  ((128 <=? codigo c) && (codigo c <? 192))%nat.

(** [len(s)]: the number of characters, i.e. of bytes that begin one. *)
Fixpoint py_len (s : string) : nat :=
  match s with
  | EmptyString => 0
  | String c s' => ((if es_continuacion c then 0 else 1) + py_len s')%nat
  end.

(** [re.sub(r'[^0-9]', '', s)]: every character that is not an ASCII digit
    is removed (all bytes of a non-ASCII character are above 127). *)
Fixpoint re_sub_no_digitos (s : string) : string :=
  match s with
  | EmptyString => EmptyString
  | String c s' =>
      if es_digito c then String c (re_sub_no_digitos s')
      else re_sub_no_digitos s'
  end.

(** [s] consists of digit characters only. *)
Fixpoint solo_digitos (s : string) : bool :=
  match s with
  | EmptyString => true
  | String c s' => es_digito c && solo_digitos s'
  end.

(** [s] holds no digit character at all. *)
Fixpoint sin_digitos (s : string) : bool :=
  match s with
  | EmptyString => true
  | String c s' => negb (es_digito c) && sin_digitos s'
  end.

(** [needle in hay]. *)
Fixpoint contiene (needle hay : string) : bool :=
  String.prefix needle hay
  || match hay with
     | EmptyString => false
     | String _ hay' => contiene needle hay'
     end.

(** [str.strip()] removes the characters for which [str.isspace] holds:
    U+0009..U+000D, U+001C..U+0020, U+0085, U+00A0, U+1680,
    U+2000..U+200A, U+2028, U+2029, U+202F, U+205F and U+3000.
    [espacio_inicial s] is [Some r] when [s] begins with one of them and
    [r] is what follows it. *)
Definition espacio_inicial (s : string) : option string :=
  (match s with
  | EmptyString => None
  | String a r1 =>
      let x := codigo a in
      if ((9 <=? x) && (x <=? 13)) || ((28 <=? x) && (x <=? 32)) then Some r1
      else
        match r1 with
        | EmptyString => None
        | String b r2 =>
            let y := codigo b in
            if (x =? 194) && ((y =? 133) || (y =? 160)) then Some r2
            else
              match r2 with
              | EmptyString => None
              | String c r3 =>
                  let z := codigo c in
                  if (x =? 225) && (y =? 154) && (z =? 128) then Some r3
                  else if (x =? 226) && (y =? 128)
                          && (((128 <=? z) && (z <=? 138))
                              || (z =? 168) || (z =? 169) || (z =? 175))
                  then Some r3
                  else if (x =? 226) && (y =? 129) && (z =? 159) then Some r3
                  else if (x =? 227) && (y =? 128) && (z =? 128) then Some r3
                  else None
              end
        end
  end)%nat.

(** [s.lstrip()]; the fuel is the length of [s], one unit per byte. *)
Fixpoint lstrip_aux (fuel : nat) (s : string) : string :=
  match fuel with
  | O => s
  | S fuel' =>
      match espacio_inicial s with
      | Some r => lstrip_aux fuel' r
      | None => s
      end
  end.

Definition lstrip (s : string) : string := lstrip_aux (String.length s) s.

(** [s.rstrip()]: the longest suffix made of whitespace is dropped. *)
Fixpoint rstrip (s : string) : string :=
  match s with
  | EmptyString => EmptyString
  | String c s' =>
      match lstrip s with
      | EmptyString => EmptyString
      | _ => String c (rstrip s')
      end
  end.

Definition strip (s : string) : string := rstrip (lstrip s).

(** [str(i)] for a non-negative integer. *)
Definition str_nat (i : nat) : string :=
  NilEmpty.string_of_uint (Nat.to_uint i).

End Texto.

(* ===================================================================== *)
(** ** The SQL expressions used by the search statement *)
(* ===================================================================== *)

Module Sql.
Import Texto.

(** A nullable column or parameter is an [option]; a condition is an
    [option bool], with [None] for NULL.  A WHEN or WHERE takes a row only
    when its condition is true. *)
Definition es_verdadero (b : option bool) : bool :=
  match b with
  | Some true => true
  | _ => false
  end.

Definition sql_and (a b : option bool) : option bool :=
  match a, b with
  | Some false, _ => Some false
  | _, Some false => Some false
  | Some true, Some true => Some true
  | _, _ => None
  end.

Definition sql_or (a b : option bool) : option bool :=
  match a, b with
  | Some true, _ => Some true
  | _, Some true => Some true
  | Some false, Some false => Some false
  | _, _ => None
  end.

(** [a = b] on text. *)
Definition sql_eq (a b : option string) : option bool :=
  match a, b with
  | Some x, Some y => Some (x =? y)
  | _, _ => None
  end.

(** [a IS NULL]. *)
Definition is_null {A : Type} (a : option A) : option bool :=
  match a with
  | None => Some true
  | Some _ => Some false
  end.

(** [COALESCE(a, b, ...)]. *)
Fixpoint coalesce {A : Type} (l : list (option A)) : option A :=
  match l with
  | [] => None
  | Some x :: _ => Some x
  | None :: l' => coalesce l'
  end.

(** [x = ANY(arr)] for an array without NULL elements. *)
Definition eq_any (x : option string) (arr : option (list string)) : option bool :=
  match x, arr with
  | Some v, Some l => Some (existsb (String.eqb v) l)
  | _, _ => None
  end.

(** The folding of the ASCII letters, every other byte kept: [LOWER] in
    the locale C. *)
Definition minuscula (c : ascii) : ascii :=
  if ((65 <=? codigo c) && (codigo c <=? 90))%nat
  then ascii_of_nat (codigo c + 32)
  else c.

Fixpoint lower_texto (s : string) : string :=
  match s with
  | EmptyString => EmptyString
  | String c s' => String (minuscula c) (lower_texto s')
  end.

(** The rest of [t] after its first character: one byte and the
    continuation bytes that follow it. *)
Fixpoint sin_continuaciones (t : string) : string :=
  match t with
  | EmptyString => EmptyString
  | String c t' => if es_continuacion c then sin_continuaciones t' else t
  end.

Definition comodin_porcentaje : ascii := "%"%char.
Definition comodin_guion : ascii := "_"%char.
Definition escape : ascii := ascii_of_nat 92.

(** A query text with none of the three characters LIKE gives a meaning. *)
Fixpoint sin_comodines (s : string) : bool :=
  match s with
  | EmptyString => true
  | String c s' =>
      negb (Ascii.eqb c comodin_porcentaje) && negb (Ascii.eqb c comodin_guion)
      && negb (Ascii.eqb c escape) && sin_comodines s'
  end.

(** The locale of the database.  What [LOWER] and [ILIKE] fold is set by
    its LC_CTYPE and the order of texts by its collation; the code fixes
    neither, so the statement is read in any locale.  [plegar] is [LOWER]
    on a text and [colacion a b] tells that [a] does not sort after [b].
    The laws are facts of every locale: lowering creates none of the three
    characters of LIKE, leaves a [%] at either end where it is, leaves a
    text of digits as it is and makes no text of digits out of another
    text; and of two texts one does not sort after the other. *)
Class locale : Type := {
  plegar : string -> string;
  colacion : string -> string -> bool;
  plegar_sin_comodines :
    forall s, sin_comodines s = true -> sin_comodines (plegar s) = true;
  plegar_porcentaje_final :
    forall s, plegar (s ++ "%") = (plegar s ++ "%")%string;
  plegar_porcentaje_inicial :
    forall s, plegar ("%" ++ s) = ("%" ++ plegar s)%string;
  plegar_digitos :
    forall s, solo_digitos s = true -> plegar s = s;
  plegar_de_digitos :
    forall s, solo_digitos (plegar s) = true -> solo_digitos s = true;
  colacion_total :
    forall a b, colacion a b = true \/ colacion b a = true
}.

(** [LOWER(a)] on a nullable text. *)
Definition lower {L : locale} (a : option string) : option string :=
  option_map plegar a.

(** The outcomes of [MatchText], the routine of PostgreSQL behind LIKE: the
    text matches, it does not, it cannot match at any later place either,
    or the pattern is refused with "LIKE pattern must not end with escape
    character". *)
Inductive resultado_like : Type :=
| LikeTrue
| LikeFalse
| LikeAbort
| LikeError.

Fixpoint solo_porcentajes (p : string) : bool :=
  match p with
  | EmptyString => true
  | String c p' => Ascii.eqb c comodin_porcentaje && solo_porcentajes p'
  end.

(** [MatchText(t, p)], which walks the pattern and the text together.
    [tras] holds while it skips the wildcards that follow a [%]; it then
    looks, character by character, for a place of the text that begins
    with the next literal of the pattern and from which the rest matches.
    A backslash that ends the pattern is an error at the moment the walk
    reaches it with text left, or right after a [%]. *)
Fixpoint match_text (tras : bool) (p t : string) {struct p} : resultado_like :=
  match p with
  | EmptyString =>
      if tras then LikeTrue
      else match t with
           | EmptyString => LikeTrue
           | String _ _ => LikeFalse
           end
  | String c p' =>
      if tras then
        if Ascii.eqb c comodin_porcentaje then match_text true p' t
        else if Ascii.eqb c comodin_guion then
          match t with
          | EmptyString => LikeAbort
          | String _ t' => match_text true p' (sin_continuaciones t')
          end
        else if Ascii.eqb c escape then
          match p' with
          | EmptyString => LikeError
          | String d p'' =>
              (fix scan (inicio : bool) (t : string) {struct t} : resultado_like :=
                 match t with
                 | EmptyString => LikeAbort
                 | String x t' =>
                     if negb inicio && es_continuacion x then scan false t'
                     else if Ascii.eqb x d then
                       match match_text false p'' t' with
                       | LikeFalse => scan false t'
                       | r => r
                       end
                     else scan false t'
                 end) true t
          end
        else
          (fix scan (inicio : bool) (t : string) {struct t} : resultado_like :=
             match t with
             | EmptyString => LikeAbort
             | String x t' =>
                 if negb inicio && es_continuacion x then scan false t'
                 else if Ascii.eqb x c then
                   match match_text false p' t' with
                   | LikeFalse => scan false t'
                   | r => r
                   end
                 else scan false t'
             end) true t
      else
        match t with
        | EmptyString => if solo_porcentajes p then LikeTrue else LikeAbort
        | String x t' =>
            if Ascii.eqb c escape then
              match p' with
              | EmptyString => LikeError
              | String d p'' =>
                  if Ascii.eqb d x then match_text false p'' t' else LikeFalse
              end
            else if Ascii.eqb c comodin_porcentaje then match_text true p' t
            else if Ascii.eqb c comodin_guion then
              match_text false p' (sin_continuaciones t')
            else if Ascii.eqb c x then match_text false p' t'
            else LikeFalse
        end
  end.

(** The pattern does not end in a backslash that escapes nothing. *)
Fixpoint termina_bien_aux (fuel : nat) (p : string) : bool :=
  match fuel with
  | O => true
  | S fuel' =>
      match p with
      | EmptyString => true
      | String c p' =>
          if Ascii.eqb c escape then
            match p' with
            | EmptyString => false
            | String _ p'' => termina_bien_aux fuel' p''
            end
          else termina_bien_aux fuel' p'
      end
  end.

Definition termina_bien (p : string) : bool := termina_bien_aux (String.length p) p.

(** Evaluating [t LIKE p] raises. *)
Definition like_lanza (p t : string) : bool :=
  match match_text false p t with
  | LikeError => true
  | _ => false
  end.

(** [t LIKE p] with the default escape character, where it does not raise:
    [%] stands for any run of characters, [_] for one character, a
    backslash makes the pattern character after it literal, anything else
    stands for itself.  Where [like_lanza] holds the statement has no
    answer and the run raises: see [consulta_busqueda_lanza]. *)
Fixpoint like_match (p t : string) {struct p} : bool :=
  match p with
  | EmptyString =>
      match t with
      | EmptyString => true
      | String _ _ => false
      end
  | String c p' =>
      if Ascii.eqb c comodin_porcentaje then
        (fix desde (t : string) : bool :=
           like_match p' t
           || match t with
              | EmptyString => false
              | String _ t' => desde t'
              end) t
      else if Ascii.eqb c comodin_guion then
        match t with
        | EmptyString => false
        | String _ t' => like_match p' (sin_continuaciones t')
        end
      else if Ascii.eqb c escape then
        match p' with
        | EmptyString => false
        | String d p'' =>
            match t with
            | EmptyString => false
            | String x t' => Ascii.eqb d x && like_match p'' t'
            end
        end
      else
        match t with
        | EmptyString => false
        | String x t' => Ascii.eqb c x && like_match p' t'
        end
  end.

Definition like (t p : option string) : option bool :=
  match t, p with
  | Some t, Some p => Some (like_match p t)
  | _, _ => None
  end.

(** Evaluating [t LIKE p] raises; with a NULL operand the operator is not
    evaluated. *)
Definition like_error (t p : option string) : bool :=
  match t, p with
  | Some t, Some p => like_lanza p t
  | _, _ => false
  end.

(** [t ILIKE p]: LIKE on the folded text and pattern. *)
Definition ilike {L : locale} (t p : option string) : option bool :=
  like (lower t) (lower p).

Definition ilike_error {L : locale} (t p : option string) : bool :=
  like_error (lower t) (lower p).

(** [ORDER BY ... ASC] on a nullable text column: the order of the
    collation, NULLs last. *)
Definition text_leb {L : locale} (a b : option string) : bool :=
  match a, b with
  | _, None => true
  | None, Some _ => false
  | Some x, Some y => colacion x y
  end.

(** A text with the character U+0000, which the driver refuses to send. *)
Fixpoint tiene_nul (s : string) : bool :=
  match s with
  | EmptyString => false
  | String c s' => (codigo c =? 0)%nat || tiene_nul s'
  end.

Definition tiene_nul_opcional (a : option string) : bool :=
  match a with
  | Some s => tiene_nul s
  | None => false
  end.

End Sql.

(* ===================================================================== *)
(** ** The table [clientes] *)
(* ===================================================================== *)

Module Clientes.

(** Modelled from the spec: the table [clientes], whose declaration is not
    in the repository ("customers (id, type, identifying ID, names, contact
    fields, assigned-agent list, visibility flag, active flag)" and the
    precomputed searchable-text column), under the column names the
    statements of the component use.  The text columns and the array are
    nullable, the two flags are not. *)
Record fila : Type := {
  id : Z;
  tipo_cliente : option string;
  nombre_fantasia : option string;
  razon_social : option string;
  nombre_apellido : option string;
  cuit_dni : option string;
  telefono : option string;
  direccion : option string;
  email : option string;
  contacto_nombre : option string;
  comercial_asignado : option (list string);
  visible_para_todos : bool;
  activo : bool;
  busqueda_texto : option string
}.

End Clientes.

(* ===================================================================== *)
(** ** The rows of a search result *)
(* ===================================================================== *)

Module Resultado.

(** A row of the result of the search statement, which
    [buscar_clientes_db] turns into a dictionary with the same thirteen
    keys. *)
Record fila : Type := {
  id : Z;
  tipo_cliente : option string;
  nombre_display : option string;
  nombre_fantasia : option string;
  razon_social : option string;
  nombre_apellido : option string;
  cuit_dni : option string;
  telefono : option string;
  direccion : option string;
  email : option string;
  contacto_nombre : option string;
  comercial_asignado : option (list string);
  relevancia_score : Z
}.

End Resultado.

(* ===================================================================== *)
(** ** Storage calls, exceptions and messages shown to the user *)
(* ===================================================================== *)

Module Efectos.

(** The calls the component makes on the database driver. *)
Inductive operacion : Type :=
| Connect        (* psycopg2.connect(DATABASE_URL) *)
| Cursor         (* conn.cursor() *)
| Execute        (* cur.execute(...) *)
| Fetch          (* cur.fetchall() / cur.fetchone() *)
| CloseCursor    (* cur.close() *)
| CloseConn.     (* conn.close() *)

(** What a run leaves behind, in order: the storage calls it made and the
    messages it showed with [st.error]. *)
Inductive evento : Type :=
| Llamada (op : operacion)
| StError (mensaje : string).

(** The storage as one run sees it: the rows of [clientes], and for each
    call the message of the exception it raises, if it raises one. *)
Record base_datos : Type := {
  clientes : list Clientes.fila;
  falla : operacion -> option string
}.

(** A storage in which no call raises. *)
Definition sin_fallas (tabla : list Clientes.fila) : base_datos :=
  {| clientes := tabla; falla := fun _ => None |}.

(** A storage that cannot be reached: [connect] raises. *)
Definition sin_conexion (tabla : list Clientes.fila) (e : string) : base_datos :=
  {| clientes := tabla;
     falla := fun op => match op with Connect => Some e | _ => None end |}.

(** A computation ends with a value or with a raised exception (its
    message), and has emitted a list of events. *)
Definition M (A : Type) : Type := (string + A) * list evento.

Definition ret {A : Type} (x : A) : M A := (inr x, []).

Definition raise {A : Type} (e : string) : M A := (inl e, []).

Definition bind {A B : Type} (m : M A) (f : A -> M B) : M B :=
  match m with
  | (inl e, t) => (inl e, t)
  | (inr x, t) => let (r, t') := f x in (r, t ++ t')%list
  end.

(** [try: m except Exception as e: h e]. *)
Definition try_except {A : Type} (m : M A) (h : string -> M A) : M A :=
  match m with
  | (inl e, t) => let (r, t') := h e in (r, t ++ t')%list
  | (inr x, t) => (inr x, t)
  end.

Definition emitir (ev : evento) : M unit := (inr tt, [ev]).

(** A storage call: it is made, and then either returns or raises. *)
Definition llamar (bd : base_datos) (op : operacion) : M unit :=
  bind (emitir (Llamada op))
       (fun _ => match falla bd op with
                 | Some e => raise e
                 | None => ret tt
                 end).

Definition st_error (mensaje : string) : M unit := emitir (StError mensaje).

Definition valor {A : Type} (m : M A) : string + A := fst m.
Definition traza {A : Type} (m : M A) : list evento := snd m.

End Efectos.

Declare Scope efectos_scope.
Delimit Scope efectos_scope with efectos.
Notation "x <- m ;; k" := (Efectos.bind m (fun x => k))
  (at level 61, m at next level, right associativity) : efectos_scope.
Notation "m ;; k" := (Efectos.bind m (fun _ => k))
  (at level 61, right associativity) : efectos_scope.

(* ===================================================================== *)
(** ** componente_busqueda_clientes.py *)
(* ===================================================================== *)

Module Busqueda.
Import Texto Sql Efectos.

Section EnUnLocale.
Context {L : locale}.

(** [normalizar_cuit_dni].  The argument is [None] for Python's [None];
    [if not cuit_dni] holds for [None] and for the empty string. *)
Definition normalizar_cuit_dni (cuit_dni : option string) : string :=
  match cuit_dni with
  | None => EmptyString
  | Some s => if s =? EmptyString then EmptyString else re_sub_no_digitos s
  end.

(** *** The search statement

    The eleven [%s] of the statement are the parameters [p1] .. [p11], in
    the order of the tuple given to [cur.execute]. *)

(** [CASE WHEN tipo_cliente = 'Paciente' THEN nombre_apellido
         ELSE COALESCE(nombre_fantasia, razon_social) END]. *)
Definition nombre_display (c : Clientes.fila) : option string :=
  if es_verdadero (sql_eq (Clientes.tipo_cliente c) (Some "Paciente"))
  then Clientes.nombre_apellido c
  else coalesce [Clientes.nombre_fantasia c; Clientes.razon_social c].

(** Prioridad 1: [CASE WHEN %s = ANY(comercial_asignado) THEN 1000 ELSE 0]. *)
Definition bonus_comercial (p1 : option string) (c : Clientes.fila) : Z :=
  if es_verdadero (eq_any p1 (Clientes.comercial_asignado c)) then 1000 else 0.

(** Prioridad 2: [CASE WHEN visible_para_todos = TRUE THEN 500 ELSE 0]. *)
Definition bonus_visible (c : Clientes.fila) : Z :=
  if Clientes.visible_para_todos c then 500 else 0.

(** [CASE WHEN cuit_dni = %s THEN 300 WHEN cuit_dni LIKE %s THEN 200
         ELSE 0]. *)
Definition bonus_cuit_dni (p2 p3 : string) (c : Clientes.fila) : Z :=
  if es_verdadero (sql_eq (Clientes.cuit_dni c) (Some p2)) then 300
  else if es_verdadero (like (Clientes.cuit_dni c) (Some p3)) then 200
  else 0.

(** [CASE WHEN LOWER(COALESCE(nombre_fantasia, nombre_apellido,
                               razon_social)) LIKE LOWER(%s) THEN 250
         WHEN LOWER(busqueda_texto) LIKE LOWER(%s) THEN 150
         WHEN busqueda_texto ILIKE %s THEN 100 ELSE 0]. *)
Definition bonus_nombre (p4 p5 p6 : string) (c : Clientes.fila) : Z :=
  if es_verdadero
       (like (lower (coalesce [Clientes.nombre_fantasia c;
                               Clientes.nombre_apellido c;
                               Clientes.razon_social c]))
             (lower (Some p4)))
  then 250
  else if es_verdadero (like (lower (Clientes.busqueda_texto c)) (lower (Some p5)))
  then 150
  else if es_verdadero (ilike (Clientes.busqueda_texto c) (Some p6))
  then 100
  else 0.

Definition relevancia_score
  (p1 : option string) (p2 p3 p4 p5 p6 : string) (c : Clientes.fila) : Z :=
  (bonus_comercial p1 c + bonus_visible c
   + bonus_cuit_dni p2 p3 c + bonus_nombre p4 p5 p6 c)%Z.

(** [WHERE activo = TRUE
          AND (busqueda_texto ILIKE %s OR cuit_dni ILIKE %s)
          AND (%s IS NULL OR tipo_cliente = %s)]. *)
Definition condicion_where
  (p7 p8 : string) (p9 p10 : option string) (c : Clientes.fila) : bool :=
  es_verdadero
    (sql_and
       (sql_and (Some (Clientes.activo c))
                (sql_or (ilike (Clientes.busqueda_texto c) (Some p7))
                        (ilike (Clientes.cuit_dni c) (Some p8))))
       (sql_or (is_null p9) (sql_eq (Clientes.tipo_cliente c) p10))).

(** The SELECT list of [clientes_relevantes]. *)
Definition seleccionar
  (p1 : option string) (p2 p3 p4 p5 p6 : string) (c : Clientes.fila) : Resultado.fila :=
  {| Resultado.id := Clientes.id c;
     Resultado.tipo_cliente := Clientes.tipo_cliente c;
     Resultado.nombre_display := nombre_display c;
     Resultado.nombre_fantasia := Clientes.nombre_fantasia c;
     Resultado.razon_social := Clientes.razon_social c;
     Resultado.nombre_apellido := Clientes.nombre_apellido c;
     Resultado.cuit_dni := Clientes.cuit_dni c;
     Resultado.telefono := Clientes.telefono c;
     Resultado.direccion := Clientes.direccion c;
     Resultado.email := Clientes.email c;
     Resultado.contacto_nombre := Clientes.contacto_nombre c;
     Resultado.comercial_asignado := Clientes.comercial_asignado c;
     Resultado.relevancia_score := relevancia_score p1 p2 p3 p4 p5 p6 c |}.

(** [ORDER BY relevancia_score DESC, nombre_display ASC]: [a] may stand
    before [b]. *)
Definition antes (a b : Resultado.fila) : bool :=
  (Resultado.relevancia_score b <? Resultado.relevancia_score a)%Z
  || ((Resultado.relevancia_score a =? Resultado.relevancia_score b)%Z
      && text_leb (Resultado.nombre_display a) (Resultado.nombre_display b)).

Fixpoint insertar (x : Resultado.fila) (l : list Resultado.fila) : list Resultado.fila :=
  match l with
  | [] => [x]
  | y :: l' => if antes x y then x :: l else y :: insertar x l'
  end.

Fixpoint order_by (l : list Resultado.fila) : list Resultado.fila :=
  match l with
  | [] => []
  | x :: l' => insertar x (order_by l')
  end.

(** *** Where the statement raises

    PostgreSQL makes the tests of a row in the order the statement writes
    them, an AND and an OR stopping at the operand that settles them, a
    CASE at its first true WHEN, and it computes the score of the rows
    that pass the WHERE only.  The statement raises when one of its LIKE
    does on some row. *)

Definition bonus_cuit_dni_lanza (p2 p3 : string) (c : Clientes.fila) : bool :=
  negb (es_verdadero (sql_eq (Clientes.cuit_dni c) (Some p2)))
  && like_error (Clientes.cuit_dni c) (Some p3).

Definition bonus_nombre_lanza (p4 p5 p6 : string) (c : Clientes.fila) : bool :=
  let nombre := lower (coalesce [Clientes.nombre_fantasia c;
                                 Clientes.nombre_apellido c;
                                 Clientes.razon_social c]) in
  let texto := lower (Clientes.busqueda_texto c) in
  like_error nombre (lower (Some p4))
  || (negb (es_verdadero (like nombre (lower (Some p4))))
      && (like_error texto (lower (Some p5))
          || (negb (es_verdadero (like texto (lower (Some p5))))
              && ilike_error (Clientes.busqueda_texto c) (Some p6)))).

Definition condicion_where_lanza (p7 p8 : string) (c : Clientes.fila) : bool :=
  Clientes.activo c
  && (ilike_error (Clientes.busqueda_texto c) (Some p7)
      || (negb (es_verdadero (ilike (Clientes.busqueda_texto c) (Some p7)))
          && ilike_error (Clientes.cuit_dni c) (Some p8))).

Definition fila_lanza
  (p2 p3 p4 p5 p6 p7 p8 : string) (p9 p10 : option string) (c : Clientes.fila) : bool :=
  condicion_where_lanza p7 p8 c
  || (condicion_where p7 p8 p9 p10 c
      && (bonus_cuit_dni_lanza p2 p3 c || bonus_nombre_lanza p4 p5 p6 c)).

Definition consulta_busqueda_lanza
  (p2 p3 p4 p5 p6 p7 p8 : string) (p9 p10 : option string)
  (tabla : list Clientes.fila) : bool :=
  existsb (fila_lanza p2 p3 p4 p5 p6 p7 p8 p9 p10) tabla.

(** The whole statement on a table, where it does not raise and for a limit
    that is not negative. *)
Definition consulta_busqueda
  (p1 : option string) (p2 p3 p4 p5 p6 p7 p8 : string) (p9 p10 : option string)
  (p11 : Z) (tabla : list Clientes.fila) : list Resultado.fila :=
  let clientes_relevantes :=
    map (seleccionar p1 p2 p3 p4 p5 p6)
        (filter (condicion_where p7 p8 p9 p10) tabla) in
  firstn (Z.to_nat p11)
    (order_by
       (filter (fun r => (0 <? Resultado.relevancia_score r)%Z) clientes_relevantes)).

(** [SELECT COUNT( * ) FROM clientes WHERE cuit_dni = %s]. *)
Definition consulta_count (p1 : string) (tabla : list Clientes.fila) : Z :=
  Z.of_nat
    (List.length
       (filter (fun c => es_verdadero (sql_eq (Clientes.cuit_dni c) (Some p1)))
               tabla)).

(** *** The Python functions *)

(** [buscar_clientes_db(texto_busqueda, tipo_cliente, comercial, limite)],
    before its [except] clause: the body of the [try].  [load_dotenv] and
    [os.getenv] only read the configuration and leave no event.
    [cur.execute] raises when a text it is given holds U+0000, which the
    driver does not send; when the storage fails; when the limit is not a
    [bigint] or is negative, which PostgreSQL refuses; and when a LIKE of
    the statement raises. *)
Definition buscar_clientes_db_try
  (bd : base_datos) (texto_busqueda : string)
  (tipo_cliente comercial : option string) (limite : Z) : M (list Resultado.fila) :=
  (llamar bd Connect ;;
   llamar bd Cursor ;;
   let texto_normalizado := normalizar_cuit_dni (Some texto_busqueda) in
   let patron_exacto := texto_busqueda in
   let patron_inicio := (texto_busqueda ++ "%")%string in
   let patron_parcial := ("%" ++ texto_busqueda ++ "%")%string in
   emitir (Llamada Execute) ;;
   (if tiene_nul texto_busqueda || tiene_nul_opcional tipo_cliente
       || tiene_nul_opcional comercial
    then raise "A string literal cannot contain NUL (0x00) characters"
    else ret tt) ;;
   (match falla bd Execute with
    | Some e => raise e
    | None => ret tt
    end) ;;
   (if (limite <? - 9223372036854775808)%Z || (9223372036854775808 <=? limite)%Z
    then raise "bigint out of range"
    else if (limite <? 0)%Z then raise "LIMIT must not be negative"
    else ret tt) ;;
   (if consulta_busqueda_lanza
         texto_normalizado
         ("%" ++ texto_normalizado ++ "%")%string
         patron_exacto
         patron_inicio
         patron_parcial
         patron_parcial
         patron_parcial
         tipo_cliente
         tipo_cliente
         (clientes bd)
    then raise "LIKE pattern must not end with escape character"
    else ret tt) ;;
   llamar bd Fetch ;;
   let resultados :=
     consulta_busqueda
       comercial
       texto_normalizado
       ("%" ++ texto_normalizado ++ "%")%string
       patron_exacto
       patron_inicio
       patron_parcial
       patron_parcial
       patron_parcial
       tipo_cliente
       tipo_cliente
       limite
       (clientes bd) in
   llamar bd CloseCursor ;;
   llamar bd CloseConn ;;
   ret resultados)%efectos.

Definition buscar_clientes_db
  (bd : base_datos) (texto_busqueda : string)
  (tipo_cliente comercial : option string) (limite : Z) : M (list Resultado.fila) :=
  if (py_len texto_busqueda <? 2)%nat then ret []
  else
    try_except
      (buscar_clientes_db_try bd texto_busqueda tipo_cliente comercial limite)
      (fun e => (st_error ("❌ Error en búsqueda: " ++ e)%string ;; ret [])%efectos).

(** [verificar_cuit_dni_existe(cuit_dni)]. *)
Definition verificar_cuit_dni_existe_try
  (bd : base_datos) (cuit_normalizado : string) : M bool :=
  (llamar bd Connect ;;
   llamar bd Cursor ;;
   llamar bd Execute ;;
   llamar bd Fetch ;;
   let existe := (0 <? consulta_count cuit_normalizado (clientes bd))%Z in
   llamar bd CloseCursor ;;
   llamar bd CloseConn ;;
   ret existe)%efectos.

Definition verificar_cuit_dni_existe
  (bd : base_datos) (cuit_dni : option string) : M bool :=
  let cuit_normalizado := normalizar_cuit_dni cuit_dni in
  if cuit_normalizado =? EmptyString then ret false
  else
    try_except
      (verificar_cuit_dni_existe_try bd cuit_normalizado)
      (fun e => (st_error ("❌ Error al verificar CUIT/DNI: " ++ e)%string ;; ret false)%efectos).

(** *** Readings used to state the properties *)

(** The four bonuses and their sum for the row [c], with the parameters
    [buscar_clientes_db] gives the statement for the query
    [texto_busqueda] and the agent [comercial]. *)
Definition bonus_cuit_dni_de_busqueda (texto_busqueda : string) (c : Clientes.fila) : Z :=
  let texto_normalizado := normalizar_cuit_dni (Some texto_busqueda) in
  bonus_cuit_dni texto_normalizado ("%" ++ texto_normalizado ++ "%") c.

Definition bonus_nombre_de_busqueda (texto_busqueda : string) (c : Clientes.fila) : Z :=
  bonus_nombre texto_busqueda (texto_busqueda ++ "%") ("%" ++ texto_busqueda ++ "%") c.

Definition relevancia_de_busqueda
  (texto_busqueda : string) (comercial : option string) (c : Clientes.fila) : Z :=
  let texto_normalizado := normalizar_cuit_dni (Some texto_busqueda) in
  relevancia_score comercial texto_normalizado ("%" ++ texto_normalizado ++ "%")
    texto_busqueda (texto_busqueda ++ "%") ("%" ++ texto_busqueda ++ "%") c.

(** [b] does not score more than [a]. *)
Definition no_menor (a b : Resultado.fila) : Prop :=
  (Resultado.relevancia_score b <= Resultado.relevancia_score a)%Z.

(** Case-insensitive comparisons of a nullable text with a query, in the
    words of the specification: equal to, starting with, containing, each
    after the [LOWER] of the database on both sides. *)
Definition igual_a (a : option string) (q : string) : bool :=
  match a with
  | Some s => (plegar s =? plegar q)
  | None => false
  end.

Definition empieza_con (a : option string) (q : string) : bool :=
  match a with
  | Some s => String.prefix (plegar q) (plegar s)
  | None => false
  end.

Definition contiene_a (a : option string) (q : string) : bool :=
  match a with
  | Some s => contiene (plegar q) (plegar s)
  | None => false
  end.

(** The name bonus as the specification words it: on the display name
    starting with the query, then on the searchable text. *)
Definition bonus_nombre_spec (q : string) (c : Clientes.fila) : Z :=
  if empieza_con (nombre_display c) q then 250
  else if empieza_con (Clientes.busqueda_texto c) q then 150
  else if contiene_a (Clientes.busqueda_texto c) q then 100
  else 0.

End EnUnLocale.

(** The parameters of the search are texts the driver can send, and the
    limit is a [bigint] that is not negative. *)
Definition parametros_validos
  (texto_busqueda : string) (tipo_cliente comercial : option string) (limite : Z) : bool :=
  negb (tiene_nul texto_busqueda) && negb (tiene_nul_opcional tipo_cliente)
  && negb (tiene_nul_opcional comercial)
  && (0 <=? limite)%Z && (limite <? 9223372036854775808)%Z.

End Busqueda.

(* ===================================================================== *)
(** ** formulario_ST_V13.py: validar_campos_obligatorios *)
(* ===================================================================== *)

Module Formulario.
Import Texto.
Local Open Scope list_scope.

(** One entry of [data['equipos']], with the keys the validator reads.  A
    key that is absent is [None]. *)
Record equipo : Type := {
  tipo_equipo : option string;
  marca : option string;
  modelo : option string;
  numero_serie : option string
}.

(** The dictionary [data] of a submission, with the keys the validator
    reads.  The form stores a [str] under each of them, a list of [str]
    under ['fallas_problemas'] and a list of dictionaries under
    ['equipos']; a key that is absent is [None]. *)
Record datos : Type := {
  email : option string;
  quien_completa : option string;
  area_solicitante : option string;
  solicitante : option string;
  equipo_corresponde_a : option string;
  nombre_fantasia : option string;
  razon_social : option string;
  cuit : option string;
  contacto_nombre : option string;
  contacto_telefono : option string;
  comercial_syemed : option string;
  contacto_tecnico : option string;
  motivo_solicitud : option string;
  nombre_apellido_paciente : option string;
  telefono_paciente : option string;
  equipo_origen : option string;
  motivo_cambio_alquiler : option string;
  detalle_fallo : option string;
  fallas_problemas : option (list string);
  equipos : option (list equipo)
}.

(** [not d.get(k)]: the key is absent or holds the empty string. *)
Definition falta (v : option string) : bool :=
  match v with
  | None => true
  | Some s => (s =? EmptyString)%string
  end.

(** [d.get(k) == s]. *)
Definition es (v : option string) (s : string) : bool :=
  match v with
  | None => false
  | Some x => (x =? s)%string
  end.

(** [d.get(k, dflt)]. *)
Definition get {A : Type} (v : option A) (dflt : A) : A :=
  match v with
  | None => dflt
  | Some x => x
  end.

(** [if c: errores.append(mensaje)], as the list of what is appended. *)
Definition si (c : bool) (mensaje : string) : list string :=
  if c then [mensaje] else [].

Definition SERVICIO_TECNICO : string :=
  "Servicio Técnico (reparaciones de equipos en general)".
Definition SERVICIO_POST_VENTA : string :=
  "Servicio Post Venta (para alguno de nuestros productos adquiridos)".
Definition CAMBIO_ALQUILER : string := "Cambio de Alquiler".
Definition CAMBIO_FALLA_CRITICA : string :=
  "Cambio por falla de funcionamiento crítica".

Definition ERROR_OPCION : string :=
  "Debe seleccionar al menos una opción o especificar en 'Otros' el motivo de su solicitud".
Definition ERROR_SIN_EQUIPOS : string := "Debe registrar al menos un equipo".

(** The branch [quien_completa == "Colaborador de Syemed"]. *)
Definition errores_colaborador (data : datos) : list string :=
  si (falta (area_solicitante data)) "Área Solicitante es obligatorio"
  ++ si (falta (solicitante data)
         || es (solicitante data) "Seleccionar solicitante...")
        "Solicitante es obligatorio"
  ++ si (falta (equipo_corresponde_a data))
        "'El equipo corresponde a' es obligatorio"
  ++
  let equipo_corresponde_a := get (equipo_corresponde_a data) EmptyString in
  if (equipo_corresponde_a =? "Distribuidor")%string then
    si (falta (nombre_fantasia data)) "Nombre de Fantasía (Distribuidor) es obligatorio"
    ++ si (falta (razon_social data)) "Razón Social (Distribuidor) es obligatorio"
    ++ si (falta (cuit data)) "CUIT (Distribuidor) es obligatorio"
    ++ si (falta (contacto_nombre data)) "Nombre de contacto (Distribuidor) es obligatorio"
    ++ si (falta (contacto_telefono data)) "Teléfono de contacto (Distribuidor) es obligatorio"
    ++ si (falta (contacto_tecnico data)) "Debe indicar si quiere contacto técnico (Distribuidor)"
    ++ si (falta (motivo_solicitud data)) "Motivo de la solicitud (Distribuidor) es obligatorio"
  else if (equipo_corresponde_a =? "Institución")%string then
    si (falta (nombre_fantasia data)) "Nombre del Hospital/Clínica (Institución) es obligatorio"
    ++ si (falta (razon_social data)) "Razón Social (Institución) es obligatorio"
    ++ si (falta (contacto_nombre data)) "Nombre de contacto (Institución) es obligatorio"
    ++ si (falta (contacto_telefono data)) "Teléfono de contacto (Institución) es obligatorio"
    ++ si (falta (contacto_tecnico data)) "Debe indicar si quiere contacto técnico (Institución)"
    ++ si (falta (motivo_solicitud data)) "Motivo de la solicitud (Institución) es obligatorio"
  else if (equipo_corresponde_a =? "Paciente/Particular")%string then
    si (falta (nombre_apellido_paciente data)) "Nombre y Apellido (Paciente) es obligatorio"
    ++ si (falta (telefono_paciente data)) "Teléfono (Paciente) es obligatorio"
    ++ si (falta (equipo_origen data)) "Origen del equipo (Paciente) es obligatorio"
    ++ si (falta (motivo_solicitud data)) "Motivo de la solicitud (Paciente) es obligatorio"
  else [].

(** The branch [quien_completa == "Distribuidor"]. *)
Definition errores_distribuidor (data : datos) : list string :=
  si (falta (nombre_fantasia data)) "Nombre de Fantasía es obligatorio"
  ++ si (falta (razon_social data)) "Razón Social es obligatorio"
  ++ si (falta (cuit data)) "CUIT es obligatorio"
  ++ si (falta (contacto_nombre data)) "Nombre de contacto es obligatorio"
  ++ si (falta (contacto_telefono data)) "Teléfono de contacto es obligatorio"
  ++ si (falta (comercial_syemed data)
         || es (comercial_syemed data) "Seleccionar comercial...")
        "Comercial de contacto en Syemed es obligatorio"
  ++ si (falta (contacto_tecnico data)) "Debe indicar si quiere contacto técnico"
  ++ si (falta (motivo_solicitud data)) "Motivo de la solicitud es obligatorio".

(** The branch [quien_completa == "Institución"]. *)
Definition errores_institucion (data : datos) : list string :=
  si (falta (nombre_fantasia data)) "Nombre del Hospital/Clínica/Sanatorio es obligatorio"
  ++ si (falta (razon_social data)) "Razón Social es obligatorio"
  ++ si (falta (contacto_nombre data)) "Nombre de contacto es obligatorio"
  ++ si (falta (contacto_telefono data)) "Teléfono de contacto es obligatorio"
  ++ si (falta (comercial_syemed data)
         || es (comercial_syemed data) "Seleccionar comercial...")
        "Comercial de contacto en Syemed es obligatorio"
  ++ si (falta (contacto_tecnico data)) "Debe indicar si quiere contacto técnico"
  ++ si (falta (motivo_solicitud data)) "Motivo de la solicitud es obligatorio".

(** The branch [quien_completa == "Paciente/Particular"]. *)
Definition errores_paciente (data : datos) : list string :=
  si (falta (nombre_apellido_paciente data)) "Nombre y Apellido es obligatorio"
  ++ si (falta (telefono_paciente data)) "Teléfono de contacto es obligatorio"
  ++ si (falta (equipo_origen data)) "Origen del equipo es obligatorio"
  ++ si (falta (motivo_solicitud data)) "Motivo de la solicitud es obligatorio".

(** The [if]/[elif] chain on [quien_completa]. *)
Definition errores_solicitante (data : datos) : list string :=
  let quien_completa := get (quien_completa data) EmptyString in
  if (quien_completa =? "Colaborador de Syemed")%string then errores_colaborador data
  else if (quien_completa =? "Distribuidor")%string then errores_distribuidor data
  else if (quien_completa =? "Institución")%string then errores_institucion data
  else if (quien_completa =? "Paciente/Particular")%string then errores_paciente data
  else [].

(** The [if]/[elif] chain on [motivo]. *)
Definition errores_motivo (data : datos) : list string :=
  let motivo := get (motivo_solicitud data) EmptyString in
  if (motivo =? CAMBIO_ALQUILER)%string then
    si ((strip (get (motivo_cambio_alquiler data) EmptyString) =? EmptyString)%string)
       "Debe especificar el motivo del cambio de alquiler"
  else if (motivo =? CAMBIO_FALLA_CRITICA)%string then
    si ((strip (get (detalle_fallo data) EmptyString) =? EmptyString)%string)
       "Debe describir la falla crítica que justifica el cambio"
  else if ((motivo =? SERVICIO_TECNICO) || (motivo =? SERVICIO_POST_VENTA))%string then
    let fallas := get (fallas_problemas data) [] in
    let detalle := get (detalle_fallo data) EmptyString in
    si (match fallas with [] => true | _ :: _ => false end
        && (strip detalle =? EmptyString)%string)
       ERROR_OPCION
  else [].

(** The condition of the comprehension that builds [equipos_validos]. *)
Definition equipo_valido (eq : equipo) : bool :=
  negb (falta (tipo_equipo eq)) && negb (es (tipo_equipo eq) "Seleccionar tipo...").

(** [for i, equipo in enumerate(equipos_validos, 1)], from the ordinal [i] on. *)
Fixpoint errores_de_equipos (i : nat) (equipos_validos : list equipo) : list string :=
  match equipos_validos with
  | [] => []
  | equipo :: resto =>
      si (falta (marca equipo) || es (marca equipo) "Seleccionar marca...")
         ("La marca del equipo " ++ str_nat i ++ " es obligatoria")%string
      ++ si (falta (modelo equipo) || es (modelo equipo) "Seleccionar modelo...")
            ("El modelo del equipo " ++ str_nat i ++ " es obligatorio")%string
      ++ si (falta (numero_serie equipo))
            ("El número de serie del equipo " ++ str_nat i ++ " es obligatorio")%string
      ++ errores_de_equipos (S i) resto
  end.

Definition errores_equipos (data : datos) : list string :=
  let equipos_validos := filter equipo_valido (get (equipos data) []) in
  match equipos_validos with
  | [] => [ERROR_SIN_EQUIPOS]
  | _ :: _ => errores_de_equipos 1 equipos_validos
  end.

(** [validar_campos_obligatorios(data)]: the errors in the order in which
    they are appended, and whether there is none. *)
Definition validar_campos_obligatorios (data : datos) : bool * list string :=
  let errores :=
    si (falta (email data)) "El correo electrónico es obligatorio"
    ++ si (falta (quien_completa data)) "Debe indicar quién completa la solicitud"
    ++ errores_solicitante data
    ++ errores_motivo data
    ++ errores_equipos data in
  ((List.length errores =? 0)%nat, errores).

(** *** Readings used to state the properties *)

(** The message mentions the word, whatever the case of ASCII letters. *)
Definition menciona (palabra mensaje : string) : bool :=
  contiene (Sql.lower_texto palabra) (Sql.lower_texto mensaje).

(** The message names one of the fields asked of a distributor only. *)
Definition sobre_distribuidor (mensaje : string) : bool :=
  menciona "Nombre de Fantasía" mensaje
  || menciona "Razón Social" mensaje
  || menciona "CUIT" mensaje
  || menciona "comercial" mensaje.

(** The e-mail and every field of the distributor branch are filled in. *)
Definition distribuidor_completo (data : datos) : bool :=
  negb (falta (email data))
  && negb (falta (nombre_fantasia data))
  && negb (falta (razon_social data))
  && negb (falta (cuit data))
  && negb (falta (contacto_nombre data))
  && negb (falta (contacto_telefono data))
  && negb (falta (comercial_syemed data)
           || es (comercial_syemed data) "Seleccionar comercial...")
  && negb (falta (contacto_tecnico data)).

(** Type, brand, model and serial number are all chosen or filled in. *)
Definition equipo_completo (eq : equipo) : bool :=
  equipo_valido eq
  && negb (falta (marca eq) || es (marca eq) "Seleccionar marca...")
  && negb (falta (modelo eq) || es (modelo eq) "Seleccionar modelo...")
  && negb (falta (numero_serie eq)).

End Formulario.

(* ===================================================================== *)
(** ** Sample rows and submissions *)
(* ===================================================================== *)

Module Ejemplos.

(** A distributor assigned to the agent Clara, not visible to all. *)
Definition syemed : Clientes.fila :=
  {| Clientes.id := 1;
     Clientes.tipo_cliente := Some "Distribuidor";
     Clientes.nombre_fantasia := Some "Syemed";
     Clientes.razon_social := Some "Grupo Syemed SRL";
     Clientes.nombre_apellido := None;
     Clientes.cuit_dni := Some "30718343832";
     Clientes.telefono := Some "1123730278";
     Clientes.direccion := None;
     Clientes.email := None;
     Clientes.contacto_nombre := None;
     Clientes.comercial_asignado := Some ["Clara"];
     Clientes.visible_para_todos := false;
     Clientes.activo := true;
     Clientes.busqueda_texto := Some "syemed grupo syemed srl 30718343832" |}.

(** A patient visible to all, with no agent. *)
Definition perez : Clientes.fila :=
  {| Clientes.id := 2;
     Clientes.tipo_cliente := Some "Paciente";
     Clientes.nombre_fantasia := None;
     Clientes.razon_social := None;
     Clientes.nombre_apellido := Some "Syeda Perez";
     Clientes.cuit_dni := Some "20123456789";
     Clientes.telefono := None;
     Clientes.direccion := None;
     Clientes.email := None;
     Clientes.contacto_nombre := None;
     Clientes.comercial_asignado := Some [];
     Clientes.visible_para_todos := true;
     Clientes.activo := true;
     Clientes.busqueda_texto := Some "syeda perez 20123456789" |}.

(** One complete equipment entry. *)
Definition respirador : Formulario.equipo :=
  {| Formulario.tipo_equipo := Some "Respirador";
     Formulario.marca := Some "Neumovent";
     Formulario.modelo := Some "Graphnet TS";
     Formulario.numero_serie := Some "SYE001" |}.

(** An entry left on the placeholder of the type selector. *)
Definition sin_tipo : Formulario.equipo :=
  {| Formulario.tipo_equipo := Some "Seleccionar tipo...";
     Formulario.marca := Some "Neumovent";
     Formulario.modelo := Some "Graphnet TS";
     Formulario.numero_serie := Some "SYE002" |}.

(** A distributor asking for technical service, every field filled in, no
    issue selected, with the given free-text detail and equipment list. *)
Definition solicitud_distribuidor
  (detalle : string) (equipos : list Formulario.equipo) : Formulario.datos :=
  {| Formulario.email := Some "compras@syemed.com";
     Formulario.quien_completa := Some "Distribuidor";
     Formulario.area_solicitante := None;
     Formulario.solicitante := None;
     Formulario.equipo_corresponde_a := None;
     Formulario.nombre_fantasia := Some "Syemed";
     Formulario.razon_social := Some "Grupo Syemed SRL";
     Formulario.cuit := Some "30718343832";
     Formulario.contacto_nombre := Some "Ana";
     Formulario.contacto_telefono := Some "1123730278";
     Formulario.comercial_syemed := Some "Clara";
     Formulario.contacto_tecnico := Some "No";
     Formulario.motivo_solicitud := Some Formulario.SERVICIO_TECNICO;
     Formulario.nombre_apellido_paciente := None;
     Formulario.telefono_paciente := None;
     Formulario.equipo_origen := None;
     Formulario.motivo_cambio_alquiler := Some EmptyString;
     Formulario.detalle_fallo := Some detalle;
     Formulario.fallas_problemas := Some [];
     Formulario.equipos := Some equipos |}.

(** A patient who left the phone empty and one equipment without brand. *)
Definition solicitud_paciente : Formulario.datos :=
  {| Formulario.email := Some "juan@example.com";
     Formulario.quien_completa := Some "Paciente/Particular";
     Formulario.area_solicitante := None;
     Formulario.solicitante := None;
     Formulario.equipo_corresponde_a := None;
     Formulario.nombre_fantasia := None;
     Formulario.razon_social := None;
     Formulario.cuit := None;
     Formulario.contacto_nombre := None;
     Formulario.contacto_telefono := None;
     Formulario.comercial_syemed := None;
     Formulario.contacto_tecnico := None;
     Formulario.motivo_solicitud := Some "Baja de Alquiler";
     Formulario.nombre_apellido_paciente := Some "Juan Perez";
     Formulario.telefono_paciente := Some EmptyString;
     Formulario.equipo_origen := Some "Se lo entregaron";
     Formulario.motivo_cambio_alquiler := None;
     Formulario.detalle_fallo := None;
     Formulario.fallas_problemas := None;
     Formulario.equipos :=
       Some [ {| Formulario.tipo_equipo := Some "CPAP";
                 Formulario.marca := Some "Seleccionar marca...";
                 Formulario.modelo := Some "N/E";
                 Formulario.numero_serie := Some "A1" |} ] |}.

End Ejemplos.

(* ===================================================================== *)
(** ** The locale C *)
(* ===================================================================== *)

(** In the locale C [LOWER] folds the ASCII letters only and texts sort by
    their bytes.  The examples of this development run in it; on texts
    whose letters are all ASCII a UTF-8 locale folds the same. *)
#[global] Instance locale_C : Sql.locale.
Proof.
  refine {| Sql.plegar := Sql.lower_texto; Sql.colacion := String.leb |}.
  - abstract
      (assert (Hc : forall c,
                 negb (Ascii.eqb c Sql.comodin_porcentaje)
                 && negb (Ascii.eqb c Sql.comodin_guion)
                 && negb (Ascii.eqb c Sql.escape) = true ->
                 negb (Ascii.eqb (Sql.minuscula c) Sql.comodin_porcentaje)
                 && negb (Ascii.eqb (Sql.minuscula c) Sql.comodin_guion)
                 && negb (Ascii.eqb (Sql.minuscula c) Sql.escape) = true)
         by (intros [[] [] [] [] [] [] [] []]; vm_compute; intros H;
             first [reflexivity | discriminate H]);
       intros s; induction s as [|c s IH]; [reflexivity|];
       cbn [Sql.sin_comodines Sql.lower_texto]; intros H;
       apply andb_prop in H; destruct H as [H Hs];
       rewrite (Hc c H), (IH Hs); reflexivity).
  - abstract
      (intros s; induction s as [|c s IH]; [reflexivity|];
       cbn [Sql.lower_texto append]; rewrite IH; reflexivity).
  - abstract (intros s; reflexivity).
  - abstract
      (assert (Hc : forall c, Texto.es_digito c = true -> Sql.minuscula c = c)
         by (intros [[] [] [] [] [] [] [] []]; vm_compute; intros H;
             first [reflexivity | discriminate H]);
       intros s; induction s as [|c s IH]; [reflexivity|];
       cbn [Texto.solo_digitos Sql.lower_texto]; intros H;
       apply andb_prop in H; destruct H as [H Hs];
       rewrite (Hc c H), (IH Hs); reflexivity).
  - abstract
      (assert (Hc : forall c, Texto.es_digito (Sql.minuscula c) = true ->
                              Texto.es_digito c = true)
         by (intros [[] [] [] [] [] [] [] []]; vm_compute; intros H;
             first [reflexivity | discriminate H]);
       intros s; induction s as [|c s IH]; [reflexivity|];
       cbn [Texto.solo_digitos Sql.lower_texto]; intros H;
       apply andb_prop in H; destruct H as [H Hs];
       rewrite (Hc c H), (IH Hs); reflexivity).
  - abstract (intros a b; apply String.leb_total).
Defined.

(* ===================================================================== *)
(** ** componente_busqueda_clientes.py: insertar_cliente_nuevo *)
(* ===================================================================== *)

Module Alta.
Import Texto Sql Busqueda.

(** The dictionary [datos_cliente], with the keys the function reads with
    [.get]; a key that is absent is [None]. *)
Record datos_cliente : Type := {
  tipo_cliente : option string;
  nombre_fantasia : option string;
  razon_social : option string;
  nombre_apellido : option string;
  cuit_dni : option string;
  telefono : option string;
  direccion : option string;
  email : option string;
  contacto_nombre : option string
}.

(** The driver calls of a function that writes: those of the reading
    functions, [conn.commit()] and [conn.rollback()]. *)
Inductive paso : Type :=
| Op (op : Efectos.operacion)
| Commit
| Rollback.

Inductive evento : Type :=
| Llamada (p : paso)
| StError (mensaje : string).

(** The storage as a writing run sees it: the committed rows of
    [clientes]; the value the database gives the column [id] of the next
    row ([RETURNING id]); the searchable text the database keeps for a row,
    which the INSERT does not write; and for each call the message of the
    exception it raises, if it raises one. *)
Record almacen : Type := {
  filas : list Clientes.fila;
  serial : Z;
  indexar : Clientes.fila -> option string;
  falla : paso -> option string
}.

(** The state of a run: the committed rows, the rows inserted by the open
    transaction, and whether the local variable [conn] is bound. *)
Record estado : Type := {
  comprometidas : list Clientes.fila;
  pendientes : list Clientes.fila;
  conn_en_locals : bool
}.

(** A computation ends with a value or with a raised exception, leaves a
    state, and has emitted a list of events. *)
Definition E (A : Type) : Type := estado -> (string + A) * estado * list evento.

Definition ret {A : Type} (x : A) : E A := fun s => (inr x, s, []).

Definition raise {A : Type} (e : string) : E A := fun s => (inl e, s, []).

Definition bind {A B : Type} (m : E A) (f : A -> E B) : E B :=
  fun s =>
    match m s with
    | (inl e, s', t) => (inl e, s', t)
    | (inr x, s', t) =>
        match f x s' with
        | (r, s'', t') => (r, s'', t ++ t')%list
        end
    end.

(** [try: m except Exception as e: h e]. *)
Definition try_except {A : Type} (m : E A) (h : string -> E A) : E A :=
  fun s =>
    match m s with
    | (inl e, s', t) =>
        match h e s' with
        | (r, s'', t') => (r, s'', t ++ t')%list
        end
    | (inr x, s', t) => (inr x, s', t)
    end.

Definition emitir (ev : evento) : E unit := fun s => (inr tt, s, [ev]).

Definition modificar (f : estado -> estado) : E unit := fun s => (inr tt, f s, []).

Definition leer : E estado := fun s => (inr s, s, []).

(** A driver call: it is made, and then either returns or raises. *)
Definition llamar (a : almacen) (p : paso) : E unit :=
  bind (emitir (Llamada p))
       (fun _ => match falla a p with
                 | Some e => raise e
                 | None => ret tt
                 end).

Definition st_error (mensaje : string) : E unit := emitir (StError mensaje).

End Alta.

Declare Scope alta_scope.
Delimit Scope alta_scope with alta.
Notation "x <- m ;; k" := (Alta.bind m (fun x => k))
  (at level 61, m at next level, right associativity) : alta_scope.
Notation "m ;; k" := (Alta.bind m (fun _ => k))
  (at level 61, right associativity) : alta_scope.

Module AltaCliente.
Import Texto Sql Busqueda Alta.

(** [conn = psycopg2.connect(DATABASE_URL)]: once the call returns, [conn]
    is a local variable. *)
Definition connect (a : almacen) : E unit :=
  (llamar a (Op Efectos.Connect) ;;
   modificar (fun s => {| comprometidas := comprometidas s;
                          pendientes := pendientes s;
                          conn_en_locals := true |}))%alta.

(** [conn.commit()]: the rows of the transaction join the table. *)
Definition commit (a : almacen) : E unit :=
  (llamar a Commit ;;
   modificar (fun s => {| comprometidas := (comprometidas s ++ pendientes s)%list;
                          pendientes := [];
                          conn_en_locals := conn_en_locals s |}))%alta.

(** [conn.rollback()]: the rows of the transaction are dropped. *)
Definition rollback (a : almacen) : E unit :=
  (llamar a Rollback ;;
   modificar (fun s => {| comprometidas := comprometidas s;
                          pendientes := [];
                          conn_en_locals := conn_en_locals s |}))%alta.

(** [[comercial] if comercial else []]. *)
Definition comercial_array (comercial : option string) : list string :=
  match comercial with
  | None => []
  | Some c => if (c =? EmptyString)%string then [] else [c]
  end.

(** The row the INSERT adds: the nine values read from [datos_cliente]
    (the identifier normalised), the array of agents, and TRUE for
    [visible_para_todos] and [activo]. *)
Definition fila_insertada
  (a : almacen) (datos : datos_cliente) (comercial : option string) : Clientes.fila :=
  let columnas (texto : option string) : Clientes.fila :=
    {| Clientes.id := serial a;
       Clientes.tipo_cliente := tipo_cliente datos;
       Clientes.nombre_fantasia := nombre_fantasia datos;
       Clientes.razon_social := razon_social datos;
       Clientes.nombre_apellido := nombre_apellido datos;
       Clientes.cuit_dni :=
         Some (normalizar_cuit_dni
                 (match cuit_dni datos with
                  | None => Some EmptyString
                  | Some v => Some v
                  end));
       Clientes.telefono := telefono datos;
       Clientes.direccion := direccion datos;
       Clientes.email := email datos;
       Clientes.contacto_nombre := contacto_nombre datos;
       Clientes.comercial_asignado := Some (comercial_array comercial);
       Clientes.visible_para_todos := true;
       Clientes.activo := true;
       Clientes.busqueda_texto := texto |} in
  columnas (indexar a (columnas None)).

(** [cur.execute("INSERT INTO clientes (...) VALUES (...) RETURNING id",
    ...)]. *)
Definition execute_insert
  (a : almacen) (datos : datos_cliente) (comercial : option string) : E unit :=
  (llamar a (Op Efectos.Execute) ;;
   modificar (fun s => {| comprometidas := comprometidas s;
                          pendientes := (pendientes s ++ [fila_insertada a datos comercial])%list;
                          conn_en_locals := conn_en_locals s |}))%alta.

(** The body of the [try] of [insertar_cliente_nuevo]. *)
Definition insertar_cliente_nuevo_try
  (a : almacen) (datos : datos_cliente) (comercial : option string) : E (option Z) :=
  (connect a ;;
   llamar a (Op Efectos.Cursor) ;;
   execute_insert a datos comercial ;;
   llamar a (Op Efectos.Fetch) ;;
   let cliente_id := serial a in
   commit a ;;
   llamar a (Op Efectos.CloseCursor) ;;
   llamar a (Op Efectos.CloseConn) ;;
   ret (Some cliente_id))%alta.

(** [insertar_cliente_nuevo(datos_cliente, comercial)]: the identifier of
    the new row, or [None]. *)
Definition insertar_cliente_nuevo
  (a : almacen) (datos : datos_cliente) (comercial : option string) : E (option Z) :=
  try_except
    (insertar_cliente_nuevo_try a datos comercial)
    (fun e =>
       (st_error ("❌ Error al insertar cliente: " ++ e)%string ;;
        s <- leer ;;
        (if conn_en_locals s then rollback a else ret tt) ;;
        ret None)%alta).

(** A call of the function on a storage: what it returns or raises, the
    rows of the table afterwards, and the events. *)
Definition al_llamar {A : Type} (a : almacen) (m : E A)
  : (string + A) * list Clientes.fila * list evento :=
  match m {| comprometidas := filas a; pendientes := []; conn_en_locals := false |} with
  | (r, s, t) => (r, comprometidas s, t)
  end.

(** A storage in which no call raises. *)
Definition sin_fallas
  (tabla : list Clientes.fila) (id : Z) (idx : Clientes.fila -> option string) : almacen :=
  {| filas := tabla; serial := id; indexar := idx; falla := fun _ => None |}.

(** A storage that cannot be reached: [connect] raises. *)
Definition sin_conexion
  (tabla : list Clientes.fila) (id : Z) (idx : Clientes.fila -> option string)
  (e : string) : almacen :=
  {| filas := tabla; serial := id; indexar := idx;
     falla := fun p => match p with Op Efectos.Connect => Some e | _ => None end |}.

(** A storage in which only [cur.close()] raises. *)
Definition falla_al_cerrar
  (tabla : list Clientes.fila) (id : Z) (idx : Clientes.fila -> option string)
  (e : string) : almacen :=
  {| filas := tabla; serial := id; indexar := idx;
     falla := fun p => match p with Op Efectos.CloseCursor => Some e | _ => None end |}.

End AltaCliente.

(* ===================================================================== *)
(** ** Messages of the validator that carry an ordinal *)
(* ===================================================================== *)

Module Ordinales.
Import Texto.

(** The three messages about the equipment with ordinal [i], as
    [validar_campos_obligatorios] formats them. *)
Definition error_marca (i : nat) : string :=
  "La marca del equipo " ++ str_nat i ++ " es obligatoria".

Definition error_modelo (i : nat) : string :=
  "El modelo del equipo " ++ str_nat i ++ " es obligatorio".

Definition error_serie (i : nat) : string :=
  "El número de serie del equipo " ++ str_nat i ++ " es obligatorio".

End Ordinales.

(* ===================================================================== *)
(** ** formulario_ST_V13.py: the rate limit kept in the session *)
(* ===================================================================== *)

Module Limite.
Import Texto.
Local Open Scope Z_scope.

(** A [datetime] is its number of microseconds since 0001-01-01 00:00:00,
    the least one; the greatest is 9999-12-31 23:59:59.999999.  A
    [timedelta] is a number of microseconds that makes at most 999999999
    days, before or after.  Python raises [OverflowError] where a value
    would leave its range. *)
Definition minutes (m : Z) : Z := m * 60000000.

Definition dia : Z := 86400000000.

(** [timedelta(microseconds=d)] is built without [OverflowError]. *)
Definition timedelta_valido (d : Z) : bool :=
  (- 999999999 <=? d / dia) && (d / dia <=? 999999999).

Definition datetime_max : Z := 3652059 * dia - 1.

(** The instant [t] is a [datetime]. *)
Definition datetime_valido (t : Z) : bool := (0 <=? t) && (t <=? datetime_max).

(** [st.session_state], with the two attributes the rate limit uses: an
    attribute that is not set is [None].  The dictionary [rate_limit] maps
    a user key to its list of timestamps, in insertion order. *)
Record sesion : Type := {
  user_id : option string;
  rate_limit : option (list (string * list Z))
}.

(** [d.get(k)] and [k in d]. *)
Fixpoint dict_get (k : string) (d : list (string * list Z)) : option (list Z) :=
  match d with
  | [] => None
  | (k', v) :: d' => if (k' =? k)%string then Some v else dict_get k d'
  end.

(** [d[k] = v]. *)
Fixpoint dict_set (k : string) (v : list Z) (d : list (string * list Z))
  : list (string * list Z) :=
  match d with
  | [] => [(k, v)]
  | (k', v') :: d' =>
      if (k' =? k)%string then (k, v) :: d' else (k', v') :: dict_set k v d'
  end.

(** [str(z)] for an integer. *)
Definition str_Z (z : Z) : string := NilZero.string_of_int (Z.to_int z).

(** [min(l)] for a list that is not empty. *)
Definition min_lista (t : Z) (l : list Z) : Z := fold_left Z.min l t.

(** [obtener_rate_limit_key()]; [id_nuevo] is the digest of the clock that
    a session without [user_id] is given. *)
Definition obtener_rate_limit_key (id_nuevo : string) (s : sesion) : string * sesion :=
  match user_id s with
  | Some u => (u, s)
  | None => (id_nuevo, {| user_id := Some id_nuevo; rate_limit := rate_limit s |})
  end.

(** [verificar_rate_limit(max_solicitudes, ventana_minutos)], called when
    [datetime.now()] is [ahora].  [minutos_enteros d] stands for
    [int(d.total_seconds() / 60)], which the function computes in floating
    point.  The result is the name of the exception raised, or the triple
    returned; the session is the one left behind in both cases.  The list
    comprehension builds [timedelta(minutes=ventana_minutos)] once for each
    timestamp it tests, so not at all for an empty list. *)
Definition verificar_rate_limit
  (minutos_enteros : Z -> Z) (id_nuevo : string) (ahora : Z)
  (max_solicitudes ventana_minutos : Z) (s : sesion)
  : (string + (bool * string * Z)) * sesion :=
  let d0 := match rate_limit s with
            | None => []
            | Some d => d
            end in
  let (user_key, s1) :=
    obtener_rate_limit_key id_nuevo {| user_id := user_id s; rate_limit := Some d0 |} in
  let limpio :=
    match dict_get user_key d0 with
    | Some [] => Some (dict_set user_key [] d0)
    | Some l =>
        if timedelta_valido (minutes ventana_minutos) then
          Some (dict_set user_key
                  (filter (fun timestamp => ahora - timestamp <? minutes ventana_minutos) l)
                  d0)
        else None
    | None => Some d0
    end in
  match limpio with
  | None => (inl "OverflowError"%string, s1)
  | Some d1 =>
      let s2 := {| user_id := user_id s1; rate_limit := Some d1 |} in
      let solicitudes_recientes :=
        Z.of_nat (length (match dict_get user_key d1 with
                          | Some l => l
                          | None => []
                          end)) in
      if max_solicitudes <=? solicitudes_recientes then
        match dict_get user_key d1 with
        | None => (inl "KeyError"%string, s2)
        | Some [] => (inl "ValueError"%string, s2)
        | Some (t :: l) =>
            let tiempo_mas_antiguo := min_lista t l in
            if timedelta_valido (minutes ventana_minutos)
               && datetime_valido (tiempo_mas_antiguo + minutes ventana_minutos)
            then
              let tiempo_restante :=
                minutos_enteros (tiempo_mas_antiguo + minutes ventana_minutos - ahora) in
              (inr (false,
                    ("Has alcanzado el límite de " ++ str_Z max_solicitudes
                     ++ " solicitudes por hora. Intenta en " ++ str_Z tiempo_restante
                     ++ " minutos.")%string,
                    tiempo_restante),
               s2)
            else (inl "OverflowError"%string, s2)
        end
      else (inr (true, "OK"%string, 0), s2)
  end.

(** [registrar_solicitud_rate_limit()], called when [datetime.now()] is
    [ahora]. *)
Definition registrar_solicitud_rate_limit
  (id_nuevo : string) (ahora : Z) (s : sesion) : (string + unit) * sesion :=
  let (user_key, s1) := obtener_rate_limit_key id_nuevo s in
  match rate_limit s1 with
  | None => (inl "AttributeError"%string, s1)
  | Some d0 =>
      let d1 := match dict_get user_key d0 with
                | Some _ => d0
                | None => dict_set user_key [] d0
                end in
      let l := match dict_get user_key d1 with
               | Some l => l
               | None => []
               end in
      (inr tt, {| user_id := user_id s1; rate_limit := Some (dict_set user_key (l ++ [ahora]) d1) |})
  end.

(** The key of the session's user: its [user_id], or the one it is about
    to be given. *)
Definition clave (id_nuevo : string) (s : sesion) : string :=
  match user_id s with
  | Some u => u
  | None => id_nuevo
  end.

(** [d.get(k, [])]. *)
Definition lista_en (k : string) (d : list (string * list Z)) : list Z :=
  match dict_get k d with
  | Some l => l
  | None => []
  end.

(** The timestamps the session keeps under a key. *)
Definition registradas (k : string) (s : sesion) : list Z :=
  match rate_limit s with
  | Some d => lista_en k d
  | None => []
  end.

(** A session in which nothing is set yet. *)
Definition sesion_nueva : sesion := {| user_id := None; rate_limit := None |}.

End Limite.

(* ===================================================================== *)
(** ** Python [str]: indexing and slicing by character *)
(* ===================================================================== *)

Module Caracteres.
Import Texto.

(** The characters of a string, each with its continuation bytes. *)
Fixpoint caracteres (s : string) : list string :=
  match s with
  | EmptyString => []
  | String c s' =>
      match s' with
      | String d _ =>
          if es_continuacion d then
            match caracteres s' with
            | h :: t => String c h :: t
            | [] => [String c EmptyString]
            end
          else String c EmptyString :: caracteres s'
      | EmptyString => [String c EmptyString]
      end
  end.

(** [''.join(l)]. *)
Fixpoint juntar (l : list string) : string :=
  match l with
  | [] => EmptyString
  | h :: t => h ++ juntar t
  end.

(** [s[:n]] for [n >= 0]. *)
Definition hasta (n : nat) (s : string) : string := juntar (firstn n (caracteres s)).

(** [s[n:-1]] for [n >= 0]. *)
Definition desde_sin_ultimo (n : nat) (s : string) : string :=
  juntar (skipn n (removelast (caracteres s))).

(** [s[-1]], which raises [IndexError] on the empty string. *)
Definition ultimo (s : string) : option string :=
  match caracteres s with
  | [] => None
  | h :: t => Some (last t h)
  end.

End Caracteres.

(* ===================================================================== *)
(** ** componente_busqueda_clientes.py: mostrar_tarjeta_cliente *)
(* ===================================================================== *)

Module Tarjeta.
Import Texto Caracteres.

(** [str(v)] inside an f-string, for a value that is a [str] or [None]. *)
Definition str_opcional (v : option string) : string :=
  match v with
  | Some s => s
  | None => "None"
  end.

(** A value that is neither [None] nor the empty string. *)
Definition presente (v : option string) : bool :=
  match v with
  | Some s => negb (s =? EmptyString)
  | None => false
  end.

(** The Streamlit calls of the function, with the arguments it gives. *)
Inductive llamada : Type :=
| Expander (label : string)
| Columns
| Markdown (body : string)
| Button (label key : string)
| Warning (body : string)
| Info (body : string).

(** How a run ends: it returns, it raises, or it stores the customer as the
    selected one and asks Streamlit to run the script again. *)
Inductive final : Type :=
| Retorna
| Lanza (excepcion : string)
| Rerun (seleccionado : Resultado.fila).

(** The label of the expander; [inl] is the exception that evaluating it
    raises. *)
Definition titulo (cliente : Resultado.fila) : string + string :=
  match Resultado.cuit_dni cliente with
  | None => inl "TypeError"
  | Some cuit =>
      match ultimo cuit with
      | None => inl "IndexError"
      | Some u =>
          inr ("📌 " ++ str_opcional (Resultado.nombre_display cliente) ++ " - "
               ++ hasta 2 cuit ++ "-" ++ desde_sin_ultimo 2 cuit ++ "-" ++ u)
      end
  end.

Definition si_presente (v : option string) (body : string) : list llamada :=
  if presente v then [Markdown body] else [].

(** The key of the button of a card. *)
Definition clave_de_tarjeta (key_prefix : string) (cliente : Resultado.fila) : string :=
  key_prefix ++ "_sel_" ++ Limite.str_Z (Resultado.id cliente).

(** [mostrar_tarjeta_cliente(cliente, key_prefix)]; [pulsado] is what
    [st.button] returns. *)
Definition mostrar_tarjeta_cliente
  (pulsado : bool) (cliente : Resultado.fila) (key_prefix : string)
  : list llamada * final :=
  match titulo cliente with
  | inl e => ([], Lanza e)
  | inr label =>
      let direccion := str_opcional (Resultado.direccion cliente) in
      let tipo :=
        [Expander label; Columns;
         Markdown ("**Tipo:** " ++ str_opcional (Resultado.tipo_cliente cliente))] in
      let razon :=
        if presente (Resultado.razon_social cliente)
           && negb (match Resultado.razon_social cliente,
                          Resultado.nombre_display cliente with
                    | Some a, Some b => (a =? b)%string
                    | None, None => true
                    | _, _ => false
                    end)
        then [Markdown ("**Razón Social:** "
                        ++ str_opcional (Resultado.razon_social cliente))]
        else [] in
      let telefono :=
        si_presente (Resultado.telefono cliente)
          ("**Teléfono:** " ++ str_opcional (Resultado.telefono cliente)) in
      let domicilio :=
        si_presente (Resultado.direccion cliente)
          ("**Dirección:** " ++ hasta 80 direccion
           ++ (if (80 <? py_len direccion)%nat then "..." else EmptyString)) in
      let contacto :=
        si_presente (Resultado.contacto_nombre cliente)
          ("**Contacto:** " ++ str_opcional (Resultado.contacto_nombre cliente)) in
      let boton :=
        [Button "✅ Seleccionar" (clave_de_tarjeta key_prefix cliente)] in
      let llamadas :=
        (tipo ++ razon ++ telefono ++ domicilio ++ contacto ++ boton)%list in
      (llamadas, if pulsado then Rerun cliente else Retorna)
  end.

(** The cards of a list of customers, one after the other, as the selector
    shows them: the first run that does not return ends the whole. *)
Fixpoint mostrar_tarjetas
  (pulsado : Resultado.fila -> bool) (clientes : list Resultado.fila) (key_prefix : string)
  : list llamada * final :=
  match clientes with
  | [] => ([], Retorna)
  | cliente :: resto =>
      match mostrar_tarjeta_cliente (pulsado cliente) cliente key_prefix with
      | (l, Retorna) =>
          let (l', f) := mostrar_tarjetas pulsado resto key_prefix in ((l ++ l')%list, f)
      | (l, f) => (l, f)
      end
  end.

(** A group of the selector: its heading and its cards, nothing when the
    group is empty. *)
Definition mostrar_grupo
  (encabezado : string) (pulsado : Resultado.fila -> bool)
  (clientes : list Resultado.fila) (key_prefix : string)
  : list llamada * final :=
  match clientes with
  | [] => ([], Retorna)
  | _ :: _ =>
      let (l, f) := mostrar_tarjetas pulsado clientes key_prefix in
      (Markdown encabezado :: l, f)
  end.

(** What [componente_selector_cliente_inteligente] does with the list that
    [buscar_clientes_db] returned. *)
Definition mostrar_resultados
  (pulsado : Resultado.fila -> bool) (resultados : list Resultado.fila) (key_prefix : string)
  : list llamada * final :=
  match resultados with
  | [] =>
      ([Warning "⚠️ No se encontraron clientes con ese criterio";
        Info "💡 Puede crear un nuevo cliente con el botón 'Nuevo'"], Retorna)
  | _ :: _ =>
      let clientes_prioritarios :=
        filter (fun r => (1000 <=? Resultado.relevancia_score r)%Z) resultados in
      let clientes_comunes :=
        filter (fun r => (Resultado.relevancia_score r <? 1000)%Z) resultados in
      match mostrar_grupo "#### 🔥 Tus clientes asignados" pulsado
              clientes_prioritarios key_prefix with
      | (l, Retorna) =>
          let (l', f) := mostrar_grupo "#### 📋 Otros clientes" pulsado
                           clientes_comunes key_prefix in
          ((l ++ l')%list, f)
      | (l, f) => (l, f)
      end
  end.

(** The labels of the expanders among the calls, in order. *)
Fixpoint etiquetas (l : list llamada) : list string :=
  match l with
  | [] => []
  | Expander label :: t => label :: etiquetas t
  | _ :: t => etiquetas t
  end.

(** The keys of the buttons among the calls, in order. *)
Fixpoint claves (l : list llamada) : list string :=
  match l with
  | [] => []
  | Button _ key :: t => key :: claves t
  | _ :: t => claves t
  end.

End Tarjeta.

(* ===================================================================== *)
(** ** formulario_ST_V13.py: sanitizar_texto, sanitizar_numero_serie *)
(* ===================================================================== *)

Module Sanitizar.
Import Texto Caracteres.

(** [s[:n]] for any integer [n]: a negative [n] counts from the end. *)
Definition hasta_Z (n : Z) (s : string) : string :=
  let l := caracteres s in
  if (n <? 0)%Z then juntar (firstn (length l - Z.to_nat (- n)) l)
  else juntar (firstn (Z.to_nat n) l).

(** [s.replace(c, '')] for a character of one byte. *)
Fixpoint quitar (c : ascii) (s : string) : string :=
  match s with
  | EmptyString => EmptyString
  | String d s' => if Ascii.eqb d c then quitar c s' else String d (quitar c s')
  end.

Definition caracteres_peligrosos : list ascii :=
  ["<"; ">"; "{"; "}"; "|"; ascii_of_nat 92; "^"; "~"; "["; "]"; "`"]%char.

(** The longest prefix of [s] in which no whitespace character begins, and
    what follows it. *)
Fixpoint palabra (s : string) : string * string :=
  match s with
  | EmptyString => (EmptyString, EmptyString)
  | String c s' =>
      match espacio_inicial s with
      | Some _ => (EmptyString, s)
      | None => let (w, r) := palabra s' in (String c w, r)
      end
  end.

(** [s.split()]: the maximal runs of characters that are not whitespace;
    the fuel is one unit per word. *)
Fixpoint split_aux (fuel : nat) (s : string) : list string :=
  match fuel with
  | O => []
  | S fuel' =>
      match lstrip s with
      | EmptyString => []
      | String c t => let (w, r) := palabra (String c t) in w :: split_aux fuel' r
      end
  end.

Definition split (s : string) : list string := split_aux (String.length s) s.

(** [sep.join(l)]. *)
Fixpoint unir (sep : string) (l : list string) : string :=
  match l with
  | [] => EmptyString
  | [w] => w
  | w :: l' => w ++ sep ++ unir sep l'
  end.

(** [sanitizar_texto(texto, max_length)] for a [texto] that is a [str] or
    [None]. *)
Definition sanitizar_texto (texto : option string) (max_length : Z) : string :=
  match texto with
  | None => EmptyString
  | Some t =>
      if t =? EmptyString then EmptyString
      else
        let texto := hasta_Z max_length t in
        let texto := fold_left (fun texto char => quitar char texto)
                       caracteres_peligrosos texto in
        let texto := unir " " (split texto) in
        strip texto
  end.

(** The class [[a-zA-Z0-9\-]] of one-byte characters. *)
Definition alfanumerico_o_guion (c : ascii) : bool :=
  (((97 <=? codigo c) && (codigo c <=? 122))
   || ((65 <=? codigo c) && (codigo c <=? 90))
   || ((48 <=? codigo c) && (codigo c <=? 57))
   || (codigo c =? 45))%nat.

(** The class [[a-zA-Z0-9\-\s]] of a Python 3 [str] pattern, on one
    character: [\s] is the whitespace of [str.isspace]. *)
Definition en_clase_serie (car : string) : bool :=
  match car with
  | String c EmptyString => alfanumerico_o_guion c
  | _ => false
  end
  || match espacio_inicial car with
     | Some EmptyString => true
     | _ => false
     end.

(** [re.sub(r'[^a-zA-Z0-9\-\s]', '', s)]. *)
Definition re_sub_serie (s : string) : string :=
  juntar (filter en_clase_serie (caracteres s)).

(** [sanitizar_numero_serie(numero_serie)] for a [numero_serie] that is a
    [str] or [None]. *)
Definition sanitizar_numero_serie (numero_serie : option string) : string :=
  match numero_serie with
  | None => EmptyString
  | Some s =>
      if s =? EmptyString then EmptyString
      else strip (re_sub_serie s)
  end.

(** Every byte of [s] satisfies [p]. *)
Fixpoint todos (p : ascii -> bool) (s : string) : bool :=
  match s with
  | EmptyString => true
  | String c s' => p c && todos p s'
  end.

(** One of the characters that [sanitizar_texto] removes. *)
Definition es_peligroso (c : ascii) : bool := existsb (Ascii.eqb c) caracteres_peligrosos.

(** A byte of a character beyond ASCII. *)
Definition no_ascii (c : ascii) : bool := (128 <=? codigo c)%nat.

(** The one-byte whitespace characters: U+0009..U+000D and U+001C..U+0020. *)
Definition espacio_ascii (c : ascii) : bool :=
  (((9 <=? codigo c) && (codigo c <=? 13)) || ((28 <=? codigo c) && (codigo c <=? 32)))%nat.

End Sanitizar.

(* ===================================================================== *)
(** ** More sample data *)
(* ===================================================================== *)

Module MasEjemplos.

(** A distributor of another agent, visible to all, whose trade name ends
    with the digits of its identifier. *)
Definition farmacia : Clientes.fila :=
  {| Clientes.id := 3;
     Clientes.tipo_cliente := Some "Distribuidor";
     Clientes.nombre_fantasia := Some "Farmacia 24";
     Clientes.razon_social := Some "Farmacia 24 SA";
     Clientes.nombre_apellido := None;
     Clientes.cuit_dni := Some "24";
     Clientes.telefono := None;
     Clientes.direccion := None;
     Clientes.email := None;
     Clientes.contacto_nombre := None;
     Clientes.comercial_asignado := Some ["Lucas"];
     Clientes.visible_para_todos := true;
     Clientes.activo := true;
     Clientes.busqueda_texto := Some "farmacia 24 farmacia 24 sa 24" |}.

(** What the agent Clara types to register a new distributor. *)
Definition alta_syemed : Alta.datos_cliente :=
  {| Alta.tipo_cliente := Some "Distribuidor";
     Alta.nombre_fantasia := Some "Syemed";
     Alta.razon_social := Some "Grupo Syemed SRL";
     Alta.nombre_apellido := None;
     Alta.cuit_dni := Some "30-71834383-2";
     Alta.telefono := Some "1123730278";
     Alta.direccion := Some EmptyString;
     Alta.email := Some EmptyString;
     Alta.contacto_nombre := Some "Ana" |}.

(** A storage that keeps no searchable text. *)
Definition sin_indice (f : Clientes.fila) : option string := None.

(** One reading of [int(d.total_seconds() / 60)]: the whole minutes of a
    number of microseconds. *)
Definition minutos_exactos (d : Z) : Z := Z.quot d 60000000.

End MasEjemplos.

(* ===================================================================== *)
(** * Properties *)
(* ===================================================================== *)

(** ** Digits and normalisation *)

Section Normalizacion.
Import Texto Busqueda.

Lemma re_sub_no_digitos_solo_digitos (s : string) :
  solo_digitos (re_sub_no_digitos s) = true.
Proof.
  induction s as [|c s IH]; simpl; [reflexivity|].
  destruct (es_digito c) eqn:Hc; simpl; [rewrite Hc; exact IH | exact IH].
Qed.

Lemma re_sub_no_digitos_fijo (s : string) :
  solo_digitos s = true -> re_sub_no_digitos s = s.
Proof.
  induction s as [|c s IH]; simpl; [reflexivity|].
  intros H. apply andb_prop in H. destruct H as [Hc Hs].
  rewrite Hc. f_equal. apply IH. exact Hs.
Qed.

Lemma re_sub_no_digitos_sin_digitos (s : string) :
  sin_digitos s = true -> re_sub_no_digitos s = EmptyString.
Proof.
  induction s as [|c s IH]; simpl; [reflexivity|].
  intros H. apply andb_prop in H. destruct H as [Hc Hs].
  apply negb_true_iff in Hc. rewrite Hc. apply IH. exact Hs.
Qed.

Lemma normalizar_cuit_dni_solo_digitos (x : option string) :
  solo_digitos (normalizar_cuit_dni x) = true.
Proof.
  destruct x as [s|]; simpl; [|reflexivity].
  destruct (String.eqb s EmptyString); [reflexivity|].
  apply re_sub_no_digitos_solo_digitos.
Qed.

Lemma normalizar_cuit_dni_fijo (s : string) :
  solo_digitos s = true -> normalizar_cuit_dni (Some s) = s.
Proof.
  intros H. unfold normalizar_cuit_dni.
  destruct (String.eqb_spec s EmptyString) as [->|_]; [reflexivity|].
  apply re_sub_no_digitos_fijo. exact H.
Qed.

(** C8.  Normalising a string of digits returns it unchanged, and for every
    argument (a string or [None]) normalising the normalised value gives the
    normalised value again. *)
Theorem normalizar_cuit_dni_idempotente (x : option string) :
  normalizar_cuit_dni (Some (normalizar_cuit_dni x)) = normalizar_cuit_dni x
  /\ (forall s, x = Some s -> solo_digitos s = true -> normalizar_cuit_dni x = s).
Proof.
  split.
  - apply normalizar_cuit_dni_fijo. apply normalizar_cuit_dni_solo_digitos.
  - intros s -> H. apply normalizar_cuit_dni_fijo. exact H.
Qed.

Lemma normalizar_cuit_dni_idempotente_witness :
  normalizar_cuit_dni (Some (normalizar_cuit_dni (Some "30718343832")))
  = normalizar_cuit_dni (Some "30718343832")
  /\ normalizar_cuit_dni (Some "30718343832") = "30718343832".
Proof.
  destruct (normalizar_cuit_dni_idempotente (Some "30718343832")) as [H1 H2].
  split; [exact H1 | apply (H2 "30718343832"); reflexivity].
Defined.

End Normalizacion.

(** ** Lists *)

Section Listas.
Context {A : Type}.

Lemma filter_nada (f : A -> bool) (l : list A) :
  Forall (fun x => f x = false) l -> filter f l = [].
Proof.
  induction 1 as [|x l Hx _ IH]; simpl; [reflexivity|]. rewrite Hx. exact IH.
Qed.

Lemma In_firstn (n : nat) (l : list A) (x : A) :
  In x (firstn n l) -> In x l.
Proof.
  revert l. induction n as [|n IH]; intros [|y l]; simpl; try tauto.
  intros [H|H]; [left; exact H | right; apply IH; exact H].
Qed.

Lemma firstn_Sorted (R : A -> A -> Prop) (n : nat) (l : list A) :
  Sorted R l -> Sorted R (firstn n l).
Proof.
  revert l. induction n as [|n IH]; intros l Hs; [constructor|].
  destruct l as [|x l]; [constructor|].
  apply Sorted_inv in Hs. destruct Hs as [Hl Hhd].
  simpl. constructor; [apply IH; exact Hl|].
  destruct n; [constructor|].
  destruct l as [|y l]; [constructor|].
  simpl. constructor. apply HdRel_inv in Hhd. exact Hhd.
Qed.

Lemma StronglySorted_nth_error (R : A -> A -> Prop) (l : list A) :
  StronglySorted R l ->
  forall i j x y, (i < j)%nat ->
    nth_error l i = Some x -> nth_error l j = Some y -> R x y.
Proof.
  induction 1 as [|a l Hl IH Hall]; intros i j x y Hij Hi Hj.
  - destruct i; discriminate Hi.
  - destruct j as [|j]; [lia|].
    simpl in Hj. destruct i as [|i].
    + simpl in Hi. injection Hi as <-.
      rewrite Forall_forall in Hall. apply Hall.
      apply nth_error_In with j. exact Hj.
    + simpl in Hi. apply (IH i j); [lia | exact Hi | exact Hj].
Qed.

End Listas.

(** ** Where LIKE raises *)

Section ErroresDeLike.
Import Texto Sql Busqueda.
Context {L : locale}.

Lemma termina_bien_aux_vacio (n : nat) : termina_bien_aux n EmptyString = true.
Proof. destruct n; reflexivity. Qed.

(** A pattern that ends in [%] ends well, whatever stands before. *)
Lemma termina_bien_aux_porcentaje (n : nat) (x : string) :
  termina_bien_aux n (x ++ "%") = true.
Proof.
  revert x. induction n as [|n IH]; intros x; [reflexivity|].
  destruct x as [|c x]; cbn [append termina_bien_aux].
  - change (Ascii.eqb "%" escape) with false. apply termina_bien_aux_vacio.
  - destruct (Ascii.eqb c escape); [|apply IH].
    destruct x as [|d x]; cbn [append]; [apply termina_bien_aux_vacio | apply IH].
Qed.

Lemma termina_bien_aux_sin_comodines (n : nat) (p : string) :
  sin_comodines p = true -> termina_bien_aux n p = true.
Proof.
  revert p. induction n as [|n IH]; intros p Hp; [reflexivity|].
  destruct p as [|c p]; [reflexivity|].
  cbn [sin_comodines] in Hp.
  apply andb_prop in Hp. destruct Hp as [Hc Hp].
  apply andb_prop in Hc. destruct Hc as [_ Hc]. apply negb_true_iff in Hc.
  cbn [termina_bien_aux]. rewrite Hc. apply IH. exact Hp.
Qed.

(** [MatchText] raises on no text when the pattern ends well. *)
Lemma match_text_termina_bien (n : nat) :
  forall p, (String.length p <= n)%nat -> termina_bien_aux n p = true ->
  forall tras t, match_text tras p t <> LikeError.
Proof.
  induction n as [|n IH]; intros p Hn Hp tras t.
  - destruct p; [|simpl in Hn; lia]. destruct tras, t; discriminate.
  - destruct p as [|c p']; [destruct tras, t; discriminate|].
    cbn [termina_bien_aux] in Hp. cbn [String.length] in Hn.
    assert (Hp' : Ascii.eqb c escape = false ->
                  forall tras t, match_text tras p' t <> LikeError).
    { intros Hc. rewrite Hc in Hp. apply IH; [lia | exact Hp]. }
    assert (Hp'' : Ascii.eqb c escape = true ->
                   exists d p'', p' = String d p''
                                 /\ forall tras t, match_text tras p'' t <> LikeError).
    { intros Hc. rewrite Hc in Hp. destruct p' as [|d p'']; [discriminate Hp|].
      exists d, p''. split; [reflexivity|]. cbn [String.length] in Hn.
      apply IH; [lia | exact Hp]. }
    assert (Hpor : Ascii.eqb c comodin_porcentaje = true -> Ascii.eqb c escape = false).
    { intros H. apply Ascii.eqb_eq in H. subst c. reflexivity. }
    assert (Hgui : Ascii.eqb c comodin_guion = true -> Ascii.eqb c escape = false).
    { intros H. apply Ascii.eqb_eq in H. subst c. reflexivity. }
    destruct tras.
    + cbn [match_text].
      destruct (Ascii.eqb c comodin_porcentaje) eqn:E1; [apply Hp'; auto|].
      destruct (Ascii.eqb c comodin_guion) eqn:E2.
      { destruct t; [discriminate | apply Hp'; auto]. }
      destruct (Ascii.eqb c escape) eqn:E3.
      * destruct (Hp'' eq_refl) as (d & p'' & -> & Hd).
        generalize true as inicio.
        induction t as [|x t IHt]; intros inicio; [discriminate|].
        destruct (negb inicio && es_continuacion x); [apply IHt|].
        destruct (Ascii.eqb x d); [|apply IHt].
        specialize (Hd false t).
        destruct (match_text false p'' t); try discriminate; [apply IHt | congruence].
      * generalize true as inicio.
        induction t as [|x t IHt]; intros inicio; [discriminate|].
        destruct (negb inicio && es_continuacion x); [apply IHt|].
        destruct (Ascii.eqb x c); [|apply IHt].
        pose proof (Hp' eq_refl false t) as Hd.
        destruct (match_text false p' t); try discriminate; [apply IHt | congruence].
    + cbn [match_text].
      destruct t as [|x t]; [destruct (solo_porcentajes (String c p')); discriminate|].
      destruct (Ascii.eqb c escape) eqn:E3.
      * destruct (Hp'' eq_refl) as (d & p'' & -> & Hd).
        destruct (Ascii.eqb d x); [apply Hd | discriminate].
      * destruct (Ascii.eqb c comodin_porcentaje); [apply Hp'; reflexivity|].
        destruct (Ascii.eqb c comodin_guion); [apply Hp'; reflexivity|].
        destruct (Ascii.eqb c x); [apply Hp'; reflexivity | discriminate].
Qed.

Lemma like_lanza_termina_bien (p t : string) :
  termina_bien p = true -> like_lanza p t = false.
Proof.
  intros Hp. unfold like_lanza.
  pose proof (match_text_termina_bien (String.length p) p (Nat.le_refl _) Hp false t) as H.
  destruct (match_text false p t); try reflexivity. congruence.
Qed.

Lemma like_lanza_porcentaje (x t : string) : like_lanza (x ++ "%") t = false.
Proof. apply like_lanza_termina_bien. apply termina_bien_aux_porcentaje. Qed.

Lemma like_lanza_sin_comodines (p t : string) :
  sin_comodines p = true -> like_lanza p t = false.
Proof.
  intros Hp. apply like_lanza_termina_bien.
  apply termina_bien_aux_sin_comodines. exact Hp.
Qed.

(** The patterns that [buscar_clientes_db] builds with a [%] at the end. *)
Lemma like_error_inicio (a : option string) (q : string) :
  like_error (lower a) (lower (Some (q ++ "%")%string)) = false.
Proof.
  destruct a as [s|]; [|reflexivity]. unfold lower, option_map, like_error.
  rewrite plegar_porcentaje_final. apply like_lanza_porcentaje.
Qed.

Lemma like_error_parcial (a : option string) (q : string) :
  like_error (lower a) (lower (Some ("%" ++ q ++ "%")%string)) = false.
Proof.
  destruct a as [s|]; [|reflexivity]. unfold lower, option_map, like_error.
  rewrite plegar_porcentaje_inicial, plegar_porcentaje_final.
  apply (like_lanza_porcentaje ("%" ++ plegar q)).
Qed.

Lemma ilike_error_parcial (a : option string) (q : string) :
  ilike_error a (Some ("%" ++ q ++ "%")%string) = false.
Proof. apply like_error_parcial. Qed.

Lemma condicion_where_no_lanza (q : string) (c : Clientes.fila) :
  condicion_where_lanza ("%" ++ q ++ "%") ("%" ++ q ++ "%") c = false.
Proof.
  unfold condicion_where_lanza. rewrite !ilike_error_parcial.
  rewrite andb_false_r. apply andb_false_r.
Qed.

Lemma bonus_cuit_dni_no_lanza (tn : string) (c : Clientes.fila) :
  bonus_cuit_dni_lanza tn ("%" ++ tn ++ "%") c = false.
Proof.
  unfold bonus_cuit_dni_lanza, like_error.
  destruct (Clientes.cuit_dni c) as [s|]; [|apply andb_false_r].
  rewrite (like_lanza_porcentaje ("%" ++ tn)). apply andb_false_r.
Qed.

(** Of the LIKE of the statement only the first of the name bonus, whose
    pattern is the query as it was typed, can raise. *)
Lemma bonus_nombre_lanza_exacto (q : string) (c : Clientes.fila) :
  bonus_nombre_lanza q (q ++ "%") ("%" ++ q ++ "%") c
  = like_error (lower (coalesce [Clientes.nombre_fantasia c;
                                 Clientes.nombre_apellido c;
                                 Clientes.razon_social c]))
               (lower (Some q)).
Proof.
  unfold bonus_nombre_lanza. cbv zeta.
  rewrite like_error_inicio, ilike_error_parcial.
  rewrite andb_false_r, orb_false_l, andb_false_r. apply orb_false_r.
Qed.

Lemma fila_lanza_de_busqueda (q : string) (tipo : option string) (c : Clientes.fila) :
  fila_lanza (normalizar_cuit_dni (Some q)) ("%" ++ normalizar_cuit_dni (Some q) ++ "%")
    q (q ++ "%") ("%" ++ q ++ "%") ("%" ++ q ++ "%") ("%" ++ q ++ "%") tipo tipo c
  = condicion_where ("%" ++ q ++ "%") ("%" ++ q ++ "%") tipo tipo c
    && like_error (lower (coalesce [Clientes.nombre_fantasia c;
                                    Clientes.nombre_apellido c;
                                    Clientes.razon_social c]))
                  (lower (Some q)).
Proof.
  unfold fila_lanza.
  rewrite condicion_where_no_lanza, bonus_cuit_dni_no_lanza, bonus_nombre_lanza_exacto.
  reflexivity.
Qed.

Lemma consulta_busqueda_no_lanza (q : string) (tipo : option string)
  (tabla : list Clientes.fila) :
  (forall c, In c tabla ->
     condicion_where ("%" ++ q ++ "%") ("%" ++ q ++ "%") tipo tipo c = false
     \/ like_error (lower (coalesce [Clientes.nombre_fantasia c;
                                     Clientes.nombre_apellido c;
                                     Clientes.razon_social c]))
                   (lower (Some q)) = false) ->
  consulta_busqueda_lanza
    (normalizar_cuit_dni (Some q)) ("%" ++ normalizar_cuit_dni (Some q) ++ "%")
    q (q ++ "%") ("%" ++ q ++ "%") ("%" ++ q ++ "%") ("%" ++ q ++ "%") tipo tipo tabla
  = false.
Proof.
  intros H. unfold consulta_busqueda_lanza.
  induction tabla as [|c tabla IH]; [reflexivity|].
  cbn [existsb]. rewrite fila_lanza_de_busqueda.
  rewrite IH by (intros c' Hc'; apply H; right; exact Hc').
  destruct (H c (or_introl eq_refl)) as [Hw|He]; rewrite ?Hw, ?He, ?andb_false_r;
    reflexivity.
Qed.

Lemma consulta_busqueda_no_lanza_sin_comodines (q : string) (tipo : option string)
  (tabla : list Clientes.fila) :
  sin_comodines q = true ->
  consulta_busqueda_lanza
    (normalizar_cuit_dni (Some q)) ("%" ++ normalizar_cuit_dni (Some q) ++ "%")
    q (q ++ "%") ("%" ++ q ++ "%") ("%" ++ q ++ "%") ("%" ++ q ++ "%") tipo tipo tabla
  = false.
Proof.
  intros Hq. apply consulta_busqueda_no_lanza. intros c _. right.
  destruct (coalesce _) as [s|]; [|reflexivity].
  unfold lower, option_map, like_error.
  apply like_lanza_sin_comodines, plegar_sin_comodines. exact Hq.
Qed.

End ErroresDeLike.

(** ** Runs of the two functions that reach the storage *)

Section Ejecuciones.
Import Texto Sql Efectos Busqueda.
Context {L : locale}.

Ltac por_fallas bd :=
  unfold buscar_clientes_db_try, verificar_cuit_dni_existe_try,
         try_except, llamar, st_error, emitir, bind, ret, raise;
  destruct (falla bd Connect); simpl; try tauto;
  destruct (falla bd Cursor); simpl; try tauto.

(** What [buscar_clientes_db] returns: nothing is ever raised, and the
    list is empty or the result of the statement. *)
Lemma buscar_clientes_db_valor bd q tipo comercial limite :
  valor (buscar_clientes_db bd q tipo comercial limite) = inr []
  \/ valor (buscar_clientes_db bd q tipo comercial limite)
     = inr (consulta_busqueda comercial
              (normalizar_cuit_dni (Some q))
              ("%" ++ normalizar_cuit_dni (Some q) ++ "%")
              q (q ++ "%") ("%" ++ q ++ "%") ("%" ++ q ++ "%") ("%" ++ q ++ "%")
              tipo tipo limite (clientes bd)).
Proof.
  unfold buscar_clientes_db, valor.
  destruct (py_len q <? 2)%nat; [left; reflexivity|].
  por_fallas bd.
  destruct (tiene_nul q || tiene_nul_opcional tipo || tiene_nul_opcional comercial);
    simpl; try tauto.
  destruct (falla bd Execute); simpl; try tauto.
  destruct ((limite <? - 9223372036854775808)%Z || (9223372036854775808 <=? limite)%Z);
    simpl; try tauto.
  destruct (limite <? 0)%Z; simpl; try tauto.
  match goal with
  | |- context [consulta_busqueda_lanza ?a ?b ?c ?d ?e ?f ?g ?h ?i ?t] =>
      destruct (consulta_busqueda_lanza a b c d e f g h i t)
  end; simpl; try tauto.
  destruct (falla bd Fetch); simpl; try tauto.
  destruct (falla bd CloseCursor); simpl; try tauto.
  destruct (falla bd CloseConn); simpl; tauto.
Qed.

(** The run in which nothing raises: the six storage calls, and the result
    of the statement. *)
Lemma buscar_clientes_db_corrida bd q tipo comercial limite :
  (2 <= py_len q)%nat ->
  (forall op, falla bd op = None) ->
  parametros_validos q tipo comercial limite = true ->
  consulta_busqueda_lanza
    (normalizar_cuit_dni (Some q)) ("%" ++ normalizar_cuit_dni (Some q) ++ "%")
    q (q ++ "%") ("%" ++ q ++ "%") ("%" ++ q ++ "%") ("%" ++ q ++ "%") tipo tipo
    (clientes bd) = false ->
  buscar_clientes_db bd q tipo comercial limite
  = (inr (consulta_busqueda comercial
            (normalizar_cuit_dni (Some q))
            ("%" ++ normalizar_cuit_dni (Some q) ++ "%")
            q (q ++ "%") ("%" ++ q ++ "%") ("%" ++ q ++ "%") ("%" ++ q ++ "%")
            tipo tipo limite (clientes bd)),
     [Llamada Connect; Llamada Cursor; Llamada Execute; Llamada Fetch;
      Llamada CloseCursor; Llamada CloseConn]).
Proof.
  intros Hlen Hf Hp Hno.
  assert (Hl : (py_len q <? 2)%nat = false) by (apply Nat.ltb_ge; exact Hlen).
  unfold parametros_validos in Hp.
  repeat (apply andb_prop in Hp; destruct Hp as [Hp ?]).
  repeat match goal with
         | H : negb _ = true |- _ => apply negb_true_iff in H
         end.
  assert (Hz : (limite <? 0)%Z = false) by (apply Z.ltb_ge, Z.leb_le; assumption).
  assert (Hb : (limite <? - 9223372036854775808)%Z = false)
    by (apply Z.ltb_ge; apply Z.ltb_ge in Hz; lia).
  assert (Ha : (9223372036854775808 <=? limite)%Z = false)
    by (apply Z.leb_gt, Z.ltb_lt; assumption).
  unfold buscar_clientes_db. rewrite Hl.
  unfold buscar_clientes_db_try, try_except, llamar, emitir, bind, ret, raise.
  rewrite !Hf. cbv beta iota zeta.
  match goal with
  | H1 : tiene_nul q = false, H2 : tiene_nul_opcional tipo = false,
    H3 : tiene_nul_opcional comercial = false |- _ => rewrite H1, H2, H3
  end.
  rewrite Hb, Ha, Hz, Hno. reflexivity.
Qed.

(** C7.  A query of fewer than two characters gives the empty list, and the
    run makes no storage call and shows no message, whatever the type
    filter, the agent, the limit, the locale and the state of the storage. *)
Theorem buscar_clientes_db_texto_corto
  bd (texto_busqueda : string) (tipo_cliente comercial : option string) (limite : Z) :
  (py_len texto_busqueda < 2)%nat ->
  buscar_clientes_db bd texto_busqueda tipo_cliente comercial limite = (inr [], []).
Proof.
  intros H. unfold buscar_clientes_db.
  apply Nat.ltb_lt in H. rewrite H. reflexivity.
Qed.

(** C9.  When a call made by the search raises, with message [e], the
    search returns the empty list after showing the message built from [e],
    and raises nothing; the empty list is also what a search returns when
    every call succeeds and no row of the table matches, then without a
    message.  [cur.execute] succeeds only with parameters that PostgreSQL
    and its driver take, texts without U+0000 and a limit from 0 to
    2^63 - 1: with any other it raises, also on a storage without faults,
    and the search returns the empty list after a message. *)
Theorem buscar_clientes_db_excepcion
  bd (texto_busqueda : string) (tipo_cliente comercial : option string) (limite : Z) :
  (2 <= py_len texto_busqueda)%nat ->
  (forall e,
     valor (buscar_clientes_db_try bd texto_busqueda tipo_cliente comercial limite) = inl e ->
     valor (buscar_clientes_db bd texto_busqueda tipo_cliente comercial limite) = inr []
     /\ traza (buscar_clientes_db bd texto_busqueda tipo_cliente comercial limite)
        = (traza (buscar_clientes_db_try bd texto_busqueda tipo_cliente comercial limite)
           ++ [StError ("❌ Error en búsqueda: " ++ e)])%list)
  /\ (forall tabla,
        parametros_validos texto_busqueda tipo_cliente comercial limite = true ->
        (forall c, In c tabla ->
           condicion_where ("%" ++ texto_busqueda ++ "%") ("%" ++ texto_busqueda ++ "%")
             tipo_cliente tipo_cliente c = false) ->
        buscar_clientes_db (sin_fallas tabla) texto_busqueda tipo_cliente comercial limite
        = (inr [],
           [Llamada Connect; Llamada Cursor; Llamada Execute; Llamada Fetch;
            Llamada CloseCursor; Llamada CloseConn]))
  /\ (forall tabla,
        parametros_validos texto_busqueda tipo_cliente comercial limite = false ->
        exists e,
          buscar_clientes_db (sin_fallas tabla) texto_busqueda tipo_cliente comercial limite
          = (inr [],
             [Llamada Connect; Llamada Cursor; Llamada Execute;
              StError ("❌ Error en búsqueda: " ++ e)])).
Proof.
  intros Hlen.
  assert (Hl : (py_len texto_busqueda <? 2)%nat = false)
    by (apply Nat.ltb_ge; exact Hlen).
  split; [|split].
  - intros e Hraise. unfold buscar_clientes_db.
    rewrite Hl. unfold valor, traza, try_except in *.
    destruct (buscar_clientes_db_try bd texto_busqueda tipo_cliente comercial limite)
      as [[e'|r] t]; simpl in *; [|discriminate].
    injection Hraise as ->. split; reflexivity.
  - intros tabla Hpar Hno.
    rewrite (buscar_clientes_db_corrida (sin_fallas tabla) texto_busqueda
               tipo_cliente comercial limite Hlen (fun _ => eq_refl) Hpar).
    + unfold consulta_busqueda. cbn [clientes sin_fallas].
      rewrite (filter_nada _ tabla) by (apply Forall_forall; exact Hno).
      cbn [map filter order_by]. rewrite firstn_nil. reflexivity.
    + apply consulta_busqueda_no_lanza. intros c Hc. left. apply Hno. exact Hc.
  - intros tabla Hpar. unfold buscar_clientes_db. rewrite Hl.
    unfold parametros_validos in Hpar.
    unfold buscar_clientes_db_try, try_except, llamar, emitir, st_error, bind, ret, raise.
    cbn [falla sin_fallas]. cbv beta iota zeta.
    destruct (tiene_nul texto_busqueda); [eexists; reflexivity|].
    destruct (tiene_nul_opcional tipo_cliente); [eexists; reflexivity|].
    destruct (tiene_nul_opcional comercial); [eexists; reflexivity|].
    cbn [negb andb orb] in Hpar |- *.
    destruct (Z.ltb_spec limite (- 9223372036854775808)); [eexists; reflexivity|].
    destruct (Z.leb_spec 9223372036854775808 limite); [eexists; reflexivity|].
    cbn [orb].
    destruct (Z.ltb_spec limite 0); [eexists; reflexivity|].
    exfalso. apply andb_false_iff in Hpar.
    destruct Hpar as [Hpar|Hpar]; [apply Z.leb_gt in Hpar | apply Z.ltb_ge in Hpar]; lia.
Qed.

(** C10.  For an argument without a digit character (the empty string and
    [None] included) the existence check answers [False], and the run makes
    no storage call and shows no message. *)
Theorem verificar_cuit_dni_existe_sin_digitos bd (cuit_dni : option string) :
  (forall s, cuit_dni = Some s -> sin_digitos s = true) ->
  verificar_cuit_dni_existe bd cuit_dni = (inr false, []).
Proof.
  intros H. unfold verificar_cuit_dni_existe.
  assert (Hn : normalizar_cuit_dni cuit_dni = EmptyString).
  { destruct cuit_dni as [s|]; simpl; [|reflexivity].
    destruct (String.eqb s EmptyString); [reflexivity|].
    apply re_sub_no_digitos_sin_digitos. apply H. reflexivity. }
  rewrite Hn. reflexivity.
Qed.

End Ejecuciones.

Section EjemplosDeEjecuciones.
Import Texto Sql Efectos Busqueda.

Lemma buscar_clientes_db_texto_corto_witness :
  buscar_clientes_db (sin_conexion [] "connection refused") "é" (Some "Paciente")
    (Some "Clara") 15 = (inr [], []).
Proof.
  apply buscar_clientes_db_texto_corto. vm_compute. lia.
Defined.

Lemma buscar_clientes_db_excepcion_witness :
  (valor (buscar_clientes_db (sin_conexion [Ejemplos.syemed] "connection refused")
            "sye" None (Some "Clara") 15)
   = inr []
   /\ traza (buscar_clientes_db (sin_conexion [Ejemplos.syemed] "connection refused")
               "sye" None (Some "Clara") 15)
      = [Llamada Connect; StError "❌ Error en búsqueda: connection refused"])
  /\ buscar_clientes_db (sin_fallas [Ejemplos.syemed]) "zz" None (Some "Clara") 15
     = (inr [],
        [Llamada Connect; Llamada Cursor; Llamada Execute; Llamada Fetch;
         Llamada CloseCursor; Llamada CloseConn])
  /\ exists e,
       buscar_clientes_db (sin_fallas [Ejemplos.syemed]) "sye" None (Some "Clara")
         9223372036854775808
       = (inr [],
          [Llamada Connect; Llamada Cursor; Llamada Execute;
           StError ("❌ Error en búsqueda: " ++ e)]).
Proof.
  split; [|split].
  - apply (proj1 (buscar_clientes_db_excepcion
                    (sin_conexion [Ejemplos.syemed] "connection refused")
                    "sye" None (Some "Clara") 15 ltac:(vm_compute; lia))
                 "connection refused").
    reflexivity.
  - apply (proj1 (proj2 (buscar_clientes_db_excepcion
                           (sin_fallas [Ejemplos.syemed])
                           "zz" None (Some "Clara") 15 ltac:(vm_compute; lia)))
                 [Ejemplos.syemed]).
    + reflexivity.
    + intros c [<-|[]]. reflexivity.
  - apply (proj2 (proj2 (buscar_clientes_db_excepcion
                           (sin_fallas [Ejemplos.syemed])
                           "sye" None (Some "Clara") 9223372036854775808
                           ltac:(vm_compute; lia)))
                 [Ejemplos.syemed]).
    reflexivity.
Defined.

Lemma verificar_cuit_dni_existe_sin_digitos_witness :
  verificar_cuit_dni_existe (sin_fallas []) (Some "s/n - ") = (inr false, [])
  /\ verificar_cuit_dni_existe (sin_fallas []) None = (inr false, []).
Proof.
  split; apply verificar_cuit_dni_existe_sin_digitos.
  - intros s H. injection H as <-. reflexivity.
  - intros s H. discriminate H.
Defined.

End EjemplosDeEjecuciones.

(** ** LIKE on patterns built from a text without wildcard characters *)

Section PatronesLike.
Import Texto Sql.

Lemma like_match_porcentaje_cons (p t : string) :
  like_match (String comodin_porcentaje p) t
  = like_match p t
    || match t with
       | EmptyString => false
       | String _ t' => like_match (String comodin_porcentaje p) t'
       end.
Proof. destruct t; reflexivity. Qed.

Lemma like_match_solo_porcentaje (t : string) : like_match "%" t = true.
Proof.
  induction t as [|c t IH].
  - reflexivity.
  - change "%" with (String comodin_porcentaje EmptyString) in *.
    rewrite like_match_porcentaje_cons. rewrite IH. apply orb_true_r.
Qed.

Lemma sin_comodines_cons (c : ascii) (s : string) :
  sin_comodines (String c s) = true ->
  Ascii.eqb c comodin_porcentaje = false
  /\ Ascii.eqb c comodin_guion = false
  /\ Ascii.eqb c escape = false
  /\ sin_comodines s = true.
Proof.
  simpl. intros H.
  repeat (apply andb_prop in H; destruct H as [H ?]).
  repeat split; try assumption; apply negb_true_iff; assumption.
Qed.

Lemma like_match_literal_cons (c : ascii) (p t : string) :
  Ascii.eqb c comodin_porcentaje = false ->
  Ascii.eqb c comodin_guion = false ->
  Ascii.eqb c escape = false ->
  like_match (String c p) t
  = match t with
    | EmptyString => false
    | String x t' => Ascii.eqb c x && like_match p t'
    end.
Proof. intros H1 H2 H3. simpl. rewrite H1, H2, H3. reflexivity. Qed.

(** Without wildcards, LIKE is equality. *)
Lemma like_match_igualdad (p : string) :
  sin_comodines p = true -> forall t, like_match p t = (p =? t).
Proof.
  induction p as [|c p IH]; intros Hp t.
  - destruct t; reflexivity.
  - apply sin_comodines_cons in Hp. destruct Hp as (H1 & H2 & H3 & Hp).
    rewrite like_match_literal_cons by assumption.
    destruct t as [|x t]; [reflexivity|].
    simpl. rewrite IH by assumption. reflexivity.
Qed.

(** With one [%] appended, LIKE is [startswith]. *)
Lemma like_match_prefijo (p : string) :
  sin_comodines p = true -> forall t, like_match (p ++ "%") t = String.prefix p t.
Proof.
  induction p as [|c p IH]; intros Hp t.
  - simpl append. rewrite like_match_solo_porcentaje. destruct t; reflexivity.
  - apply sin_comodines_cons in Hp. destruct Hp as (H1 & H2 & H3 & Hp).
    simpl append. rewrite like_match_literal_cons by assumption.
    destruct t as [|x t]; [reflexivity|].
    simpl. rewrite IH by assumption.
    destruct (ascii_dec c x) as [->|Hne].
    + rewrite Ascii.eqb_refl. reflexivity.
    + apply Ascii.eqb_neq in Hne. rewrite Hne. reflexivity.
Qed.

(** With [%] on both sides, LIKE is [in]. *)
Lemma like_match_contiene (p : string) :
  sin_comodines p = true ->
  forall t, like_match ("%" ++ p ++ "%") t = contiene p t.
Proof.
  intros Hp t.
  change ("%" ++ p ++ "%") with (String comodin_porcentaje (p ++ "%")).
  induction t as [|x t IH].
  - rewrite like_match_porcentaje_cons, like_match_prefijo by assumption.
    simpl. rewrite orb_false_r. reflexivity.
  - rewrite like_match_porcentaje_cons, like_match_prefijo by assumption.
    rewrite IH. destruct p; reflexivity.
Qed.

Lemma es_digito_no_comodin (c : ascii) :
  es_digito c = true ->
  Ascii.eqb c comodin_porcentaje = false
  /\ Ascii.eqb c comodin_guion = false
  /\ Ascii.eqb c escape = false.
Proof.
  destruct c as [[] [] [] [] [] [] [] []]; vm_compute; intros H;
    try discriminate H; repeat split.
Qed.

Lemma solo_digitos_sin_comodines (s : string) :
  solo_digitos s = true -> sin_comodines s = true.
Proof.
  induction s as [|c s IH]; simpl; [reflexivity|].
  intros H. apply andb_prop in H. destruct H as [Hc Hs].
  destruct (es_digito_no_comodin c Hc) as (H1 & H2 & H3).
  rewrite H1, H2, H3, (IH Hs). reflexivity.
Qed.

Lemma minuscula_no_comodin (c : ascii) :
  Ascii.eqb c comodin_porcentaje = false ->
  Ascii.eqb c comodin_guion = false ->
  Ascii.eqb c escape = false ->
  Ascii.eqb (minuscula c) comodin_porcentaje = false
  /\ Ascii.eqb (minuscula c) comodin_guion = false
  /\ Ascii.eqb (minuscula c) escape = false.
Proof.
  destruct c as [[] [] [] [] [] [] [] []]; vm_compute; intros H1 H2 H3;
    try discriminate; repeat split.
Qed.

Lemma lower_texto_sin_comodines (s : string) :
  sin_comodines s = true -> sin_comodines (lower_texto s) = true.
Proof.
  induction s as [|c s IH]; intros H; [reflexivity|].
  apply sin_comodines_cons in H. destruct H as (H1 & H2 & H3 & Hs).
  destruct (minuscula_no_comodin c H1 H2 H3) as (G1 & G2 & G3).
  simpl. rewrite G1, G2, G3, (IH Hs). reflexivity.
Qed.

Lemma lower_texto_app (a b : string) :
  lower_texto (a ++ b) = lower_texto a ++ lower_texto b.
Proof.
  induction a as [|c a IH]; simpl; [reflexivity|]. rewrite IH. reflexivity.
Qed.

End PatronesLike.

(** ** The bonuses of the relevance score *)

Section Puntaje.
Import Texto Sql Efectos Busqueda.
Local Open Scope Z_scope.
Context {L : locale}.

(** C2.  With [tn] the normalised query: a row whose identifier equals [tn]
    gets 300, a row whose identifier differs from [tn] and contains it gets
    200, and these are the only ways to get 300 or 200; the bonus is one of
    300, 200 and 0, so that no row is given both. *)
Theorem bonus_cuit_dni_exclusivo (texto_busqueda : string) (c : Clientes.fila) :
  let tn := normalizar_cuit_dni (Some texto_busqueda) in
  let bonus := bonus_cuit_dni_de_busqueda texto_busqueda c in
  (Clientes.cuit_dni c = Some tn -> bonus = 300)
  /\ (forall ident, Clientes.cuit_dni c = Some ident ->
        ident <> tn -> contiene tn ident = true -> bonus = 200)
  /\ (bonus = 300 -> Clientes.cuit_dni c = Some tn)
  /\ (bonus = 200 ->
      exists ident, Clientes.cuit_dni c = Some ident
                    /\ ident <> tn /\ contiene tn ident = true)
  /\ (bonus = 300 \/ bonus = 200 \/ bonus = 0).
Proof.
  intros tn bonus. subst bonus. unfold bonus_cuit_dni_de_busqueda.
  fold tn. unfold bonus_cuit_dni.
  assert (Htn : sin_comodines tn = true)
    by (apply solo_digitos_sin_comodines, normalizar_cuit_dni_solo_digitos).
  destruct (Clientes.cuit_dni c) as [ident|]; unfold like, sql_eq; cbv beta iota.
  - rewrite (like_match_contiene tn Htn ident).
    destruct (String.eqb_spec ident tn) as [->|Hne]; unfold es_verdadero.
    + repeat split; try discriminate; auto.
      intros ident' H Hd. injection H as <-. contradiction.
    + destruct (contiene tn ident) eqn:Hc.
      * repeat split; try discriminate; auto.
        { intros H. injection H as ->. contradiction. }
        { intros _. exists ident. auto. }
      * repeat split; try discriminate; auto.
        { intros H. injection H as ->. contradiction. }
        { intros ident' H _ Hc'. injection H as <-. congruence. }
  - repeat split; try discriminate; auto.
Qed.

(** C3, amended.  In every locale, for a query without the characters [%],
    [_] and backslash, the name bonus is 250 when the first non-null of
    trade name, full name and legal name equals the query, whole text
    against whole text; otherwise 150 when the searchable text starts with
    the query, otherwise 100 when it contains the query; otherwise 0.  Each
    comparison is made after the [LOWER] of the database on both sides,
    so without regard to the case of the letters its locale folds. *)
Theorem bonus_nombre_exacto_inicio_parcial (texto_busqueda : string) (c : Clientes.fila) :
  sin_comodines texto_busqueda = true ->
  bonus_nombre_de_busqueda texto_busqueda c
  = if igual_a (coalesce [Clientes.nombre_fantasia c;
                          Clientes.nombre_apellido c;
                          Clientes.razon_social c]) texto_busqueda
    then 250
    else if empieza_con (Clientes.busqueda_texto c) texto_busqueda then 150
    else if contiene_a (Clientes.busqueda_texto c) texto_busqueda then 100
    else 0.
Proof.
  intros Hq.
  assert (Hl : sin_comodines (plegar texto_busqueda) = true)
    by (apply plegar_sin_comodines; exact Hq).
  unfold bonus_nombre_de_busqueda, bonus_nombre, ilike, igual_a, empieza_con,
    contiene_a.
  assert (Hexacto : forall a : option string,
             es_verdadero (like (lower a) (lower (Some texto_busqueda)))
             = match a with
               | Some s => (plegar s =? plegar texto_busqueda)%string
               | None => false
               end).
  { intros [s|]; [|reflexivity]. unfold lower, option_map, like, es_verdadero.
    rewrite (like_match_igualdad _ Hl). rewrite String.eqb_sym.
    destruct (plegar s =? plegar texto_busqueda)%string; reflexivity. }
  assert (Hinicio : forall a : option string,
             es_verdadero (like (lower a) (lower (Some (texto_busqueda ++ "%")%string)))
             = match a with
               | Some s => String.prefix (plegar texto_busqueda) (plegar s)
               | None => false
               end).
  { intros [s|]; [|reflexivity]. unfold lower, option_map, like, es_verdadero.
    rewrite plegar_porcentaje_final.
    rewrite (like_match_prefijo _ Hl).
    destruct (String.prefix _ _); reflexivity. }
  assert (Hparcial : forall a : option string,
             es_verdadero (like (lower a)
                             (lower (Some ("%" ++ texto_busqueda ++ "%")%string)))
             = match a with
               | Some s => contiene (plegar texto_busqueda) (plegar s)
               | None => false
               end).
  { intros [s|]; [|reflexivity]. unfold lower, option_map, like, es_verdadero.
    rewrite plegar_porcentaje_inicial, plegar_porcentaje_final.
    rewrite (like_match_contiene _ Hl).
    destruct (contiene _ _); reflexivity. }
  rewrite Hexacto, Hinicio, Hparcial. reflexivity.
Qed.

End Puntaje.

Section EjemplosDePuntaje.
Import Texto Sql Efectos Busqueda.
Local Open Scope Z_scope.

Lemma bonus_cuit_dni_exclusivo_witness :
  bonus_cuit_dni_de_busqueda "30-71834383-2" Ejemplos.syemed = 300
  /\ bonus_cuit_dni_de_busqueda "7183 sy" Ejemplos.syemed = 200.
Proof.
  split.
  - apply (bonus_cuit_dni_exclusivo "30-71834383-2" Ejemplos.syemed). reflexivity.
  - apply (bonus_cuit_dni_exclusivo "7183 sy" Ejemplos.syemed)
      with (ident := "30718343832"%string).
    + reflexivity.
    + vm_compute. discriminate.
    + reflexivity.
Defined.

(** C3, as the specification states it, fails: the display name of the
    sample distributor starts with the query, and the statement gives the
    row 150, found on the searchable text, where the specification says
    250; the search returns the row with that bonus in its score.  The
    texts are ASCII and the example is evaluated in the locale C. *)
Lemma bonus_nombre_no_es_prefijo :
  empieza_con (nombre_display Ejemplos.syemed) "Sye" = true
  /\ bonus_nombre_spec "Sye" Ejemplos.syemed = 250
  /\ bonus_nombre_de_busqueda "Sye" Ejemplos.syemed = 150
  /\ (valor (buscar_clientes_db (sin_fallas [Ejemplos.syemed]) "Sye" None None 15)
      = inr [seleccionar None EmptyString "%%" "Sye" "Sye%" "%Sye%" Ejemplos.syemed]
      /\ relevancia_de_busqueda "Sye" None Ejemplos.syemed = 0 + 0 + 200 + 150).
Proof. repeat split. Qed.

Lemma bonus_nombre_exacto_inicio_parcial_witness :
  bonus_nombre_de_busqueda "SYEMED" Ejemplos.syemed = 250
  /\ bonus_nombre_de_busqueda "Sye" Ejemplos.syemed = 150
  /\ bonus_nombre_de_busqueda "Grupo" Ejemplos.syemed = 100.
Proof.
  split; [|split].
  - rewrite (bonus_nombre_exacto_inicio_parcial "SYEMED" Ejemplos.syemed); reflexivity.
  - rewrite (bonus_nombre_exacto_inicio_parcial "Sye" Ejemplos.syemed); reflexivity.
  - rewrite (bonus_nombre_exacto_inicio_parcial "Grupo" Ejemplos.syemed); reflexivity.
Defined.

End EjemplosDePuntaje.

(** ** The order of the result *)

Section Orden.
Import Texto Sql Efectos Busqueda.
Local Open Scope Z_scope.
Context {L : locale}.

Lemma antes_no_menor (a b : Resultado.fila) : antes a b = true -> no_menor a b.
Proof.
  unfold antes, no_menor. intros H.
  apply orb_prop in H. destruct H as [H|H].
  - apply Z.ltb_lt in H. lia.
  - apply andb_prop in H. destruct H as [H _]. apply Z.eqb_eq in H. lia.
Qed.

Lemma antes_total (a b : Resultado.fila) : antes a b = false -> antes b a = true.
Proof.
  unfold antes. intros H.
  apply orb_false_elim in H. destruct H as [H1 H2].
  apply Z.ltb_ge in H1.
  destruct (Z.ltb_spec (Resultado.relevancia_score a) (Resultado.relevancia_score b)) as [Hlt|Hge];
    [reflexivity|].
  assert (Heq : Resultado.relevancia_score a = Resultado.relevancia_score b) by lia.
  rewrite Heq in *. rewrite Z.eqb_refl in *. simpl in *.
  unfold text_leb in *.
  destruct (Resultado.nombre_display a) as [x|], (Resultado.nombre_display b) as [y|];
    try reflexivity; try discriminate.
  destruct (colacion_total x y) as [H|H]; congruence.
Qed.

Lemma In_insertar (x z : Resultado.fila) (l : list Resultado.fila) :
  In z (insertar x l) <-> z = x \/ In z l.
Proof.
  induction l as [|y l IH]; simpl.
  - intuition.
  - destruct (antes x y); simpl; rewrite ?IH; intuition.
Qed.

Lemma In_order_by (z : Resultado.fila) (l : list Resultado.fila) :
  In z (order_by l) <-> In z l.
Proof.
  induction l as [|x l IH]; simpl; [tauto|].
  rewrite In_insertar, IH. intuition.
Qed.

Lemma insertar_Sorted (x : Resultado.fila) (l : list Resultado.fila) :
  Sorted (fun a b => antes a b = true) l ->
  Sorted (fun a b => antes a b = true) (insertar x l).
Proof.
  induction l as [|y l IH]; intros Hs; simpl.
  - constructor; constructor.
  - destruct (antes x y) eqn:Hxy.
    + constructor; [exact Hs | constructor; exact Hxy].
    + apply Sorted_inv in Hs. destruct Hs as [Hl Hhd].
      constructor; [apply IH; exact Hl|].
      destruct l as [|z l]; simpl.
      * constructor. apply antes_total. exact Hxy.
      * destruct (antes x z).
        { constructor. apply antes_total. exact Hxy. }
        { constructor. apply HdRel_inv in Hhd. exact Hhd. }
Qed.

Lemma order_by_Sorted (l : list Resultado.fila) :
  Sorted (fun a b => antes a b = true) (order_by l).
Proof.
  induction l as [|x l IH]; simpl; [constructor|].
  apply insertar_Sorted. exact IH.
Qed.

Lemma Sorted_no_menor (l : list Resultado.fila) :
  Sorted (fun a b => antes a b = true) l -> StronglySorted no_menor l.
Proof.
  intros Hs. apply Sorted_StronglySorted.
  - intros a b c Hab Hbc. unfold no_menor in *. lia.
  - induction Hs as [|x l Hl IH Hhd]; constructor; [exact IH|].
    destruct Hhd as [|y l' Hxy]; constructor. apply antes_no_menor. exact Hxy.
Qed.

(** Every row of the result is the projection of a row of the table. *)
Lemma consulta_busqueda_In p1 p2 p3 p4 p5 p6 p7 p8 p9 p10 p11 tabla x :
  In x (consulta_busqueda p1 p2 p3 p4 p5 p6 p7 p8 p9 p10 p11 tabla) ->
  exists c, In c tabla /\ x = seleccionar p1 p2 p3 p4 p5 p6 c.
Proof.
  unfold consulta_busqueda. intros H.
  apply In_firstn in H. apply (proj1 (In_order_by _ _)) in H.
  apply filter_In in H. destruct H as [H _].
  apply in_map_iff in H. destruct H as (c & Hc & Hin).
  apply filter_In in Hin. destruct Hin as [Hin _].
  exists c. split; [exact Hin | symmetry; exact Hc].
Qed.

Lemma consulta_busqueda_Sorted p1 p2 p3 p4 p5 p6 p7 p8 p9 p10 p11 tabla :
  Sorted (fun a b => antes a b = true)
    (consulta_busqueda p1 p2 p3 p4 p5 p6 p7 p8 p9 p10 p11 tabla).
Proof.
  unfold consulta_busqueda. apply firstn_Sorted. apply order_by_Sorted.
Qed.

Lemma bonus_no_negativos p1 p2 p3 p4 p5 p6 c :
  0 <= bonus_comercial p1 c /\ 0 <= bonus_visible c
  /\ 0 <= bonus_cuit_dni p2 p3 c /\ 0 <= bonus_nombre p4 p5 p6 c.
Proof.
  unfold bonus_comercial, bonus_visible, bonus_cuit_dni, bonus_nombre.
  repeat match goal with |- context [if ?b then _ else _] => destruct b end;
    repeat split; lia.
Qed.

Lemma relevancia_score_asignado (a : string) p2 p3 p4 p5 p6 c l :
  Clientes.comercial_asignado c = Some l -> In a l ->
  1000 <= relevancia_score (Some a) p2 p3 p4 p5 p6 c.
Proof.
  intros Hl Hin. unfold relevancia_score.
  destruct (bonus_no_negativos (Some a) p2 p3 p4 p5 p6 c) as (_ & H2 & H3 & H4).
  assert (H1 : bonus_comercial (Some a) c = 1000).
  { unfold bonus_comercial, eq_any. rewrite Hl. simpl.
    assert (He : existsb (String.eqb a) l = true).
    { apply existsb_exists. exists a. split; [exact Hin | apply String.eqb_refl]. }
    rewrite He. reflexivity. }
  lia.
Qed.

(** In a list in which no row scores more than an earlier one, a row of the
    list is among the first [n], or these are [n] rows that score at least
    as much. *)
Lemma firstn_presente_o_lleno (n : nat) (l : list Resultado.fila) (x : Resultado.fila) :
  StronglySorted no_menor l -> In x l ->
  In x (firstn n l)
  \/ (length (firstn n l) = n
      /\ forall y, In y (firstn n l) ->
                   Resultado.relevancia_score x <= Resultado.relevancia_score y).
Proof.
  intros Hs. revert n. induction Hs as [|z l Hl IH Hz]; intros n Hx; [contradiction Hx|].
  destruct n as [|n]; [right; split; [reflexivity | intros y []]|].
  destruct Hx as [->|Hx]; [left; left; reflexivity|].
  destruct (IH n Hx) as [Hin|[Hlen Hall]].
  - left. right. exact Hin.
  - right. cbn [firstn length]. split; [rewrite Hlen; reflexivity|].
    intros y [<-|Hy]; [|apply Hall; exact Hy].
    rewrite Forall_forall in Hz. apply (Hz x Hx).
Qed.

(** C1.  With [a] the requesting agent, in any locale: a row whose assigned
    agents include [a] scores at least 1000 for every query; the list the
    search returns is ordered by score descending, then display name
    ascending, and in it a row whose assigned agents include [a] stands
    before every row that scores less than 1000; and the search does list
    such a row: with parameters that PostgreSQL and its driver take, a
    query without the characters [%], [_] and backslash and no storage call
    that raises, a row of [a] that passes the WHERE is in the list, unless
    the list has [limite] rows that all score at least 1000.  So no row
    below 1000 is ever listed while a matching row of [a] is left out. *)
Theorem clientes_del_comercial_primero
  bd (texto_busqueda : string) (tipo_cliente : option string) (a : string) (limite : Z) :
  (forall c l,
     Clientes.comercial_asignado c = Some l -> In a l ->
     1000 <= relevancia_de_busqueda texto_busqueda (Some a) c)
  /\ (forall res,
        valor (buscar_clientes_db bd texto_busqueda tipo_cliente (Some a) limite) = inr res ->
        Sorted (fun x y => antes x y = true) res
        /\ forall i j x y l,
             nth_error res i = Some x -> nth_error res j = Some y ->
             Resultado.comercial_asignado x = Some l -> In a l ->
             Resultado.relevancia_score y < 1000 ->
             (i < j)%nat)
  /\ (forall c l,
        (2 <= py_len texto_busqueda)%nat ->
        sin_comodines texto_busqueda = true ->
        parametros_validos texto_busqueda tipo_cliente (Some a) limite = true ->
        (forall op, falla bd op = None) ->
        In c (clientes bd) ->
        Clientes.comercial_asignado c = Some l -> In a l ->
        condicion_where ("%" ++ texto_busqueda ++ "%") ("%" ++ texto_busqueda ++ "%")
          tipo_cliente tipo_cliente c = true ->
        exists res,
          buscar_clientes_db bd texto_busqueda tipo_cliente (Some a) limite
          = (inr res,
             [Llamada Connect; Llamada Cursor; Llamada Execute; Llamada Fetch;
              Llamada CloseCursor; Llamada CloseConn])
          /\ (In (seleccionar (Some a) (normalizar_cuit_dni (Some texto_busqueda))
                    ("%" ++ normalizar_cuit_dni (Some texto_busqueda) ++ "%")
                    texto_busqueda (texto_busqueda ++ "%")
                    ("%" ++ texto_busqueda ++ "%") c) res
              \/ (length res = Z.to_nat limite
                  /\ forall y, In y res -> 1000 <= Resultado.relevancia_score y))).
Proof.
  split; [|split].
  - intros c l Hl Hin. unfold relevancia_de_busqueda.
    apply relevancia_score_asignado with l; assumption.
  - intros res Hres.
    assert (Hs : Sorted (fun x y => antes x y = true) res
                 /\ forall x l, In x res -> Resultado.comercial_asignado x = Some l -> In a l ->
                                1000 <= Resultado.relevancia_score x).
    { destruct (buscar_clientes_db_valor bd texto_busqueda tipo_cliente (Some a) limite)
        as [H|H]; rewrite H in Hres; injection Hres as <-.
      - split; [constructor | intros x l []].
      - split; [apply consulta_busqueda_Sorted|].
        intros x l Hx Hl Hin.
        apply consulta_busqueda_In in Hx. destruct Hx as (c & _ & ->).
        simpl in *. apply relevancia_score_asignado with l; assumption. }
    destruct Hs as [Hsorted Hscore]. split; [exact Hsorted|].
    intros i j x y l Hi Hj Hl Hin Hy.
    assert (Hx : 1000 <= Resultado.relevancia_score x).
    { apply (Hscore x l); [apply nth_error_In with i; exact Hi | exact Hl | exact Hin]. }
    destruct (Nat.lt_trichotomy i j) as [Hlt|[Heq|Hgt]]; [exact Hlt | |].
    + subst j. rewrite Hi in Hj. injection Hj as <-. lia.
    + assert (Hyx : no_menor y x).
      { apply (StronglySorted_nth_error no_menor res (Sorted_no_menor res Hsorted) j i);
          assumption. }
      unfold no_menor in Hyx. lia.
  - intros c l Hlen Hq Hpar Hf Hc Hl Hin Hw.
    eexists. split.
    + apply (buscar_clientes_db_corrida bd texto_busqueda tipo_cliente (Some a) limite
               Hlen Hf Hpar).
      apply consulta_busqueda_no_lanza_sin_comodines. exact Hq.
    + set (tn := normalizar_cuit_dni (Some texto_busqueda)).
      set (x := seleccionar (Some a) tn ("%" ++ tn ++ "%") texto_busqueda
                  (texto_busqueda ++ "%") ("%" ++ texto_busqueda ++ "%") c).
      assert (Hx : 1000 <= Resultado.relevancia_score x)
        by (apply relevancia_score_asignado with l; assumption).
      unfold consulta_busqueda.
      match goal with
      | |- In x (firstn ?n (order_by ?f)) \/ _ =>
          destruct (firstn_presente_o_lleno n (order_by f) x) as [H|[H1 H2]]
      end.
      * apply Sorted_no_menor, order_by_Sorted.
      * apply In_order_by. apply filter_In. split.
        { apply in_map. apply filter_In. split; assumption. }
        { apply Z.ltb_lt. lia. }
      * left. exact H.
      * right. split; [exact H1|]. intros y Hy. specialize (H2 y Hy). lia.
Qed.

End Orden.

Section EjemplosDeOrden.
Import Texto Sql Efectos Busqueda.
Local Open Scope Z_scope.

(** The agent's distributor, found on its searchable text only, precedes a
    patient visible to all whose name starts with the query. *)
Example busqueda_de_clara :
  option_map (map (fun r => (Resultado.id r, Resultado.relevancia_score r)))
    (match valor (buscar_clientes_db (sin_fallas [Ejemplos.perez; Ejemplos.syemed])
                    "sye" None (Some "Clara") 15) with
     | inr res => Some res
     | inl _ => None
     end)
  = Some [(1, 1350); (2, 850)].
Proof. reflexivity. Qed.

Lemma clientes_del_comercial_primero_witness :
  1000 <= relevancia_de_busqueda "sye" (Some "Clara") Ejemplos.syemed
  /\ exists res,
       buscar_clientes_db (sin_fallas [Ejemplos.perez; Ejemplos.syemed])
         "sye" None (Some "Clara") 15
       = (inr res,
          [Llamada Connect; Llamada Cursor; Llamada Execute; Llamada Fetch;
           Llamada CloseCursor; Llamada CloseConn])
       /\ In (seleccionar (Some "Clara") EmptyString "%%" "sye" "sye%" "%sye%"
                Ejemplos.syemed) res
       /\ forall i j,
            nth_error res i
            = Some (seleccionar (Some "Clara") EmptyString "%%" "sye" "sye%" "%sye%"
                      Ejemplos.syemed) ->
            nth_error res j
            = Some (seleccionar (Some "Clara") EmptyString "%%" "sye" "sye%" "%sye%"
                      Ejemplos.perez) ->
            (i < j)%nat.
Proof.
  destruct (clientes_del_comercial_primero (L := locale_C)
              (sin_fallas [Ejemplos.perez; Ejemplos.syemed]) "sye" None "Clara" 15)
    as (H1 & H2 & H3).
  split.
  - apply (H1 Ejemplos.syemed ["Clara"%string]); [reflexivity | left; reflexivity].
  - destruct (H3 Ejemplos.syemed ["Clara"%string]) as (res & Hrun & Hin).
    + vm_compute. lia.
    + reflexivity.
    + reflexivity.
    + intros op. reflexivity.
    + right. left. reflexivity.
    + reflexivity.
    + left. reflexivity.
    + reflexivity.
    + exists res. split; [exact Hrun|].
      assert (Hres : valor (buscar_clientes_db
                              (sin_fallas [Ejemplos.perez; Ejemplos.syemed])
                              "sye" None (Some "Clara") 15) = inr res)
        by (rewrite Hrun; reflexivity).
      split.
      * destruct Hin as [Hin|[Hlen _]]; [exact Hin|].
        vm_compute in Hres. injection Hres as <-. discriminate Hlen.
      * intros i j Hi Hj.
        apply (proj2 (H2 res Hres) i j _ _ ["Clara"%string] Hi Hj);
          [reflexivity | left; reflexivity | vm_compute; reflexivity].
Defined.

End EjemplosDeOrden.

(** ** Words inside messages that carry an ordinal *)

Section Mensajes.
Import Texto Sql.

Lemma solo_digitos_string_of_uint (u : Decimal.uint) :
  solo_digitos (NilEmpty.string_of_uint u) = true.
Proof. induction u; simpl; auto. Qed.

Lemma solo_digitos_str_nat (i : nat) : solo_digitos (str_nat i) = true.
Proof. apply solo_digitos_string_of_uint. Qed.

Lemma minuscula_digito (c : ascii) : es_digito c = true -> minuscula c = c.
Proof.
  destruct c as [[] [] [] [] [] [] [] []]; vm_compute; intros H;
    try discriminate H; reflexivity.
Qed.

Lemma lower_texto_digitos (m : string) :
  solo_digitos m = true -> lower_texto m = m.
Proof.
  induction m as [|c m IH]; simpl; [reflexivity|].
  intros H. apply andb_prop in H. destruct H as [Hc Hm].
  rewrite (minuscula_digito c Hc), (IH Hm). reflexivity.
Qed.

Lemma prefix_nil (n : string) : String.prefix n EmptyString = true -> n = EmptyString.
Proof. destruct n; [reflexivity | discriminate]. Qed.

Lemma contiene_vacio (s : string) : contiene EmptyString s = true.
Proof. destruct s; reflexivity. Qed.

(** A word without digits that is a prefix of [x ++ d :: y], with [d] a
    digit, ends inside [x]. *)
Lemma prefix_antes_de_digito (d : ascii) (y : string) :
  es_digito d = true ->
  forall x n, sin_digitos n = true ->
    String.prefix n (x ++ String d y) = true -> String.prefix n x = true.
Proof.
  intros Hd. induction x as [|e x IH]; intros [|c n] Hn Hp; try reflexivity.
  - simpl in Hp, Hn. destruct (ascii_dec c d) as [->|]; [|discriminate].
    rewrite Hd in Hn. discriminate.
  - simpl in Hp |- *. destruct (ascii_dec c e); [|discriminate].
    simpl in Hn. apply andb_prop in Hn. destruct Hn as [_ Hn].
    apply IH; assumption.
Qed.

Lemma contiene_cons (n : string) (e : ascii) (x : string) :
  contiene n x = true -> contiene n (String e x) = true.
Proof. intros H. simpl. rewrite H. apply orb_true_r. Qed.

Lemma prefix_contiene (n x : string) :
  String.prefix n x = true -> contiene n x = true.
Proof. intros H. destruct x; simpl in *; rewrite H; reflexivity. Qed.

Lemma contiene_junto_a_digito (d : ascii) (y n : string) :
  es_digito d = true -> sin_digitos n = true ->
  forall x, contiene n (x ++ String d y) = true ->
            contiene n x = true \/ contiene n y = true.
Proof.
  intros Hd Hn. induction x as [|e x IH]; intros H.
  - simpl append in H. simpl in H. apply orb_prop in H. destruct H as [H|H].
    + left. apply prefix_contiene.
      apply (prefix_antes_de_digito d y Hd EmptyString n Hn). exact H.
    + right. exact H.
  - change (String e x ++ String d y) with (String e (x ++ String d y)) in H.
    simpl in H. apply orb_prop in H. destruct H as [H|H].
    + left. apply prefix_contiene.
      apply (prefix_antes_de_digito d y Hd (String e x) n Hn). exact H.
    + destruct (IH H) as [G|G]; [left; apply contiene_cons; exact G | right; exact G].
Qed.

Lemma contiene_tras_digitos (n b : string) :
  sin_digitos n = true ->
  forall m, solo_digitos m = true ->
    contiene n (m ++ b) = true -> contiene n b = true.
Proof.
  intros Hn. induction m as [|d m IH]; intros Hm H; [exact H|].
  simpl in Hm. apply andb_prop in Hm. destruct Hm as [Hd Hm].
  destruct (contiene_junto_a_digito d (m ++ b) n Hd Hn EmptyString H) as [G|G].
  - simpl in G. rewrite orb_false_r in G. apply prefix_nil in G. subst n.
    apply contiene_vacio.
  - apply IH; assumption.
Qed.

(** A word without digits found in [a ++ m ++ b], with [m] made of digits,
    is found in [a], in [b], or across the two when [m] is empty. *)
Lemma contiene_entre_digitos (n a b m : string) :
  sin_digitos n = true -> solo_digitos m = true ->
  contiene n a = false -> contiene n b = false -> contiene n (a ++ b) = false ->
  contiene n (a ++ m ++ b) = false.
Proof.
  intros Hn Hm Ha Hb Hab.
  destruct m as [|d m]; [exact Hab|].
  destruct (contiene n (a ++ String d m ++ b)) eqn:H; [|reflexivity].
  simpl in Hm. apply andb_prop in Hm. destruct Hm as [Hd Hm].
  change (String d m ++ b) with (String d (m ++ b)) in H.
  destruct (contiene_junto_a_digito d (m ++ b) n Hd Hn a H) as [G|G].
  - congruence.
  - apply (contiene_tras_digitos n b Hn m Hm) in G. congruence.
Qed.

(** The same for [menciona] and a message that carries an ordinal. *)
Lemma menciona_con_ordinal (palabra a b : string) (i : nat) :
  sin_digitos (lower_texto palabra) = true ->
  Formulario.menciona palabra a = false ->
  Formulario.menciona palabra b = false ->
  Formulario.menciona palabra (a ++ b) = false ->
  Formulario.menciona palabra (a ++ str_nat i ++ b) = false.
Proof.
  unfold Formulario.menciona. intros Hn Ha Hb Hab.
  rewrite !lower_texto_app.
  rewrite (lower_texto_digitos (str_nat i) (solo_digitos_str_nat i)).
  rewrite lower_texto_app in Hab.
  apply contiene_entre_digitos; try assumption. apply solo_digitos_str_nat.
Qed.

End Mensajes.

(** ** validar_campos_obligatorios *)

Section Validacion.
Import Texto Formulario.
Local Open Scope list_scope.

Lemma In_si (c : bool) (mensaje m : string) : In m (si c mensaje) -> m = mensaje.
Proof. destruct c; simpl; intuition. Qed.

(** Goals [Forall P errores], with [errores] built from appended [si] and
    conditionals; [tac] proves [P] of one message. *)
Ltac por_mensaje tac :=
  repeat first
    [ apply Forall_nil
    | apply Forall_app; split
    | match goal with
      | |- Forall _ (si ?c _) =>
          destruct c; unfold si; [apply Forall_cons; [tac | apply Forall_nil] | apply Forall_nil]
      | |- Forall _ (if ?c then _ else _) => destruct c
      end ].

Lemma errores_equipos_sin_validos (data : datos) :
  (forall eq, In eq (get (equipos data) []) -> equipo_valido eq = false) ->
  errores_equipos data = [ERROR_SIN_EQUIPOS].
Proof.
  intros H. unfold errores_equipos.
  rewrite filter_nada; [reflexivity|].
  apply Forall_forall. exact H.
Qed.

(** C6.  When the equipment list is absent, empty, or holds only entries
    whose type is unset or the placeholder, the errors include the one that
    asks for at least one equipment, whatever the other fields hold, and the
    submission is not valid. *)
Theorem validar_sin_equipos (data : datos) :
  (forall eq, In eq (get (equipos data) []) ->
     falta (tipo_equipo eq) = true \/ tipo_equipo eq = Some "Seleccionar tipo...") ->
  In ERROR_SIN_EQUIPOS (snd (validar_campos_obligatorios data))
  /\ fst (validar_campos_obligatorios data) = false.
Proof.
  intros H.
  assert (He : errores_equipos data = [ERROR_SIN_EQUIPOS]).
  { apply errores_equipos_sin_validos. intros eq Hin.
    unfold equipo_valido. destruct (H eq Hin) as [Hf|Hp].
    - rewrite Hf. reflexivity.
    - rewrite Hp. simpl. reflexivity. }
  unfold validar_campos_obligatorios. simpl fst. simpl snd. rewrite He.
  split.
  - repeat (apply in_or_app; right). left. reflexivity.
  - apply Nat.eqb_neq. rewrite !length_app. simpl. lia.
Qed.

Lemma validar_sin_equipos_witness :
  In ERROR_SIN_EQUIPOS
     (snd (validar_campos_obligatorios
             (Ejemplos.solicitud_distribuidor "No enciende" [Ejemplos.sin_tipo])))
  /\ fst (validar_campos_obligatorios
            (Ejemplos.solicitud_distribuidor "No enciende" [Ejemplos.sin_tipo])) = false.
Proof.
  apply validar_sin_equipos.
  intros eq [<-|[]]. right. reflexivity.
Defined.

Lemma errores_de_equipos_Forall (P : string -> Prop) :
  (forall i, P ("La marca del equipo " ++ str_nat i ++ " es obligatoria")%string) ->
  (forall i, P ("El modelo del equipo " ++ str_nat i ++ " es obligatorio")%string) ->
  (forall i, P ("El número de serie del equipo " ++ str_nat i ++ " es obligatorio")%string) ->
  forall l i, Forall P (errores_de_equipos i l).
Proof.
  intros H1 H2 H3. induction l as [|eq l IH]; intros i;
    cbn [errores_de_equipos]; [constructor|].
  por_mensaje ltac:(auto). apply IH.
Qed.

Lemma errores_equipos_Forall (P : string -> Prop) (data : datos) :
  P ERROR_SIN_EQUIPOS ->
  (forall i, P ("La marca del equipo " ++ str_nat i ++ " es obligatoria")%string) ->
  (forall i, P ("El modelo del equipo " ++ str_nat i ++ " es obligatorio")%string) ->
  (forall i, P ("El número de serie del equipo " ++ str_nat i ++ " es obligatorio")%string) ->
  Forall P (errores_equipos data).
Proof.
  intros H0 H1 H2 H3. unfold errores_equipos.
  destruct (filter equipo_valido (get (equipos data) [])) as [|eq l].
  - constructor; [exact H0 | constructor].
  - apply errores_de_equipos_Forall; assumption.
Qed.

Lemma errores_solicitante_sin_opcion (data : datos) :
  Forall (fun m => m <> ERROR_OPCION) (errores_solicitante data).
Proof.
  unfold errores_solicitante, errores_colaborador, errores_distribuidor,
    errores_institucion, errores_paciente.
  cbv zeta.
  por_mensaje ltac:(discriminate).
Qed.

Lemma errores_equipos_sin_opcion (data : datos) :
  Forall (fun m => m <> ERROR_OPCION) (errores_equipos data).
Proof.
  apply errores_equipos_Forall; try intros i; discriminate.
Qed.

Lemma errores_motivo_servicio (data : datos) :
  motivo_solicitud data = Some SERVICIO_TECNICO
  \/ motivo_solicitud data = Some SERVICIO_POST_VENTA ->
  errores_motivo data
  = si (match get (fallas_problemas data) [] with [] => true | _ :: _ => false end
        && (strip (get (detalle_fallo data) EmptyString) =? EmptyString)%string)
       ERROR_OPCION.
Proof.
  intros [H|H]; unfold errores_motivo; rewrite H; reflexivity.
Qed.

Lemma errores_distribuidor_completo (data : datos) :
  distribuidor_completo data = true ->
  falta (motivo_solicitud data) = false ->
  falta (email data) = false /\ errores_distribuidor data = [].
Proof.
  unfold distribuidor_completo, errores_distribuidor. intros H Hm.
  repeat (apply andb_prop in H; destruct H as [H ?]).
  repeat match goal with
         | G : negb _ = true |- _ => apply negb_true_iff in G; rewrite G
         end.
  rewrite Hm. split; reflexivity.
Qed.

Lemma errores_equipos_completo (data : datos) (eq : equipo) :
  equipos data = Some [eq] -> equipo_completo eq = true ->
  errores_equipos data = [].
Proof.
  unfold equipo_completo, errores_equipos. intros He H.
  apply andb_prop in H. destruct H as [H H4].
  apply andb_prop in H. destruct H as [H H3].
  apply andb_prop in H. destruct H as [Hv H2].
  apply negb_true_iff in H2, H3, H4.
  rewrite He. cbn [get filter]. rewrite Hv. cbn [errores_de_equipos].
  rewrite H2, H3, H4. reflexivity.
Qed.

(** C4.  When the reason is technical service or post-sale service, the
    error about choosing an option is reported exactly when no issue is
    selected and the detail is empty once stripped.  For a distributor with
    every field filled in, one complete equipment and no issue selected, the
    submission is valid with no error when the stripped detail is not empty,
    and has that one error when it is. *)
Theorem validar_servicio_opcion_o_detalle (data : datos) :
  motivo_solicitud data = Some SERVICIO_TECNICO
  \/ motivo_solicitud data = Some SERVICIO_POST_VENTA ->
  (In ERROR_OPCION (snd (validar_campos_obligatorios data))
   <-> get (fallas_problemas data) [] = []
       /\ strip (get (detalle_fallo data) EmptyString) = EmptyString)
  /\ (forall eq,
        quien_completa data = Some "Distribuidor"%string ->
        distribuidor_completo data = true ->
        get (fallas_problemas data) [] = [] ->
        equipos data = Some [eq] -> equipo_completo eq = true ->
        (strip (get (detalle_fallo data) EmptyString) <> EmptyString ->
         validar_campos_obligatorios data = (true, []))
        /\ (strip (get (detalle_fallo data) EmptyString) = EmptyString ->
            validar_campos_obligatorios data = (false, [ERROR_OPCION]))).
Proof.
  intros Hmotivo.
  pose proof (errores_motivo_servicio data Hmotivo) as Hm.
  split.
  - unfold validar_campos_obligatorios. simpl snd. rewrite Hm. split.
    + intros Hin.
      repeat (apply in_app_or in Hin; destruct Hin as [Hin|Hin]).
      * apply In_si in Hin. discriminate Hin.
      * apply In_si in Hin. discriminate Hin.
      * pose proof (errores_solicitante_sin_opcion data) as Hf.
        rewrite Forall_forall in Hf. exfalso. apply (Hf _ Hin). reflexivity.
      * unfold si in Hin.
        destruct (get (fallas_problemas data) []); [|contradiction Hin].
        destruct (String.eqb_spec (strip (get (detalle_fallo data) EmptyString))
                    EmptyString) as [He|]; [|contradiction Hin].
        split; [reflexivity | exact He].
      * pose proof (errores_equipos_sin_opcion data) as Hf.
        rewrite Forall_forall in Hf. exfalso. apply (Hf _ Hin). reflexivity.
    + intros [Hf Hd].
      apply in_or_app; right. apply in_or_app; right. apply in_or_app; right.
      apply in_or_app; left. rewrite Hf, Hd. left. reflexivity.
  - intros eq Hq Hc Hf He Heq.
    assert (Hfm : falta (motivo_solicitud data) = false)
      by (destruct Hmotivo as [H|H]; rewrite H; reflexivity).
    destruct (errores_distribuidor_completo data Hc Hfm) as [Hemail Hdist].
    assert (Hquien : falta (quien_completa data) = false) by (rewrite Hq; reflexivity).
    assert (Hsol : errores_solicitante data = []).
    { unfold errores_solicitante. rewrite Hq. simpl. exact Hdist. }
    unfold validar_campos_obligatorios.
    rewrite Hemail, Hquien, Hsol, Hm, Hf, (errores_equipos_completo data eq He Heq).
    split; intros Hd.
    + apply String.eqb_neq in Hd. rewrite Hd. reflexivity.
    + rewrite Hd. reflexivity.
Qed.

Lemma validar_servicio_opcion_o_detalle_witness :
  validar_campos_obligatorios
    (Ejemplos.solicitud_distribuidor "No enciende" [Ejemplos.respirador]) = (true, [])
  /\ validar_campos_obligatorios
       (Ejemplos.solicitud_distribuidor "  " [Ejemplos.respirador])
     = (false, [ERROR_OPCION]).
Proof.
  split.
  - apply (validar_servicio_opcion_o_detalle
             (Ejemplos.solicitud_distribuidor "No enciende" [Ejemplos.respirador])
             (or_introl eq_refl))
      with (eq := Ejemplos.respirador); try reflexivity.
    vm_compute. discriminate.
  - apply (validar_servicio_opcion_o_detalle
             (Ejemplos.solicitud_distribuidor "  " [Ejemplos.respirador])
             (or_introl eq_refl))
      with (eq := Ejemplos.respirador); reflexivity.
Defined.

(** Neither the phone nor a field asked of a distributor only. *)
Lemma ordinal_sin_mencion (a b : string) (i : nat) :
  (forallb (fun palabra =>
              negb (menciona palabra a) && negb (menciona palabra b)
              && negb (menciona palabra (a ++ b)%string))
           ["Teléfono"; "Nombre de Fantasía"; "Razón Social"; "CUIT"; "comercial"]%string
   = true) ->
  menciona "Teléfono" (a ++ str_nat i ++ b)%string = false
  /\ sobre_distribuidor (a ++ str_nat i ++ b)%string = false.
Proof.
  intros H. cbn [forallb] in H.
  repeat match goal with
         | G : _ && _ = true |- _ => apply andb_prop in G; destruct G
         | G : negb _ = true |- _ => apply negb_true_iff in G
         end.
  unfold sobre_distribuidor.
  rewrite !menciona_con_ordinal by (assumption || reflexivity).
  split; reflexivity.
Qed.

(** C5.  For a patient whose phone is absent or empty, exactly one of the
    errors mentions the phone, and none of them mentions a field asked of a
    distributor only (trade name, legal name, CUIT, sales agent). *)
Theorem validar_paciente_sin_telefono (data : datos) :
  quien_completa data = Some "Paciente/Particular"%string ->
  falta (telefono_paciente data) = true ->
  filter (menciona "Teléfono") (snd (validar_campos_obligatorios data))
  = ["Teléfono de contacto es obligatorio"%string]
  /\ Forall (fun m => sobre_distribuidor m = false)
            (snd (validar_campos_obligatorios data)).
Proof.
  intros Hq Htel.
  set (Q := fun m : string =>
              menciona "Teléfono" m = false /\ sobre_distribuidor m = false).
  assert (Hsol : errores_solicitante data
                 = si (falta (nombre_apellido_paciente data)) "Nombre y Apellido es obligatorio"
                   ++ ["Teléfono de contacto es obligatorio"%string]
                   ++ si (falta (equipo_origen data)) "Origen del equipo es obligatorio"
                   ++ si (falta (motivo_solicitud data)) "Motivo de la solicitud es obligatorio").
  { unfold errores_solicitante. rewrite Hq. cbn [get].
    change (("Paciente/Particular" =? "Colaborador de Syemed")%string) with false.
    change (("Paciente/Particular" =? "Distribuidor")%string) with false.
    change (("Paciente/Particular" =? "Institución")%string) with false.
    change (("Paciente/Particular" =? "Paciente/Particular")%string) with true.
    cbv iota. unfold errores_paciente. rewrite Htel. reflexivity. }
  assert (Hquien : si (falta (quien_completa data))
                      "Debe indicar quién completa la solicitud" = [])
    by (rewrite Hq; reflexivity).
  assert (H1 : Forall Q (si (falta (email data)) "El correo electrónico es obligatorio"))
    by (por_mensaje ltac:(split; vm_compute; reflexivity)).
  assert (H2 : Forall Q (si (falta (nombre_apellido_paciente data))
                           "Nombre y Apellido es obligatorio"))
    by (por_mensaje ltac:(split; vm_compute; reflexivity)).
  assert (H3 : Forall Q (si (falta (equipo_origen data)) "Origen del equipo es obligatorio"
                         ++ si (falta (motivo_solicitud data))
                              "Motivo de la solicitud es obligatorio"))
    by (por_mensaje ltac:(split; vm_compute; reflexivity)).
  assert (H4 : Forall Q (errores_motivo data)).
  { unfold errores_motivo. cbv zeta.
    por_mensaje ltac:(split; vm_compute; reflexivity). }
  assert (H5 : Forall Q (errores_equipos data)).
  { apply errores_equipos_Forall.
    - split; vm_compute; reflexivity.
    - intros i. apply ordinal_sin_mencion. vm_compute. reflexivity.
    - intros i. apply ordinal_sin_mencion. vm_compute. reflexivity.
    - intros i. apply ordinal_sin_mencion. vm_compute. reflexivity. }
  assert (Hno : forall l, Forall Q l -> filter (menciona "Teléfono") l = []).
  { intros l Hl. apply filter_nada. apply (Forall_impl _ (fun m Hm => proj1 Hm) Hl). }
  assert (Hsd : forall l, Forall Q l -> Forall (fun m => sobre_distribuidor m = false) l).
  { intros l Hl. apply (Forall_impl _ (fun m Hm => proj2 Hm) Hl). }
  unfold validar_campos_obligatorios. cbn [snd].
  rewrite Hquien, Hsol. split.
  - rewrite !filter_app.
    rewrite (Hno _ H1), (Hno _ H2), (Hno _ H4), (Hno _ H5).
    apply Forall_app in H3. destruct H3 as [H3a H3b].
    rewrite (Hno _ H3a), (Hno _ H3b). reflexivity.
  - repeat (apply Forall_app; split); try (apply Hsd; assumption).
    + constructor.
    + constructor; [vm_compute; reflexivity | constructor].
    + apply Forall_app in H3. apply Hsd. apply H3.
    + apply Forall_app in H3. apply Hsd. apply H3.
Qed.

Lemma validar_paciente_sin_telefono_witness :
  filter (menciona "Teléfono")
         (snd (validar_campos_obligatorios Ejemplos.solicitud_paciente))
  = ["Teléfono de contacto es obligatorio"%string]
  /\ Forall (fun m => sobre_distribuidor m = false)
            (snd (validar_campos_obligatorios Ejemplos.solicitud_paciente)).
Proof.
  apply validar_paciente_sin_telefono; reflexivity.
Defined.

End Validacion.

(* ===================================================================== *)
(** * Further properties of the customer search *)
(* ===================================================================== *)

Section ResultadoDeBusqueda.
Import Texto Sql Efectos Busqueda.
Local Open Scope Z_scope.
Context {L : locale}.

Lemma es_verdadero_sql_and (a b : option bool) :
  es_verdadero (sql_and a b) = true <->
  es_verdadero a = true /\ es_verdadero b = true.
Proof. destruct a as [[]|], b as [[]|]; simpl; intuition discriminate. Qed.

Lemma es_verdadero_sql_or (a b : option bool) :
  es_verdadero (sql_or a b) = true <->
  es_verdadero a = true \/ es_verdadero b = true.
Proof. destruct a as [[]|], b as [[]|]; simpl; intuition discriminate. Qed.

(** ILIKE with [%] on both sides of a text without wildcards is
    containment after [LOWER] on both. *)
Lemma ilike_contiene_a (a : option string) (q : string) :
  sin_comodines q = true ->
  es_verdadero (ilike a (Some ("%" ++ q ++ "%")%string)) = contiene_a a q.
Proof.
  intros Hq. destruct a as [s|]; [|reflexivity].
  unfold ilike, lower, option_map, like, es_verdadero, contiene_a.
  rewrite plegar_porcentaje_inicial, plegar_porcentaje_final.
  rewrite (like_match_contiene _ (plegar_sin_comodines q Hq)).
  destruct (contiene _ _); reflexivity.
Qed.

Lemma condicion_where_true p7 p8 p9 p10 c :
  condicion_where p7 p8 p9 p10 c = true <->
  Clientes.activo c = true
  /\ (es_verdadero (ilike (Clientes.busqueda_texto c) (Some p7)) = true
      \/ es_verdadero (ilike (Clientes.cuit_dni c) (Some p8)) = true)
  /\ (p9 = None \/ exists t, p10 = Some t /\ Clientes.tipo_cliente c = Some t).
Proof.
  unfold condicion_where.
  rewrite !es_verdadero_sql_and, !es_verdadero_sql_or.
  assert (H1 : es_verdadero (Some (Clientes.activo c)) = true
               <-> Clientes.activo c = true)
    by (destruct (Clientes.activo c); simpl; intuition discriminate).
  assert (H2 : es_verdadero (is_null p9) = true <-> p9 = None)
    by (destruct p9; simpl; intuition discriminate).
  assert (H3 : es_verdadero (sql_eq (Clientes.tipo_cliente c) p10) = true
               <-> exists t, p10 = Some t /\ Clientes.tipo_cliente c = Some t).
  { destruct (Clientes.tipo_cliente c) as [x|], p10 as [y|]; simpl.
    - destruct (String.eqb_spec x y) as [->|Hne]; split.
      + intros _. exists y. auto.
      + reflexivity.
      + discriminate.
      + intros (t & Ht & Hx). congruence.
    - split; [discriminate | intros (t & Ht & _); discriminate].
    - split; [discriminate | intros (t & _ & Hx); discriminate].
    - split; [discriminate | intros (t & Ht & _); discriminate]. }
  rewrite H1, H2, H3. tauto.
Qed.

(** The rows of the statement's result, exactly: projections of rows that
    pass the WHERE and score more than zero. *)
Lemma consulta_busqueda_origen p1 p2 p3 p4 p5 p6 p7 p8 p9 p10 p11 tabla x :
  In x (consulta_busqueda p1 p2 p3 p4 p5 p6 p7 p8 p9 p10 p11 tabla) ->
  exists c, In c tabla /\ x = seleccionar p1 p2 p3 p4 p5 p6 c
            /\ condicion_where p7 p8 p9 p10 c = true
            /\ 0 < relevancia_score p1 p2 p3 p4 p5 p6 c.
Proof.
  unfold consulta_busqueda. intros H.
  apply In_firstn in H. apply (proj1 (In_order_by _ _)) in H.
  apply filter_In in H. destruct H as [H Hpos].
  apply in_map_iff in H. destruct H as (c & Hc & Hin).
  apply filter_In in Hin. destruct Hin as [Hin Hw].
  exists c. subst x. simpl in Hpos. apply Z.ltb_lt in Hpos. auto.
Qed.

Lemma length_insertar (x : Resultado.fila) (l : list Resultado.fila) :
  length (insertar x l) = S (length l).
Proof.
  induction l as [|y l IH]; simpl; [reflexivity|].
  destruct (antes x y); simpl; [reflexivity | rewrite IH; reflexivity].
Qed.

Lemma length_order_by (l : list Resultado.fila) : length (order_by l) = length l.
Proof.
  induction l as [|x l IH]; simpl; [reflexivity|].
  rewrite length_insertar, IH. reflexivity.
Qed.

Lemma length_filter_le {A : Type} (f : A -> bool) (l : list A) :
  (length (filter f l) <= length l)%nat.
Proof.
  induction l as [|x l IH]; simpl; [lia|]. destruct (f x); simpl; lia.
Qed.

Lemma consulta_busqueda_length p1 p2 p3 p4 p5 p6 p7 p8 p9 p10 p11 tabla :
  (length (consulta_busqueda p1 p2 p3 p4 p5 p6 p7 p8 p9 p10 p11 tabla)
   <= Nat.min (Z.to_nat p11) (length tabla))%nat.
Proof.
  unfold consulta_busqueda. rewrite length_firstn, length_order_by.
  pose proof (length_filter_le (fun r => 0 <? Resultado.relevancia_score r)
                (map (seleccionar p1 p2 p3 p4 p5 p6)
                     (filter (condicion_where p7 p8 p9 p10) tabla))) as H1.
  rewrite length_map in H1.
  pose proof (length_filter_le (condicion_where p7 p8 p9 p10) tabla) as H2.
  lia.
Qed.

(** X1.  Whatever the storage does, the list the search returns has at most
    [limite] rows (none when [limite] is zero or negative) and at most as
    many rows as the table. *)
Theorem buscar_clientes_db_a_lo_sumo_limite
  bd (texto_busqueda : string) (tipo_cliente comercial : option string) (limite : Z)
  (res : list Resultado.fila) :
  valor (buscar_clientes_db bd texto_busqueda tipo_cliente comercial limite) = inr res ->
  Z.of_nat (length res) <= Z.max 0 limite
  /\ (length res <= length (clientes bd))%nat.
Proof.
  intros Hres.
  destruct (buscar_clientes_db_valor bd texto_busqueda tipo_cliente comercial limite)
    as [H|H]; rewrite H in Hres; injection Hres as <-.
  - simpl. lia.
  - match goal with
    | |- context [length (consulta_busqueda ?a ?b ?c ?d ?e ?f ?g ?h ?i ?j ?k ?t)] =>
        pose proof (consulta_busqueda_length a b c d e f g h i j k t) as Hl
    end.
    lia.
Qed.

(** X2.  In every locale, every row the search returns comes from a row of
    the table that is active, has the type asked for when a type filter is
    given, and scores more than zero; for a query without LIKE wildcards
    its searchable text or its identifier contains the query, both taken
    after the [LOWER] of the database. *)
Theorem buscar_clientes_db_origen
  bd (texto_busqueda : string) (tipo_cliente comercial : option string) (limite : Z)
  (res : list Resultado.fila) (x : Resultado.fila) :
  valor (buscar_clientes_db bd texto_busqueda tipo_cliente comercial limite) = inr res ->
  In x res ->
  exists c,
    In c (clientes bd)
    /\ Resultado.id x = Clientes.id c
    /\ Resultado.cuit_dni x = Clientes.cuit_dni c
    /\ Resultado.nombre_display x = nombre_display c
    /\ Resultado.relevancia_score x = relevancia_de_busqueda texto_busqueda comercial c
    /\ 0 < Resultado.relevancia_score x
    /\ Clientes.activo c = true
    /\ (forall t, tipo_cliente = Some t -> Clientes.tipo_cliente c = Some t)
    /\ (sin_comodines texto_busqueda = true ->
        contiene_a (Clientes.busqueda_texto c) texto_busqueda = true
        \/ contiene_a (Clientes.cuit_dni c) texto_busqueda = true).
Proof.
  intros Hres Hx.
  destruct (buscar_clientes_db_valor bd texto_busqueda tipo_cliente comercial limite)
    as [H|H]; rewrite H in Hres; injection Hres as <-; [contradiction Hx|].
  apply consulta_busqueda_origen in Hx.
  destruct Hx as (c & Hin & -> & Hw & Hpos).
  apply condicion_where_true in Hw. destruct Hw as (Hact & Htxt & Htipo).
  exists c. repeat (split; [solve [auto] |]).
  split.
  - intros t Ht. destruct Htipo as [Hn|(t' & Ht' & Hc)]; congruence.
  - intros Hq. rewrite !(ilike_contiene_a _ _ Hq) in Htxt. exact Htxt.
Qed.

End ResultadoDeBusqueda.

Section EjemplosDeResultadoDeBusqueda.
Import Texto Sql Efectos Busqueda.
Local Open Scope Z_scope.

Lemma buscar_clientes_db_a_lo_sumo_limite_witness :
  Z.of_nat (length [seleccionar (Some "Clara") EmptyString "%%" "sye" "sye%" "%sye%"
                      Ejemplos.syemed]) <= Z.max 0 1
  /\ (length [seleccionar (Some "Clara") EmptyString "%%" "sye" "sye%" "%sye%"
                Ejemplos.syemed]
      <= length (clientes (sin_fallas [Ejemplos.perez; Ejemplos.syemed])))%nat.
Proof.
  apply (buscar_clientes_db_a_lo_sumo_limite
           (sin_fallas [Ejemplos.perez; Ejemplos.syemed]) "sye" None (Some "Clara") 1).
  reflexivity.
Defined.

Lemma buscar_clientes_db_origen_witness :
  exists c,
    In c [Ejemplos.perez; Ejemplos.syemed]
    /\ Resultado.id (seleccionar (Some "Clara") EmptyString "%%" "sye" "sye%" "%sye%"
                       Ejemplos.syemed) = Clientes.id c
    /\ Clientes.activo c = true.
Proof.
  destruct (buscar_clientes_db_origen (L := locale_C)
              (sin_fallas [Ejemplos.perez; Ejemplos.syemed]) "sye"
              (Some "Distribuidor"%string) (Some "Clara"%string) 15
              [seleccionar (Some "Clara") EmptyString "%%" "sye" "sye%" "%sye%"
                 Ejemplos.syemed]
              (seleccionar (Some "Clara") EmptyString "%%" "sye" "sye%" "%sye%"
                 Ejemplos.syemed)
              eq_refl (or_introl eq_refl))
    as (c & H1 & H2 & _ & _ & _ & _ & H3 & _).
  exists c. auto.
Defined.

End EjemplosDeResultadoDeBusqueda.

Section CoberturaDeBusqueda.
Import Texto Sql Efectos Busqueda.
Local Open Scope Z_scope.
Context {L : locale}.

Lemma insertar_Permutation (x : Resultado.fila) (l : list Resultado.fila) :
  Permutation (insertar x l) (x :: l).
Proof.
  induction l as [|y l IH]; simpl; [reflexivity|].
  destruct (antes x y); [reflexivity|].
  rewrite IH. apply perm_swap.
Qed.

Lemma order_by_Permutation (l : list Resultado.fila) : Permutation (order_by l) l.
Proof.
  induction l as [|x l IH]; simpl; [reflexivity|].
  rewrite insertar_Permutation. constructor. exact IH.
Qed.

Lemma NoDup_map_filter {A B : Type} (p : A -> bool) (f : A -> B) (filas : list A)
  (H : NoDup (map f filas)) : NoDup (map f (filter p filas)).
Proof.
  induction filas as [|x l IH]; simpl in *; [constructor|].
  inversion H as [|? ? Hnot Hl]; subst.
  destruct (p x); simpl; [|apply IH; exact Hl].
  constructor; [|apply IH; exact Hl].
  intros Hin. apply Hnot. apply in_map_iff in Hin. destruct Hin as (y & Hy & Hin).
  apply filter_In in Hin. apply in_map_iff. exists y. tauto.
Qed.

Lemma NoDup_firstn_lista {A : Type} (n : nat) (l : list A) :
  NoDup l -> NoDup (firstn n l).
Proof.
  revert l. induction n as [|n IH]; intros [|x l] H; simpl; try constructor.
  - inversion H as [|? ? Hnot Hl]; subst. intros Hin. apply Hnot.
    apply In_firstn with n. exact Hin.
  - inversion H; subst. apply IH. assumption.
Qed.

Lemma consulta_busqueda_sin_repetidos p1 p2 p3 p4 p5 p6 p7 p8 p9 p10 p11 tabla :
  NoDup (map Clientes.id tabla) ->
  NoDup (map Resultado.id (consulta_busqueda p1 p2 p3 p4 p5 p6 p7 p8 p9 p10 p11 tabla)).
Proof.
  intros Hnd. unfold consulta_busqueda. rewrite <- firstn_map.
  apply NoDup_firstn_lista.
  eapply Permutation_NoDup.
  - apply Permutation_map. symmetry. apply order_by_Permutation.
  - apply NoDup_map_filter. rewrite map_map. simpl.
    apply NoDup_map_filter. exact Hnd.
Qed.

(** X3.  When the identifiers of the table are pairwise distinct, so are
    those of the rows the search returns: no customer is listed twice. *)
Theorem buscar_clientes_db_sin_repetidos
  bd (texto_busqueda : string) (tipo_cliente comercial : option string) (limite : Z)
  (res : list Resultado.fila) :
  NoDup (map Clientes.id (clientes bd)) ->
  valor (buscar_clientes_db bd texto_busqueda tipo_cliente comercial limite) = inr res ->
  NoDup (map Resultado.id res).
Proof.
  intros Hnd Hres.
  destruct (buscar_clientes_db_valor bd texto_busqueda tipo_cliente comercial limite)
    as [H|H]; rewrite H in Hres; injection Hres as <-; [constructor|].
  apply consulta_busqueda_sin_repetidos. exact Hnd.
Qed.

(** X4.  With parameters that PostgreSQL and its driver take (texts without
    U+0000, a limit from 0 to 2^63 - 1), a query without the characters
    [%], [_] and backslash, no storage call that raises and a limit that
    is not below the size of the table, the search misses nothing, in any
    locale: every active row that passes the WHERE of the statement and
    scores more than zero is in the list, and nothing is shown. *)
Theorem buscar_clientes_db_completa
  (tabla : list Clientes.fila) (texto_busqueda : string)
  (tipo_cliente comercial : option string) (limite : Z) (c : Clientes.fila) :
  (2 <= py_len texto_busqueda)%nat ->
  sin_comodines texto_busqueda = true ->
  parametros_validos texto_busqueda tipo_cliente comercial limite = true ->
  Z.of_nat (length tabla) <= limite ->
  In c tabla ->
  condicion_where ("%" ++ texto_busqueda ++ "%") ("%" ++ texto_busqueda ++ "%")
    tipo_cliente tipo_cliente c = true ->
  0 < relevancia_de_busqueda texto_busqueda comercial c ->
  exists res x,
    buscar_clientes_db (sin_fallas tabla) texto_busqueda tipo_cliente comercial limite
    = (inr res,
       [Llamada Connect; Llamada Cursor; Llamada Execute; Llamada Fetch;
        Llamada CloseCursor; Llamada CloseConn])
    /\ In x res
    /\ Resultado.id x = Clientes.id c
    /\ Resultado.relevancia_score x = relevancia_de_busqueda texto_busqueda comercial c.
Proof.
  intros Hlen Hq Hpar Hlim Hin Hw Hpos.
  eexists.
  exists (seleccionar comercial (normalizar_cuit_dni (Some texto_busqueda))
            ("%" ++ normalizar_cuit_dni (Some texto_busqueda) ++ "%")
            texto_busqueda (texto_busqueda ++ "%") ("%" ++ texto_busqueda ++ "%") c).
  split.
  - apply (buscar_clientes_db_corrida (sin_fallas tabla) texto_busqueda tipo_cliente
             comercial limite Hlen (fun _ => eq_refl) Hpar).
    apply consulta_busqueda_no_lanza_sin_comodines. exact Hq.
  - split; [|split; reflexivity].
    unfold consulta_busqueda. cbn [clientes sin_fallas].
    rewrite firstn_all2.
    + apply In_order_by. apply filter_In. split.
      * apply in_map. apply filter_In. split; assumption.
      * simpl. apply Z.ltb_lt. exact Hpos.
    + rewrite length_order_by.
      eapply Nat.le_trans; [apply length_filter_le|].
      rewrite length_map.
      eapply Nat.le_trans; [apply length_filter_le|]. lia.
Qed.

End CoberturaDeBusqueda.

Section EjemplosDeCoberturaDeBusqueda.
Import Texto Sql Efectos Busqueda.
Local Open Scope Z_scope.

Lemma buscar_clientes_db_sin_repetidos_witness :
  NoDup (map Resultado.id
           [seleccionar (Some "Clara") EmptyString "%%" "sye" "sye%" "%sye%" Ejemplos.syemed;
            seleccionar (Some "Clara") EmptyString "%%" "sye" "sye%" "%sye%" Ejemplos.perez]).
Proof.
  apply (buscar_clientes_db_sin_repetidos (L := locale_C)
           (sin_fallas [Ejemplos.perez; Ejemplos.syemed]) "sye" None (Some "Clara") 15).
  - simpl. constructor; [intros [H|[]]; discriminate H|].
    constructor; [intros []|constructor].
  - reflexivity.
Defined.

Lemma buscar_clientes_db_completa_witness :
  exists res x,
    buscar_clientes_db (sin_fallas [Ejemplos.perez; Ejemplos.syemed]) "sye"
      None (Some "Clara") 15
    = (inr res,
       [Llamada Connect; Llamada Cursor; Llamada Execute; Llamada Fetch;
        Llamada CloseCursor; Llamada CloseConn])
    /\ In x res
    /\ Resultado.id x = 2
    /\ Resultado.relevancia_score x = relevancia_de_busqueda "sye" (Some "Clara") Ejemplos.perez.
Proof.
  apply (buscar_clientes_db_completa (L := locale_C) [Ejemplos.perez; Ejemplos.syemed] "sye"
           None (Some "Clara") 15 Ejemplos.perez).
  - vm_compute. lia.
  - reflexivity.
  - reflexivity.
  - simpl. lia.
  - left. reflexivity.
  - reflexivity.
  - reflexivity.
Defined.

End EjemplosDeCoberturaDeBusqueda.

Section CotasDePuntaje.
Import Texto Sql Efectos Busqueda.
Local Open Scope Z_scope.
Context {L : locale}.

Lemma bonus_valores p1 p2 p3 p4 p5 p6 c :
  (bonus_comercial p1 c = 0 \/ bonus_comercial p1 c = 1000)
  /\ (bonus_visible c = 0 \/ bonus_visible c = 500)
  /\ (bonus_cuit_dni p2 p3 c = 0 \/ bonus_cuit_dni p2 p3 c = 200
      \/ bonus_cuit_dni p2 p3 c = 300)
  /\ (bonus_nombre p4 p5 p6 c = 0 \/ bonus_nombre p4 p5 p6 c = 100
      \/ bonus_nombre p4 p5 p6 c = 150 \/ bonus_nombre p4 p5 p6 c = 250).
Proof.
  unfold bonus_comercial, bonus_visible, bonus_cuit_dni, bonus_nombre.
  repeat match goal with |- context [if ?b then _ else _] => destruct b end;
    repeat split; auto.
Qed.

(** X5.  The score lies between 0 and 2050.  A row whose assigned agents do
    not include the requesting agent (or any row when no agent is given)
    scores at most 1050, and reaches 1000 only when it is visible to all,
    its identifier equals the normalised query and its name takes the 250
    bonus; its score is then 1050.  So the threshold of 1000 does not
    single out the agent's own customers. *)
Theorem relevancia_sin_comercial_asignado
  (texto_busqueda : string) (comercial : option string) (c : Clientes.fila) :
  0 <= relevancia_de_busqueda texto_busqueda comercial c <= 2050
  /\ (es_verdadero (eq_any comercial (Clientes.comercial_asignado c)) = false ->
      relevancia_de_busqueda texto_busqueda comercial c <= 1050
      /\ (1000 <= relevancia_de_busqueda texto_busqueda comercial c ->
          relevancia_de_busqueda texto_busqueda comercial c = 1050
          /\ Clientes.visible_para_todos c = true
          /\ Clientes.cuit_dni c = Some (normalizar_cuit_dni (Some texto_busqueda))
          /\ bonus_nombre_de_busqueda texto_busqueda c = 250)).
Proof.
  unfold relevancia_de_busqueda, relevancia_score, bonus_nombre_de_busqueda.
  set (tn := normalizar_cuit_dni (Some texto_busqueda)).
  assert (Hc300 : bonus_cuit_dni tn ("%" ++ tn ++ "%") c = 300 ->
                  Clientes.cuit_dni c = Some tn).
  { unfold bonus_cuit_dni, sql_eq, like, es_verdadero.
    destruct (Clientes.cuit_dni c) as [ident|]; [|discriminate].
    destruct (String.eqb_spec ident tn) as [->|_]; [reflexivity|].
    destruct (like_match ("%" ++ tn ++ "%") ident); discriminate. }
  destruct (bonus_valores comercial tn ("%" ++ tn ++ "%") texto_busqueda
              (texto_busqueda ++ "%") ("%" ++ texto_busqueda ++ "%") c)
    as (H1 & H2 & H3 & H4).
  split; [lia|].
  intros Hno.
  assert (H0 : bonus_comercial comercial c = 0)
    by (unfold bonus_comercial; rewrite Hno; reflexivity).
  split; [lia|].
  intros Hmil.
  assert (Hv : bonus_visible c = 500) by lia.
  assert (Hi : bonus_cuit_dni tn ("%" ++ tn ++ "%") c = 300) by lia.
  assert (Hn : bonus_nombre texto_busqueda (texto_busqueda ++ "%")
                 ("%" ++ texto_busqueda ++ "%") c = 250) by lia.
  repeat split; try lia.
  - unfold bonus_visible in Hv. destruct (Clientes.visible_para_todos c);
      [reflexivity | discriminate].
  - apply Hc300. exact Hi.
Qed.

End CotasDePuntaje.

Section EjemplosDeCotasDePuntaje.
Import Texto Sql Efectos Busqueda.
Local Open Scope Z_scope.

Lemma relevancia_sin_comercial_asignado_witness :
  relevancia_de_busqueda "Farmacia 24" (Some "Clara") MasEjemplos.farmacia = 1050
  /\ Clientes.visible_para_todos MasEjemplos.farmacia = true
  /\ Clientes.cuit_dni MasEjemplos.farmacia
     = Some (normalizar_cuit_dni (Some "Farmacia 24"))
  /\ bonus_nombre_de_busqueda "Farmacia 24" MasEjemplos.farmacia = 250.
Proof.
  apply (relevancia_sin_comercial_asignado "Farmacia 24" (Some "Clara")
           MasEjemplos.farmacia).
  - reflexivity.
  - vm_compute. discriminate.
Defined.

End EjemplosDeCotasDePuntaje.

Section FiltroDePuntaje.
Import Texto Sql Efectos Busqueda.
Local Open Scope Z_scope.
Context {L : locale}.

Lemma prefix_solo_digitos (n s : string) :
  String.prefix n s = true -> solo_digitos s = true -> solo_digitos n = true.
Proof.
  revert s. induction n as [|c n IH]; intros [|d s] Hp Hs; simpl in *;
    try reflexivity; try discriminate.
  destruct (ascii_dec c d) as [->|]; [|discriminate].
  apply andb_prop in Hs. destruct Hs as [Hd Hs].
  rewrite Hd. simpl. apply (IH s); assumption.
Qed.

Lemma contiene_solo_digitos (n s : string) :
  contiene n s = true -> solo_digitos s = true -> solo_digitos n = true.
Proof.
  induction s as [|d s IH]; intros Hc Hs.
  - simpl in Hc. rewrite orb_false_r in Hc. apply (prefix_solo_digitos n EmptyString); auto.
  - simpl in Hc. apply orb_prop in Hc. destruct Hc as [Hp|Hc].
    + apply (prefix_solo_digitos n (String d s)); assumption.
    + simpl in Hs. apply andb_prop in Hs. apply IH; tauto.
Qed.

Lemma bonus_nombre_al_menos_100 p4 p5 p6 c :
  es_verdadero (ilike (Clientes.busqueda_texto c) (Some p6)) = true ->
  100 <= bonus_nombre p4 p5 p6 c.
Proof.
  intros H. unfold bonus_nombre. rewrite H.
  repeat match goal with |- context [if ?b then _ else _] => destruct b end; lia.
Qed.

(** X6.  For a query without LIKE wildcards, on a row whose identifier is
    stored as digits only, passing the WHERE of the statement already gives
    a score of at least 100: the outer test [relevancia_score > 0] drops no
    such row. *)
Theorem condicion_where_da_puntaje
  (texto_busqueda : string) (tipo_cliente comercial : option string) (c : Clientes.fila) :
  sin_comodines texto_busqueda = true ->
  (forall ident, Clientes.cuit_dni c = Some ident -> solo_digitos ident = true) ->
  condicion_where ("%" ++ texto_busqueda ++ "%") ("%" ++ texto_busqueda ++ "%")
    tipo_cliente tipo_cliente c = true ->
  100 <= relevancia_de_busqueda texto_busqueda comercial c.
Proof.
  intros Hq Hdig Hw.
  apply condicion_where_true in Hw. destruct Hw as (_ & Htxt & _).
  unfold relevancia_de_busqueda, relevancia_score.
  set (tn := normalizar_cuit_dni (Some texto_busqueda)).
  destruct (bonus_no_negativos comercial tn ("%" ++ tn ++ "%") texto_busqueda
              (texto_busqueda ++ "%") ("%" ++ texto_busqueda ++ "%") c)
    as (H1 & H2 & H3 & H4).
  destruct Htxt as [Ht|Hi].
  - pose proof (bonus_nombre_al_menos_100 texto_busqueda (texto_busqueda ++ "%")
                  ("%" ++ texto_busqueda ++ "%") c Ht). lia.
  - rewrite (ilike_contiene_a _ _ Hq) in Hi. unfold contiene_a in Hi.
    destruct (Clientes.cuit_dni c) as [ident|] eqn:Hid; [|discriminate].
    pose proof (Hdig ident eq_refl) as Hident.
    rewrite (plegar_digitos ident Hident) in Hi.
    assert (Hqd : solo_digitos texto_busqueda = true).
    { apply plegar_de_digitos.
      apply (contiene_solo_digitos _ ident); assumption. }
    rewrite (plegar_digitos _ Hqd) in Hi.
    assert (Htn : tn = texto_busqueda)
      by (apply normalizar_cuit_dni_fijo; exact Hqd).
    assert (Hb : 200 <= bonus_cuit_dni tn ("%" ++ tn ++ "%") c).
    { unfold bonus_cuit_dni, sql_eq, like, es_verdadero. rewrite Hid, Htn.
      destruct (String.eqb ident texto_busqueda); [lia|].
      rewrite (like_match_contiene _ Hq), Hi. lia. }
    lia.
Qed.

End FiltroDePuntaje.

Section EjemplosDeFiltroDePuntaje.
Import Texto Sql Efectos Busqueda.
Local Open Scope Z_scope.

Lemma condicion_where_da_puntaje_witness :
  100 <= relevancia_de_busqueda "7183" None Ejemplos.syemed.
Proof.
  apply (condicion_where_da_puntaje (L := locale_C) "7183" None None Ejemplos.syemed).
  - reflexivity.
  - intros ident H. injection H as <-. reflexivity.
  - reflexivity.
Defined.

End EjemplosDeFiltroDePuntaje.

(* ===================================================================== *)
(** * Further properties of the duplicate check *)
(* ===================================================================== *)

Section ExistenciaDeCuit.
Import Texto Sql Efectos Busqueda.
Local Open Scope Z_scope.

Lemma consulta_count_positivo (p1 : string) (tabla : list Clientes.fila) :
  (0 <? consulta_count p1 tabla) = true <->
  exists c, In c tabla /\ Clientes.cuit_dni c = Some p1.
Proof.
  unfold consulta_count. rewrite Z.ltb_lt. split.
  - intros H.
    destruct (filter (fun c => es_verdadero (sql_eq (Clientes.cuit_dni c) (Some p1))) tabla)
      as [|c l] eqn:Hf; [simpl in H; lia|].
    assert (Hin : In c (filter (fun c => es_verdadero (sql_eq (Clientes.cuit_dni c) (Some p1)))
                          tabla)) by (rewrite Hf; left; reflexivity).
    apply filter_In in Hin. destruct Hin as [Hin Hc].
    exists c. split; [exact Hin|].
    destruct (Clientes.cuit_dni c) as [x|]; [|discriminate].
    simpl in Hc. destruct (String.eqb_spec x p1); [congruence | discriminate].
  - intros (c & Hin & Hc).
    assert (Hf : In c (filter (fun c => es_verdadero (sql_eq (Clientes.cuit_dni c) (Some p1)))
                         tabla)).
    { apply filter_In. split; [exact Hin|]. rewrite Hc. simpl.
      rewrite String.eqb_refl. reflexivity. }
    destruct (filter _ tabla); [contradiction Hf | simpl; lia].
Qed.

(** X7.  When no storage call raises, the check answers [True] exactly when
    the argument has at least one digit and some row of the table stores
    the digits of the argument as its identifier; the comparison ignores
    every character of the argument that is not a digit. *)
Theorem verificar_cuit_dni_existe_sin_fallas
  (tabla : list Clientes.fila) (cuit_dni : option string) :
  exists b,
    verificar_cuit_dni_existe (sin_fallas tabla) cuit_dni
    = (inr b, if (normalizar_cuit_dni cuit_dni =? EmptyString)%string then []
              else [Llamada Connect; Llamada Cursor; Llamada Execute; Llamada Fetch;
                    Llamada CloseCursor; Llamada CloseConn])
    /\ (b = true <->
        normalizar_cuit_dni cuit_dni <> EmptyString
        /\ exists c, In c tabla
                     /\ Clientes.cuit_dni c = Some (normalizar_cuit_dni cuit_dni)).
Proof.
  unfold verificar_cuit_dni_existe.
  destruct (String.eqb_spec (normalizar_cuit_dni cuit_dni) EmptyString) as [He|Hne].
  - exists false. split; [reflexivity|]. split; [discriminate | tauto].
  - exists (0 <? consulta_count (normalizar_cuit_dni cuit_dni) tabla).
    split; [reflexivity|].
    rewrite consulta_count_positivo. tauto.
Qed.

(** X8.  When any of the storage calls of the check raises, the check
    answers [False] after showing a message, also when a row with that
    identifier is in the table: a failed check reads as "not registered". *)
Theorem verificar_cuit_dni_existe_excepcion bd (cuit_dni : option string) :
  normalizar_cuit_dni cuit_dni <> EmptyString ->
  (exists op, falla bd op <> None) ->
  valor (verificar_cuit_dni_existe bd cuit_dni) = inr false
  /\ exists e, In (StError ("❌ Error al verificar CUIT/DNI: " ++ e))
                  (traza (verificar_cuit_dni_existe bd cuit_dni)).
Proof.
  intros Hne [op Hop]. unfold verificar_cuit_dni_existe.
  apply String.eqb_neq in Hne. rewrite Hne.
  unfold verificar_cuit_dni_existe_try, try_except, llamar, st_error, emitir,
    bind, ret, raise, valor, traza.
  destruct (falla bd Connect) as [e|] eqn:H1; simpl;
    [split; [reflexivity | exists e; auto]|].
  destruct (falla bd Cursor) as [e|] eqn:H2; simpl;
    [split; [reflexivity | exists e; auto]|].
  destruct (falla bd Execute) as [e|] eqn:H3; simpl;
    [split; [reflexivity | exists e; auto]|].
  destruct (falla bd Fetch) as [e|] eqn:H4; simpl;
    [split; [reflexivity | exists e; auto 10]|].
  destruct (falla bd CloseCursor) as [e|] eqn:H5; simpl;
    [split; [reflexivity | exists e; auto 10]|].
  destruct (falla bd CloseConn) as [e|] eqn:H6; simpl;
    [split; [reflexivity | exists e; auto 10]|].
  destruct op; congruence.
Qed.

Lemma verificar_cuit_dni_existe_excepcion_witness :
  valor (verificar_cuit_dni_existe (sin_conexion [Ejemplos.syemed] "timeout")
           (Some "30-71834383-2")) = inr false
  /\ exists e, In (StError ("❌ Error al verificar CUIT/DNI: " ++ e))
                  (traza (verificar_cuit_dni_existe
                            (sin_conexion [Ejemplos.syemed] "timeout")
                            (Some "30-71834383-2"))).
Proof.
  apply verificar_cuit_dni_existe_excepcion.
  - vm_compute. discriminate.
  - exists Connect. simpl. discriminate.
Defined.

End ExistenciaDeCuit.

(* ===================================================================== *)
(** * insertar_cliente_nuevo *)
(* ===================================================================== *)

Section AltaDeClientes.
Import Texto Sql Busqueda Alta AltaCliente.
Local Open Scope Z_scope.

Ltac correr :=
  unfold al_llamar, insertar_cliente_nuevo, insertar_cliente_nuevo_try, try_except,
    connect, commit, rollback, execute_insert, llamar, st_error, emitir, modificar,
    leer, bind, ret, raise.

Ltac segun a p :=
  let e := fresh "e" in
  let H := fresh "H" in
  destruct (falla a p) as [e|] eqn:H; cbn.

Ltac cerrar_alta :=
  repeat match goal with
         | |- _ /\ _ => split
         | |- _ <-> _ => split
         end;
  intros; simpl in *;
  try solve [intuition (try discriminate; try congruence)].

(** X9.  When no call raises, the function commits exactly one new row and
    returns its identifier.  The row stores the identifier as digits only,
    whatever was typed; it is active and visible to all; and its assigned
    agents are the registering agent alone, or nobody when no agent (or an
    empty name) is given. *)
Theorem insertar_cliente_nuevo_sin_fallas
  (a : almacen) (datos : datos_cliente) (comercial : option string) :
  (forall p, falla a p = None) ->
  al_llamar a (insertar_cliente_nuevo a datos comercial)
  = (inr (Some (serial a)),
     (filas a ++ [fila_insertada a datos comercial])%list,
     [Llamada (Op Efectos.Connect); Llamada (Op Efectos.Cursor);
      Llamada (Op Efectos.Execute); Llamada (Op Efectos.Fetch); Llamada Commit;
      Llamada (Op Efectos.CloseCursor); Llamada (Op Efectos.CloseConn)])
  /\ (exists ident, Clientes.cuit_dni (fila_insertada a datos comercial) = Some ident
                    /\ solo_digitos ident = true
                    /\ ident = normalizar_cuit_dni (cuit_dni datos))
  /\ Clientes.activo (fila_insertada a datos comercial) = true
  /\ Clientes.visible_para_todos (fila_insertada a datos comercial) = true
  /\ (forall otro,
        es_verdadero (eq_any (Some otro)
                        (Clientes.comercial_asignado (fila_insertada a datos comercial)))
        = true
        <-> comercial = Some otro /\ otro <> EmptyString).
Proof.
  intros Hf. split; [|split; [|split; [|split]]].
  - correr. rewrite !Hf. cbn. reflexivity.
  - eexists. split; [reflexivity|]. split.
    + apply normalizar_cuit_dni_solo_digitos.
    + destruct (cuit_dni datos); reflexivity.
  - reflexivity.
  - reflexivity.
  - intros otro. cbn. unfold comercial_array.
    destruct comercial as [c|]; cbn.
    + destruct (String.eqb_spec c EmptyString) as [->|Hne]; cbn.
      * split; [discriminate | intros [H Hn]; congruence].
      * rewrite orb_false_r.
        destruct (String.eqb_spec otro c) as [->|Hd]; split; auto;
          try discriminate.
        intros [H _]. congruence.
    + split; [discriminate | intros [H _]; discriminate].
Qed.

Lemma insertar_cliente_nuevo_sin_fallas_witness :
  al_llamar (sin_fallas [Ejemplos.perez] 7 MasEjemplos.sin_indice)
    (insertar_cliente_nuevo (sin_fallas [Ejemplos.perez] 7 MasEjemplos.sin_indice)
       MasEjemplos.alta_syemed (Some "Clara"))
  = (inr (Some 7),
     [Ejemplos.perez;
      fila_insertada (sin_fallas [Ejemplos.perez] 7 MasEjemplos.sin_indice)
        MasEjemplos.alta_syemed (Some "Clara")],
     [Llamada (Op Efectos.Connect); Llamada (Op Efectos.Cursor);
      Llamada (Op Efectos.Execute); Llamada (Op Efectos.Fetch); Llamada Commit;
      Llamada (Op Efectos.CloseCursor); Llamada (Op Efectos.CloseConn)]).
Proof.
  apply (insertar_cliente_nuevo_sin_fallas
           (sin_fallas [Ejemplos.perez] 7 MasEjemplos.sin_indice)
           MasEjemplos.alta_syemed (Some "Clara"%string)).
  intros p. reflexivity.
Defined.

Lemma lista_no_crece {A : Type} (l : list A) (x : A) : l <> (l ++ [x])%list.
Proof.
  intros H. apply (f_equal (@length A)) in H. rewrite length_app in H.
  simpl in H. lia.
Qed.

(** X10.  Insert, then look up: after a run in which no call raises, the
    duplicate check on the table finds the identifier that was given, as
    soon as it has a digit.  The insertion itself makes no such check: the
    number of rows with that identifier goes up by one, whatever it was. *)
Theorem insertar_cliente_nuevo_luego_verificar
  (a : almacen) (datos : datos_cliente) (comercial : option string) :
  (forall p, falla a p = None) ->
  normalizar_cuit_dni (cuit_dni datos) <> EmptyString ->
  let tabla := snd (fst (al_llamar a (insertar_cliente_nuevo a datos comercial))) in
  Efectos.valor (verificar_cuit_dni_existe (Efectos.sin_fallas tabla) (cuit_dni datos))
  = inr true
  /\ consulta_count (normalizar_cuit_dni (cuit_dni datos)) tabla
     = consulta_count (normalizar_cuit_dni (cuit_dni datos)) (filas a) + 1.
Proof.
  intros Hf Hne tabla.
  assert (Ht : tabla = (filas a ++ [fila_insertada a datos comercial])%list).
  { subst tabla. correr. rewrite !Hf. cbn. reflexivity. }
  assert (Hid : Clientes.cuit_dni (fila_insertada a datos comercial)
                = Some (normalizar_cuit_dni (cuit_dni datos)))
    by (cbn; destruct (cuit_dni datos); reflexivity).
  assert (Hc : consulta_count (normalizar_cuit_dni (cuit_dni datos)) tabla
               = consulta_count (normalizar_cuit_dni (cuit_dni datos)) (filas a) + 1).
  { rewrite Ht. unfold consulta_count. rewrite filter_app, length_app.
    cbn [filter]. rewrite Hid. cbn [sql_eq]. rewrite String.eqb_refl. cbn. lia. }
  split; [|exact Hc].
  unfold verificar_cuit_dni_existe.
  apply String.eqb_neq in Hne. rewrite Hne.
  unfold verificar_cuit_dni_existe_try, Efectos.try_except, Efectos.llamar,
    Efectos.emitir, Efectos.bind, Efectos.ret, Efectos.raise, Efectos.valor.
  cbn. rewrite Hc.
  assert (Hpos : 0 <= consulta_count (normalizar_cuit_dni (cuit_dni datos)) (filas a))
    by (unfold consulta_count; lia).
  destruct (Z.ltb_spec 0 (consulta_count (normalizar_cuit_dni (cuit_dni datos)) (filas a) + 1));
    [reflexivity | lia].
Qed.

Lemma insertar_cliente_nuevo_luego_verificar_witness :
  Efectos.valor
    (verificar_cuit_dni_existe
       (Efectos.sin_fallas
          (snd (fst (al_llamar (sin_fallas [Ejemplos.syemed] 7 MasEjemplos.sin_indice)
                       (insertar_cliente_nuevo
                          (sin_fallas [Ejemplos.syemed] 7 MasEjemplos.sin_indice)
                          MasEjemplos.alta_syemed (Some "Clara"))))))
       (Some "30-71834383-2"))
  = inr true
  /\ consulta_count "30718343832"
       (snd (fst (al_llamar (sin_fallas [Ejemplos.syemed] 7 MasEjemplos.sin_indice)
                    (insertar_cliente_nuevo
                       (sin_fallas [Ejemplos.syemed] 7 MasEjemplos.sin_indice)
                       MasEjemplos.alta_syemed (Some "Clara")))))
     = consulta_count "30718343832" [Ejemplos.syemed] + 1.
Proof.
  apply (insertar_cliente_nuevo_luego_verificar
           (sin_fallas [Ejemplos.syemed] 7 MasEjemplos.sin_indice)
           MasEjemplos.alta_syemed (Some "Clara"%string)).
  - intros p. reflexivity.
  - vm_compute. discriminate.
Defined.

(** X11.  Whatever the storage does, a call adds the new row or leaves the
    table as it was.  It adds the row exactly when the five calls up to and
    including [commit] return; a returned identifier means the row is
    there; when [connect] raises no rollback is attempted; and the function
    itself raises only when its rollback raises. *)
Theorem insertar_cliente_nuevo_atomico
  (a : almacen) (datos : datos_cliente) (comercial : option string) :
  let v := fst (fst (al_llamar a (insertar_cliente_nuevo a datos comercial))) in
  let tabla := snd (fst (al_llamar a (insertar_cliente_nuevo a datos comercial))) in
  let t := snd (al_llamar a (insertar_cliente_nuevo a datos comercial)) in
  let hasta_commit :=
    falla a (Op Efectos.Connect) = None /\ falla a (Op Efectos.Cursor) = None
    /\ falla a (Op Efectos.Execute) = None /\ falla a (Op Efectos.Fetch) = None
    /\ falla a Commit = None in
  (tabla = filas a \/ tabla = (filas a ++ [fila_insertada a datos comercial])%list)
  /\ (tabla = (filas a ++ [fila_insertada a datos comercial])%list <-> hasta_commit)
  /\ (forall i, v = inr (Some i) -> i = serial a /\ hasta_commit)
  /\ (falla a (Op Efectos.Connect) <> None -> ~ In (Llamada Rollback) t)
  /\ (forall e, v = inl e -> falla a Rollback = Some e).
Proof.
  pose proof (lista_no_crece (filas a) (fila_insertada a datos comercial)) as Hno.
  cbv zeta. correr.
  segun a (Op Efectos.Connect); [cerrar_alta|].
  segun a (Op Efectos.Cursor); [segun a Rollback; cerrar_alta|].
  segun a (Op Efectos.Execute); [segun a Rollback; cerrar_alta|].
  segun a (Op Efectos.Fetch); [segun a Rollback; cerrar_alta|].
  segun a Commit; [segun a Rollback; cerrar_alta|].
  segun a (Op Efectos.CloseCursor); [segun a Rollback; cerrar_alta|].
  segun a (Op Efectos.CloseConn); [segun a Rollback; cerrar_alta|].
  cerrar_alta.
Qed.

Lemma insertar_cliente_nuevo_atomico_witness :
  al_llamar (sin_conexion [Ejemplos.perez] 7 MasEjemplos.sin_indice "connection refused")
    (insertar_cliente_nuevo
       (sin_conexion [Ejemplos.perez] 7 MasEjemplos.sin_indice "connection refused")
       MasEjemplos.alta_syemed (Some "Clara"))
  = (inr None, [Ejemplos.perez],
     [Llamada (Op Efectos.Connect);
      StError "❌ Error al insertar cliente: connection refused"])
  /\ ~ In (Llamada Rollback)
         (snd (al_llamar
                 (sin_conexion [Ejemplos.perez] 7 MasEjemplos.sin_indice "connection refused")
                 (insertar_cliente_nuevo
                    (sin_conexion [Ejemplos.perez] 7 MasEjemplos.sin_indice
                       "connection refused")
                    MasEjemplos.alta_syemed (Some "Clara")))).
Proof.
  split; [reflexivity|].
  apply (insertar_cliente_nuevo_atomico
           (sin_conexion [Ejemplos.perez] 7 MasEjemplos.sin_indice "connection refused")
           MasEjemplos.alta_syemed (Some "Clara"%string)).
  discriminate.
Defined.

(** X12.  When the row is committed and closing the cursor or the
    connection then raises, while the rollback of the [except] clause does
    not, the function shows the error and returns [None] although the
    customer is stored. *)
Theorem insertar_cliente_nuevo_none_tras_commit
  (a : almacen) (datos : datos_cliente) (comercial : option string) (e : string) :
  falla a (Op Efectos.Connect) = None -> falla a (Op Efectos.Cursor) = None ->
  falla a (Op Efectos.Execute) = None -> falla a (Op Efectos.Fetch) = None ->
  falla a Commit = None -> falla a Rollback = None ->
  falla a (Op Efectos.CloseCursor) = Some e
  \/ (falla a (Op Efectos.CloseCursor) = None /\ falla a (Op Efectos.CloseConn) = Some e) ->
  exists t,
    al_llamar a (insertar_cliente_nuevo a datos comercial)
    = (inr None, (filas a ++ [fila_insertada a datos comercial])%list, t)
    /\ In (StError ("❌ Error al insertar cliente: " ++ e)) t
    /\ In (Llamada Rollback) t.
Proof.
  intros H1 H2 H3 H4 H5 H6 [H7|[H7 H8]]; correr;
    rewrite ?H1, ?H2, ?H3, ?H4, ?H5, ?H6, ?H7, ?H8; cbn;
    rewrite ?H1, ?H2, ?H3, ?H4, ?H5, ?H6, ?H7, ?H8; cbn;
    eexists; (split; [reflexivity|]); split; simpl; auto 20.
Qed.

Lemma insertar_cliente_nuevo_none_tras_commit_witness :
  exists t,
    al_llamar (falla_al_cerrar [Ejemplos.perez] 7 MasEjemplos.sin_indice "cursor closed")
      (insertar_cliente_nuevo
         (falla_al_cerrar [Ejemplos.perez] 7 MasEjemplos.sin_indice "cursor closed")
         MasEjemplos.alta_syemed (Some "Clara"))
    = (inr None,
       [Ejemplos.perez;
        fila_insertada (falla_al_cerrar [Ejemplos.perez] 7 MasEjemplos.sin_indice "cursor closed")
          MasEjemplos.alta_syemed (Some "Clara")],
       t)
    /\ In (StError "❌ Error al insertar cliente: cursor closed") t
    /\ In (Llamada Rollback) t.
Proof.
  apply (insertar_cliente_nuevo_none_tras_commit
           (falla_al_cerrar [Ejemplos.perez] 7 MasEjemplos.sin_indice "cursor closed")
           MasEjemplos.alta_syemed (Some "Clara"%string) "cursor closed");
    try reflexivity.
  left. reflexivity.
Defined.

End AltaDeClientes.

(* ===================================================================== *)
(** * Further properties of validar_campos_obligatorios *)
(* ===================================================================== *)

Section ValidacionCompleta.
Import Texto Formulario.
Local Open Scope list_scope.

Lemma si_nil (c : bool) (mensaje : string) : si c mensaje = [] -> c = false.
Proof. destruct c; [discriminate | reflexivity]. Qed.

Lemma errores_de_equipos_nil (l : list equipo) :
  forall i, errores_de_equipos i l = [] ->
            forall eq, In eq l -> equipo_valido eq = true -> equipo_completo eq = true.
Proof.
  induction l as [|x l IH]; intros i H eq Hin Hv; [contradiction Hin|].
  cbn [errores_de_equipos] in H.
  apply app_eq_nil in H. destruct H as [H1 H].
  apply app_eq_nil in H. destruct H as [H2 H].
  apply app_eq_nil in H. destruct H as [H3 H].
  apply si_nil in H1, H2, H3.
  destruct Hin as [<-|Hin].
  - unfold equipo_completo. rewrite Hv, H1, H2, H3. reflexivity.
  - apply (IH (S i)); assumption.
Qed.

(** X13.  A submission the validator accepts has an e-mail and a requester
    category, at least one equipment with a chosen type, brand, model and
    serial number for every equipment with a chosen type, a reason when the
    category is distributor, institution or patient, and the text its
    reason asks for: the motive of a rental change, the description of a
    critical failure, or an issue or a detail for the two services. *)
Theorem validar_valido_implica (data : datos) :
  fst (validar_campos_obligatorios data) = true ->
  snd (validar_campos_obligatorios data) = []
  /\ falta (email data) = false
  /\ falta (quien_completa data) = false
  /\ (exists eq, In eq (get (equipos data) []) /\ equipo_valido eq = true)
  /\ (forall eq, In eq (get (equipos data) []) -> equipo_valido eq = true ->
                 equipo_completo eq = true)
  /\ (quien_completa data = Some "Distribuidor"%string
      \/ quien_completa data = Some "Institución"%string
      \/ quien_completa data = Some "Paciente/Particular"%string ->
      falta (motivo_solicitud data) = false)
  /\ (motivo_solicitud data = Some CAMBIO_ALQUILER ->
      strip (get (motivo_cambio_alquiler data) EmptyString) <> EmptyString)
  /\ (motivo_solicitud data = Some CAMBIO_FALLA_CRITICA ->
      strip (get (detalle_fallo data) EmptyString) <> EmptyString)
  /\ (motivo_solicitud data = Some SERVICIO_TECNICO
      \/ motivo_solicitud data = Some SERVICIO_POST_VENTA ->
      get (fallas_problemas data) [] <> []
      \/ strip (get (detalle_fallo data) EmptyString) <> EmptyString).
Proof.
  unfold validar_campos_obligatorios. cbn [fst snd]. intros H.
  apply Nat.eqb_eq in H. apply length_zero_iff_nil in H.
  split; [exact H|].
  apply app_eq_nil in H. destruct H as [Hemail H].
  apply app_eq_nil in H. destruct H as [Hquien H].
  apply app_eq_nil in H. destruct H as [Hsol H].
  apply app_eq_nil in H. destruct H as [Hmot Hequ].
  apply si_nil in Hemail, Hquien.
  split; [exact Hemail|]. split; [exact Hquien|].
  unfold errores_equipos in Hequ.
  destruct (filter equipo_valido (get (equipos data) [])) as [|eq0 l] eqn:Hf;
    [discriminate Hequ|].
  split.
  { exists eq0. apply filter_In. rewrite Hf. left. reflexivity. }
  split.
  { intros eq Hin Hv.
    apply (errores_de_equipos_nil (eq0 :: l) 1 Hequ eq); [|exact Hv].
    rewrite <- Hf. apply filter_In. split; assumption. }
  split.
  { unfold errores_solicitante in Hsol.
    intros [Hq|[Hq|Hq]]; rewrite Hq in Hsol; cbn [get] in Hsol.
    - change (("Distribuidor" =? "Colaborador de Syemed")%string) with false in Hsol.
      change (("Distribuidor" =? "Distribuidor")%string) with true in Hsol.
      cbv iota in Hsol. unfold errores_distribuidor in Hsol.
      repeat (apply app_eq_nil in Hsol; destruct Hsol as [_ Hsol]).
      apply si_nil in Hsol. exact Hsol.
    - change (("Institución" =? "Colaborador de Syemed")%string) with false in Hsol.
      change (("Institución" =? "Distribuidor")%string) with false in Hsol.
      change (("Institución" =? "Institución")%string) with true in Hsol.
      cbv iota in Hsol. unfold errores_institucion in Hsol.
      repeat (apply app_eq_nil in Hsol; destruct Hsol as [_ Hsol]).
      apply si_nil in Hsol. exact Hsol.
    - change (("Paciente/Particular" =? "Colaborador de Syemed")%string) with false in Hsol.
      change (("Paciente/Particular" =? "Distribuidor")%string) with false in Hsol.
      change (("Paciente/Particular" =? "Institución")%string) with false in Hsol.
      change (("Paciente/Particular" =? "Paciente/Particular")%string) with true in Hsol.
      cbv iota in Hsol. unfold errores_paciente in Hsol.
      repeat (apply app_eq_nil in Hsol; destruct Hsol as [_ Hsol]).
      apply si_nil in Hsol. exact Hsol. }
  unfold errores_motivo in Hmot.
  split; [|split].
  - intros Hm. rewrite Hm in Hmot. cbn [get] in Hmot.
    change ((CAMBIO_ALQUILER =? CAMBIO_ALQUILER)%string) with true in Hmot.
    cbv iota in Hmot. apply si_nil in Hmot. apply String.eqb_neq. exact Hmot.
  - intros Hm. rewrite Hm in Hmot. cbn [get] in Hmot.
    change ((CAMBIO_FALLA_CRITICA =? CAMBIO_ALQUILER)%string) with false in Hmot.
    change ((CAMBIO_FALLA_CRITICA =? CAMBIO_FALLA_CRITICA)%string) with true in Hmot.
    cbv iota in Hmot. apply si_nil in Hmot. apply String.eqb_neq. exact Hmot.
  - intros Hm.
    assert (Hs : si (match get (fallas_problemas data) [] with
                     | [] => true
                     | _ :: _ => false
                     end
                     && (strip (get (detalle_fallo data) EmptyString) =? EmptyString)%string)
                    ERROR_OPCION = []).
    { destruct Hm as [Hm|Hm]; rewrite Hm in Hmot; exact Hmot. }
    apply si_nil in Hs. apply andb_false_iff in Hs. destruct Hs as [Hs|Hs].
    + left. destruct (get (fallas_problemas data) []); [discriminate Hs | discriminate].
    + right. apply String.eqb_neq. exact Hs.
Qed.

Lemma validar_valido_implica_witness :
  snd (validar_campos_obligatorios
         (Ejemplos.solicitud_distribuidor "No enciende" [Ejemplos.respirador])) = []
  /\ falta (email (Ejemplos.solicitud_distribuidor "No enciende" [Ejemplos.respirador]))
     = false.
Proof.
  destruct (validar_valido_implica
              (Ejemplos.solicitud_distribuidor "No enciende" [Ejemplos.respirador])
              eq_refl) as (H1 & H2 & _).
  split; assumption.
Defined.

End ValidacionCompleta.

Section OrdinalesDeEquipos.
Import Texto Formulario Ordinales.
Local Open Scope list_scope.

Lemma str_nat_inyectiva (a b : nat) : str_nat a = str_nat b -> a = b.
Proof.
  unfold str_nat. intros H.
  assert (Hu : Nat.to_uint a = Nat.to_uint b).
  { apply (f_equal NilEmpty.uint_of_string) in H.
    rewrite !NilEmpty.usu in H. injection H as H. exact H. }
  apply (f_equal Nat.of_uint) in Hu.
  rewrite !DecimalNat.Unsigned.of_to in Hu. exact Hu.
Qed.

Lemma length_append (a b : string) :
  String.length (a ++ b) = (String.length a + String.length b)%nat.
Proof. induction a as [|c a IH]; simpl; [reflexivity | rewrite IH; reflexivity]. Qed.

Lemma append_cancela (s : string) :
  forall a b : string, (a ++ s)%string = (b ++ s)%string -> a = b.
Proof.
  induction a as [|c a IH]; intros [|d b] H.
  - reflexivity.
  - apply (f_equal String.length) in H. simpl in H. rewrite length_append in H. lia.
  - apply (f_equal String.length) in H. simpl in H. rewrite length_append in H. lia.
  - simpl in H. injection H as -> H. f_equal. apply IH. exact H.
Qed.

Lemma append_cancela_izq (p a b : string) :
  (p ++ a)%string = (p ++ b)%string -> a = b.
Proof. induction p as [|c p IH]; simpl; intros H; [exact H|]. injection H as H. auto. Qed.

Lemma error_marca_inyectiva (i k : nat) : error_marca k = error_marca i -> k = i.
Proof.
  unfold error_marca. intros H.
  apply append_cancela_izq, append_cancela in H. apply str_nat_inyectiva. exact H.
Qed.

Lemma error_modelo_inyectiva (i k : nat) : error_modelo k = error_modelo i -> k = i.
Proof.
  unfold error_modelo. intros H.
  apply append_cancela_izq, append_cancela in H. apply str_nat_inyectiva. exact H.
Qed.

Lemma error_serie_inyectiva (i k : nat) : error_serie k = error_serie i -> k = i.
Proof.
  unfold error_serie. intros H.
  apply append_cancela_izq, append_cancela in H. apply str_nat_inyectiva. exact H.
Qed.

Lemma In_si_iff (c : bool) (mensaje m : string) :
  In m (si c mensaje) <-> c = true /\ m = mensaje.
Proof. destruct c; simpl; intuition; discriminate. Qed.

(** The equipment with ordinal [k], when the list is numbered from [i]. *)
Lemma nth_error_desde {A : Type} (x : A) (l : list A) (i k : nat) (P : A -> Prop) :
  ((k = i /\ P x)
   \/ exists eq, (S i <= k)%nat /\ nth_error l (k - S i) = Some eq /\ P eq)
  <-> exists eq, (i <= k)%nat /\ nth_error (x :: l) (k - i) = Some eq /\ P eq.
Proof.
  split.
  - intros [[-> Hx]|(eq & Hk & Hn & Hp)].
    + exists x. rewrite Nat.sub_diag. auto.
    + exists eq. replace (k - i)%nat with (S (k - S i)) by lia. simpl.
      repeat split; [lia | exact Hn | exact Hp].
  - intros (eq & Hk & Hn & Hp).
    destruct (Nat.eq_dec k i) as [->|Hne].
    + left. rewrite Nat.sub_diag in Hn. simpl in Hn. injection Hn as ->. auto.
    + right. exists eq. replace (k - i)%nat with (S (k - S i)) in Hn by lia.
      simpl in Hn. repeat split; [lia | exact Hn | exact Hp].
Qed.

Ltac distintos :=
  match goal with
  | |- ~ _ => let H := fresh in intros H; distintos
  | H : _ /\ _ |- _ => destruct H; distintos
  | H : _ = _ |- False =>
      unfold error_marca, error_modelo, error_serie, ERROR_SIN_EQUIPOS, ERROR_OPCION in H;
      cbn in H; discriminate H
  end.

Lemma errores_de_equipos_ordinal (l : list equipo) :
  forall i k,
    (In (error_marca k) (errores_de_equipos i l) <->
     exists eq, (i <= k)%nat /\ nth_error l (k - i) = Some eq
                /\ (falta (marca eq) || es (marca eq) "Seleccionar marca...") = true)
    /\ (In (error_modelo k) (errores_de_equipos i l) <->
        exists eq, (i <= k)%nat /\ nth_error l (k - i) = Some eq
                   /\ (falta (modelo eq) || es (modelo eq) "Seleccionar modelo...") = true)
    /\ (In (error_serie k) (errores_de_equipos i l) <->
        exists eq, (i <= k)%nat /\ nth_error l (k - i) = Some eq
                   /\ falta (numero_serie eq) = true).
Proof.
  induction l as [|x l IH]; intros i k.
  - cbn [errores_de_equipos].
    repeat split; try contradiction;
      intros (eq & _ & Hn & _); destruct (k - i)%nat; discriminate Hn.
  - cbn [errores_de_equipos]. fold (error_marca i) (error_modelo i) (error_serie i).
    destruct (IH (S i) k) as (IH1 & IH2 & IH3).
    rewrite !in_app_iff, !In_si_iff, IH1, IH2, IH3.
    rewrite <- !(nth_error_desde x l i k).
    repeat split.
    + intros [[Hc He]|[[_ He]|[[_ He]|H]]]; try (exfalso; distintos).
      * left. apply error_marca_inyectiva in He. auto.
      * right. exact H.
    + intros [[-> Hc]|H]; auto.
    + intros [[_ He]|[[Hc He]|[[_ He]|H]]]; try (exfalso; distintos).
      * left. apply error_modelo_inyectiva in He. auto.
      * right. exact H.
    + intros [[-> Hc]|H]; auto.
    + intros [[_ He]|[[_ He]|[[Hc He]|H]]]; try (exfalso; distintos).
      * left. apply error_serie_inyectiva in He. auto.
      * right. exact H.
    + intros [[-> Hc]|H]; auto 6.
Qed.

(** A message without an ordinal. *)
Ltac sin_ordinal :=
  repeat first
    [ apply Forall_nil
    | apply Forall_app; split
    | match goal with
      | |- Forall _ (si ?c _) =>
          destruct c; unfold si;
          [apply Forall_cons;
           [intros k; repeat split; distintos | apply Forall_nil]
          | apply Forall_nil]
      | |- Forall _ (if ?c then _ else _) => destruct c
      end ].

Lemma errores_sin_ordinal (data : datos) :
  Forall (fun m => forall k, m <> error_marca k /\ m <> error_modelo k /\ m <> error_serie k)
    (si (falta (email data)) "El correo electrónico es obligatorio"
     ++ si (falta (quien_completa data)) "Debe indicar quién completa la solicitud"
     ++ errores_solicitante data
     ++ errores_motivo data).
Proof.
  unfold errores_solicitante, errores_colaborador, errores_distribuidor,
    errores_institucion, errores_paciente, errores_motivo.
  cbv zeta. sin_ordinal.
Qed.

(** X14.  The ordinal in an equipment error counts the entries with a chosen
    type only, from 1: the error about the brand (model, serial number) of
    equipment [k] is reported exactly when the [k]-th entry with a chosen
    type lacks its brand (model, serial number).  Entries left on the type
    placeholder are skipped and give no such error. *)
Theorem validar_ordinal_de_equipo (data : datos) (k : nat) :
  let validos := filter equipo_valido (get (equipos data) []) in
  let errores := snd (validar_campos_obligatorios data) in
  (In (error_marca k) errores <->
   exists eq, (1 <= k)%nat /\ nth_error validos (k - 1) = Some eq
              /\ (falta (marca eq) || es (marca eq) "Seleccionar marca...") = true)
  /\ (In (error_modelo k) errores <->
      exists eq, (1 <= k)%nat /\ nth_error validos (k - 1) = Some eq
                 /\ (falta (modelo eq) || es (modelo eq) "Seleccionar modelo...") = true)
  /\ (In (error_serie k) errores <->
      exists eq, (1 <= k)%nat /\ nth_error validos (k - 1) = Some eq
                 /\ falta (numero_serie eq) = true).
Proof.
  intros validos errores.
  pose proof (errores_sin_ordinal data) as Hotros. rewrite Forall_forall in Hotros.
  assert (Hin : forall m,
             (exists k', m = error_marca k' \/ m = error_modelo k' \/ m = error_serie k') ->
             (In m errores <-> In m (errores_equipos data))).
  { intros m (k' & Hm). subst errores. unfold validar_campos_obligatorios. cbn [snd].
    rewrite !app_assoc. rewrite in_app_iff. rewrite <- !app_assoc.
    split; [|tauto]. intros [H|H]; [|exact H].
    exfalso. destruct (Hotros m H k') as (H1 & H2 & H3).
    destruct Hm as [Hm|[Hm|Hm]]; contradiction. }
  assert (Heq : forall m,
             (exists k', m = error_marca k' \/ m = error_modelo k' \/ m = error_serie k') ->
             (In m (errores_equipos data) <-> In m (errores_de_equipos 1 validos))).
  { intros m (k' & Hm). unfold errores_equipos. fold validos.
    destruct validos as [|eq0 l]; [|reflexivity].
    cbn [errores_de_equipos]. split; [|contradiction].
    intros [H|[]]. exfalso. symmetry in H.
    destruct Hm as [Hm|[Hm|Hm]]; rewrite Hm in H; distintos. }
  destruct (errores_de_equipos_ordinal validos 1 k) as (H1 & H2 & H3).
  split; [|split].
  - rewrite Hin, Heq, H1 by (exists k; auto). reflexivity.
  - rewrite Hin, Heq, H2 by (exists k; auto). reflexivity.
  - rewrite Hin, Heq, H3 by (exists k; auto). reflexivity.
Qed.

(** An entry on the type placeholder comes first: the error about the
    second entry of the form says "equipo 1". *)
Example validar_ordinal_tras_marcador :
  snd (validar_campos_obligatorios
         (Ejemplos.solicitud_distribuidor "No enciende"
            [Ejemplos.sin_tipo;
             {| tipo_equipo := Some "CPAP"; marca := Some "Seleccionar marca...";
                modelo := Some "N/E"; numero_serie := Some "A1" |}]))
  = [error_marca 1].
Proof. reflexivity. Qed.

End OrdinalesDeEquipos.

(* ===================================================================== *)
(** * The rate limit *)
(* ===================================================================== *)

Section LimiteDeSolicitudes.
Import Texto Limite.
Local Open Scope Z_scope.

Variable minutos_enteros : Z -> Z.
Variable id_nuevo : string.

Lemma dict_get_set (k : string) (v : list Z) (d : list (string * list Z)) :
  dict_get k (dict_set k v d) = Some v.
Proof.
  induction d as [|[k' v'] d IH]; simpl.
  - rewrite String.eqb_refl. reflexivity.
  - destruct (String.eqb_spec k' k) as [->|Hne]; simpl.
    + rewrite String.eqb_refl. reflexivity.
    + apply String.eqb_neq in Hne. rewrite Hne. exact IH.
Qed.

Lemma purga_de_clave (f : Z -> bool) (k : string) (d0 : list (string * list Z)) :
  lista_en k (match dict_get k d0 with
              | Some l => dict_set k (filter f l) d0
              | None => d0
              end)
  = filter f (lista_en k d0).
Proof.
  unfold lista_en. destruct (dict_get k d0) as [l|] eqn:Hg.
  - rewrite dict_get_set. reflexivity.
  - rewrite Hg. reflexivity.
Qed.

Lemma min_lista_In (t : Z) (l : list Z) : In (min_lista t l) (t :: l).
Proof.
  unfold min_lista. revert t. induction l as [|x l IH]; intros t; [left; reflexivity|].
  cbn [fold_left]. destruct (IH (Z.min t x)) as [H|H].
  - rewrite <- H. destruct (Z.min_spec t x) as [[_ ->]|[_ ->]];
      [left | right; left]; reflexivity.
  - right. right. exact H.
Qed.

(** What one check does to the session and what it answers, for a window
    and timestamps within the ranges of [timedelta] and [datetime]. *)
Lemma verificar_rate_limit_efecto (ahora max_solicitudes ventana_minutos : Z) (s : sesion) :
  let k := clave id_nuevo s in
  let recientes :=
    filter (fun timestamp => ahora - timestamp <? minutes ventana_minutos)
           (registradas k s) in
  let r := verificar_rate_limit minutos_enteros id_nuevo ahora
             max_solicitudes ventana_minutos s in
  timedelta_valido (minutes ventana_minutos) = true ->
  (forall t, In t (registradas k s) ->
             datetime_valido (t + minutes ventana_minutos) = true) ->
  user_id (snd r) = Some k
  /\ rate_limit (snd r) <> None
  /\ registradas k (snd r) = recientes
  /\ (max_solicitudes <= Z.of_nat (length recientes) ->
      1 <= max_solicitudes ->
      exists mensaje tiempo, fst r = inr (false, mensaje, tiempo))
  /\ (Z.of_nat (length recientes) < max_solicitudes ->
      fst r = inr (true, "OK"%string, 0))
  /\ (max_solicitudes <= 0 -> forall mensaje tiempo, fst r <> inr (true, mensaje, tiempo)).
Proof.
  intros k recientes r Hv Hd.
  set (d0 := match rate_limit s with Some d => d | None => [] end).
  set (f := fun timestamp => ahora - timestamp <? minutes ventana_minutos).
  set (d1 := match dict_get k d0 with
             | Some l => dict_set k (filter f l) d0
             | None => d0
             end).
  assert (Hreg : registradas k s = lista_en k d0).
  { unfold registradas, lista_en, d0. destruct (rate_limit s); reflexivity. }
  assert (Hl : lista_en k d1 = recientes).
  { unfold d1, recientes. rewrite Hreg. apply purga_de_clave. }
  assert (Hr : r = if max_solicitudes <=? Z.of_nat (length (lista_en k d1)) then
                     match dict_get k d1 with
                     | None => (inl "KeyError"%string,
                                {| user_id := Some k; rate_limit := Some d1 |})
                     | Some [] => (inl "ValueError"%string,
                                   {| user_id := Some k; rate_limit := Some d1 |})
                     | Some (t :: l) =>
                         if datetime_valido (min_lista t l + minutes ventana_minutos) then
                         (inr (false,
                               ("Has alcanzado el límite de " ++ str_Z max_solicitudes
                                ++ " solicitudes por hora. Intenta en "
                                ++ str_Z (minutos_enteros
                                            (min_lista t l + minutes ventana_minutos - ahora))
                                ++ " minutos.")%string,
                               minutos_enteros
                                 (min_lista t l + minutes ventana_minutos - ahora)),
                          {| user_id := Some k; rate_limit := Some d1 |})
                         else (inl "OverflowError"%string,
                               {| user_id := Some k; rate_limit := Some d1 |})
                     end
                   else (inr (true, "OK"%string, 0),
                         {| user_id := Some k; rate_limit := Some d1 |})).
  { subst r. unfold verificar_rate_limit, obtener_rate_limit_key, clave in *.
    fold d0. cbn [user_id rate_limit]. rewrite Hv. cbn [andb].
    destruct (user_id s) as [u|]; cbn [user_id rate_limit]; fold f;
      unfold d1, lista_en; subst k;
      match goal with
      | |- context [dict_get ?u d0] => destruct (dict_get u d0) as [[|t0 l0]|]
      end; reflexivity. }
  rewrite Hr. clear Hr. rewrite Hl.
  assert (Hreg1 : forall x, registradas k {| user_id := x; rate_limit := Some d1 |}
                            = recientes)
    by (intros x; unfold registradas; cbn [rate_limit]; exact Hl).
  unfold lista_en in Hl.
  destruct (Z.leb_spec max_solicitudes (Z.of_nat (length recientes))) as [Hle|Hlt].
  - destruct (dict_get k d1) as [[|t l]|] eqn:Hg.
    + cbn [fst snd user_id rate_limit]. rewrite Hreg1.
      repeat split; try discriminate; intros; try lia.
      rewrite <- Hl in Hle. simpl in Hle. lia.
    + assert (Hmin : datetime_valido (min_lista t l + minutes ventana_minutos) = true).
      { apply Hd. pose proof (min_lista_In t l) as Hin. rewrite Hl in Hin.
        unfold recientes in Hin. apply filter_In in Hin. tauto. }
      rewrite Hmin. cbn [fst snd user_id rate_limit]. rewrite Hreg1.
      repeat split; try discriminate; intros; try lia. eauto.
    + cbn [fst snd user_id rate_limit]. rewrite Hreg1.
      repeat split; try discriminate; intros; try lia.
      rewrite <- Hl in Hle. simpl in Hle. lia.
  - cbn [fst snd user_id rate_limit]. rewrite Hreg1.
    repeat split; try discriminate; intros; try lia.
Qed.

(** X15.  With a limit of at least one, a window that [timedelta] can hold
    and timestamps of the user to which it can be added within the range
    of [datetime], a check never raises.  It lets the request through
    exactly when fewer than the limit of the timestamps kept for the user
    are younger than the window; and it leaves exactly those timestamps in
    the session, forgetting the older ones. *)
Theorem verificar_rate_limit_decide (ahora max_solicitudes ventana_minutos : Z) (s : sesion) :
  1 <= max_solicitudes ->
  timedelta_valido (minutes ventana_minutos) = true ->
  (forall t, In t (registradas (clave id_nuevo s) s) ->
             datetime_valido (t + minutes ventana_minutos) = true) ->
  let k := clave id_nuevo s in
  let recientes :=
    filter (fun timestamp => ahora - timestamp <? minutes ventana_minutos)
           (registradas k s) in
  let r := verificar_rate_limit minutos_enteros id_nuevo ahora
             max_solicitudes ventana_minutos s in
  (exists mensaje tiempo,
     fst r = inr (Z.of_nat (length recientes) <? max_solicitudes, mensaje, tiempo))
  /\ user_id (snd r) = Some k
  /\ registradas k (snd r) = recientes
  /\ Forall (fun timestamp => ahora - timestamp < minutes ventana_minutos)
            (registradas k (snd r)).
Proof.
  intros Hmax Hv Hd k recientes r.
  destruct (verificar_rate_limit_efecto ahora max_solicitudes ventana_minutos s Hv Hd)
    as (H1 & _ & H3 & H4 & H5 & _).
  fold k recientes r in H1, H3, H4, H5.
  split; [|split; [exact H1 | split; [exact H3|]]].
  - destruct (Z.ltb_spec (Z.of_nat (length recientes)) max_solicitudes) as [Hlt|Hge].
    + rewrite (H5 Hlt). eauto.
    + apply H4; assumption.
  - rewrite H3. unfold recientes. apply Forall_forall. intros t Ht.
    apply filter_In in Ht. destruct Ht as [_ Ht]. apply Z.ltb_lt in Ht. exact Ht.
Qed.

(** With a timestamp kept for the user and a window beyond what
    [timedelta] can hold, the check raises [OverflowError] and keeps the
    timestamps as they were. *)
Lemma verificar_rate_limit_desborda (ahora max_solicitudes ventana_minutos : Z) (s : sesion) :
  let k := clave id_nuevo s in
  let r := verificar_rate_limit minutos_enteros id_nuevo ahora
             max_solicitudes ventana_minutos s in
  registradas k s <> [] ->
  timedelta_valido (minutes ventana_minutos) = false ->
  fst r = inl "OverflowError"%string /\ registradas k (snd r) = registradas k s.
Proof.
  intros k r Hne Hv. subst k r.
  unfold verificar_rate_limit, obtener_rate_limit_key, clave, registradas, lista_en in *.
  rewrite Hv.
  destruct s as [[u|] [d|]]; cbn [user_id rate_limit] in *;
    match goal with
    | |- context [dict_get ?u ?d] => destruct (dict_get u d) as [[|t0 l0]|] eqn:Hg
    end; try (exfalso; apply Hne; reflexivity);
    cbn [fst snd rate_limit]; rewrite ?Hg; split; reflexivity.
Qed.

Lemma dict_get_set_otro (k k' : string) (v : list Z) (d : list (string * list Z)) :
  k' <> k -> dict_get k' (dict_set k v d) = dict_get k' d.
Proof.
  intros Hne. induction d as [|[k0 v0] d IH]; simpl.
  - apply not_eq_sym in Hne. apply String.eqb_neq in Hne. rewrite Hne. reflexivity.
  - destruct (String.eqb_spec k0 k) as [->|Hk]; simpl.
    + apply not_eq_sym in Hne. apply String.eqb_neq in Hne. rewrite Hne. reflexivity.
    + destruct (k0 =? k')%string; [reflexivity | exact IH].
Qed.

(** X16.  Registering raises [AttributeError] exactly when the session has
    no [rate_limit] yet, that is when no check was made before, and then
    records nothing.  Otherwise it appends the current time to the
    timestamps of the session's user and leaves those of every other key
    as they were. *)
Theorem registrar_solicitud_rate_limit_efecto (ahora : Z) (s : sesion) :
  let k := clave id_nuevo s in
  let r := registrar_solicitud_rate_limit id_nuevo ahora s in
  user_id (snd r) = Some k
  /\ (rate_limit s = None ->
      fst r = inl "AttributeError"%string /\ rate_limit (snd r) = None)
  /\ (rate_limit s <> None ->
      fst r = inr tt
      /\ registradas k (snd r) = (registradas k s ++ [ahora])%list
      /\ forall k', k' <> k -> registradas k' (snd r) = registradas k' s).
Proof.
  intros k r. subst k r.
  unfold registrar_solicitud_rate_limit, obtener_rate_limit_key, clave, registradas.
  destruct s as [[u|] [d|]]; cbn [user_id rate_limit fst snd];
    (split; [reflexivity|]); (split; [intros H; try discriminate H; auto|]);
    intros H; try congruence.
  - split; [reflexivity|]. unfold lista_en. split.
    + rewrite dict_get_set. destruct (dict_get u d) as [l|] eqn:Hg.
      * rewrite Hg. reflexivity.
      * rewrite dict_get_set. reflexivity.
    + intros k' Hk. rewrite dict_get_set_otro by exact Hk.
      destruct (dict_get u d); [reflexivity|].
      rewrite dict_get_set_otro by exact Hk. reflexivity.
  - split; [reflexivity|]. unfold lista_en. split.
    + rewrite dict_get_set. destruct (dict_get id_nuevo d) as [l|] eqn:Hg.
      * rewrite Hg. reflexivity.
      * rewrite dict_get_set. reflexivity.
    + intros k' Hk. rewrite dict_get_set_otro by exact Hk.
      destruct (dict_get id_nuevo d); [reflexivity|].
      rewrite dict_get_set_otro by exact Hk. reflexivity.
Qed.

End LimiteDeSolicitudes.

Lemma verificar_rate_limit_decide_witness :
  fst (Limite.verificar_rate_limit MasEjemplos.minutos_exactos "u1" (Limite.minutes 90) 2%Z 60%Z
         {| Limite.user_id := Some "u1";
            Limite.rate_limit := Some [("u1", [0%Z; Limite.minutes 40; Limite.minutes 50])] |})
  = inr (false,
         "Has alcanzado el límite de 2 solicitudes por hora. Intenta en 10 minutos.",
         10%Z)
  /\ Limite.registradas "u1"
       (snd (Limite.verificar_rate_limit MasEjemplos.minutos_exactos "u1"
               (Limite.minutes 90) 2%Z 60%Z
               {| Limite.user_id := Some "u1";
                  Limite.rate_limit :=
                    Some [("u1", [0%Z; Limite.minutes 40; Limite.minutes 50])] |}))
     = [Limite.minutes 40; Limite.minutes 50].
Proof.
  split; [reflexivity|].
  apply (verificar_rate_limit_decide MasEjemplos.minutos_exactos "u1"
           (Limite.minutes 90) 2%Z 60%Z
           {| Limite.user_id := Some "u1"%string;
              Limite.rate_limit :=
                Some [("u1"%string, [0%Z; Limite.minutes 40; Limite.minutes 50])] |})%Z.
  - lia.
  - reflexivity.
  - intros t Ht. simpl in Ht.
    destruct Ht as [<-|[<-|[<-|[]]]]; reflexivity.
Defined.

Lemma registrar_solicitud_rate_limit_efecto_witness :
  fst (Limite.registrar_solicitud_rate_limit "u1" 5%Z Limite.sesion_nueva)
  = inl "AttributeError"
  /\ Limite.rate_limit (snd (Limite.registrar_solicitud_rate_limit "u1" 5%Z
                               Limite.sesion_nueva)) = None.
Proof.
  apply (registrar_solicitud_rate_limit_efecto "u1" 5%Z Limite.sesion_nueva).
  reflexivity.
Defined.

(* ===================================================================== *)
(** ** The cards of the customers found *)
(* ===================================================================== *)

Section TarjetasDeClientes.
Import Texto Sql Efectos Busqueda Caracteres Tarjeta.
Context {L : locale}.

Lemma caracteres_cons (c d : ascii) (s : string) :
  caracteres (String c (String d s))
  = if es_continuacion d then
      match caracteres (String d s) with
      | h :: t => String c h :: t
      | [] => [String c EmptyString]
      end
    else String c EmptyString :: caracteres (String d s).
Proof. reflexivity. Qed.

Lemma caracteres_nil (s : string) : caracteres s = [] -> s = EmptyString.
Proof.
  destruct s as [|c [|d s]]; [reflexivity | discriminate |].
  rewrite caracteres_cons.
  destruct (es_continuacion d); [|discriminate].
  destruct (caracteres (String d s)); discriminate.
Qed.

Lemma juntar_caracteres (s : string) : juntar (caracteres s) = s.
Proof.
  induction s as [|c s IH]; [reflexivity|].
  destruct s as [|d s]; [reflexivity|].
  rewrite caracteres_cons.
  destruct (es_continuacion d).
  - destruct (caracteres (String d s)) as [|h t] eqn:Hc.
    + apply caracteres_nil in Hc. discriminate Hc.
    + simpl. simpl in IH. rewrite IH. reflexivity.
  - change (juntar (String c EmptyString :: caracteres (String d s)))
      with (String c (juntar (caracteres (String d s)))).
    rewrite IH. reflexivity.
Qed.

Lemma caracteres_no_vacios (s : string) : Forall (fun x => x <> EmptyString) (caracteres s).
Proof.
  induction s as [|c s IH]; [constructor|].
  destruct s as [|d s]; [constructor; [discriminate | constructor]|].
  rewrite caracteres_cons.
  destruct (es_continuacion d).
  - destruct (caracteres (String d s)) as [|h t].
    + constructor; [discriminate | constructor].
    + inversion IH; subst. constructor; [discriminate | assumption].
  - constructor; [discriminate | exact IH].
Qed.

Lemma append_asociativa (a b c : string) :
  ((a ++ b) ++ c)%string = (a ++ b ++ c)%string.
Proof. induction a as [|x a IH]; simpl; [reflexivity | rewrite IH; reflexivity]. Qed.

Lemma append_vacio (a : string) : (a ++ EmptyString)%string = a.
Proof. induction a as [|x a IH]; simpl; [reflexivity | rewrite IH; reflexivity]. Qed.

Lemma juntar_app (l l' : list string) :
  juntar (l ++ l') = (juntar l ++ juntar l')%string.
Proof.
  induction l as [|h t IH]; simpl; [reflexivity|].
  rewrite IH, append_asociativa. reflexivity.
Qed.

Lemma re_sub_no_digitos_app (a b : string) :
  re_sub_no_digitos (a ++ b) = (re_sub_no_digitos a ++ re_sub_no_digitos b)%string.
Proof.
  induction a as [|c a IH]; simpl; [reflexivity|].
  destruct (es_digito c); simpl; rewrite IH; reflexivity.
Qed.

Lemma normalizar_cuit_dni_re_sub (s : string) :
  normalizar_cuit_dni (Some s) = re_sub_no_digitos s.
Proof.
  unfold normalizar_cuit_dni. destruct (String.eqb_spec s EmptyString) as [->|_]; reflexivity.
Qed.

(** A list of at least three elements is its first two, then what lies
    between them and the last, then the last. *)
Lemma tres_partes {A : Type} (h : A) (t : list A) :
  (3 <= length (h :: t))%nat ->
  (firstn 2 (h :: t) ++ skipn 2 (removelast (h :: t)) ++ [last t h])%list = h :: t.
Proof.
  destruct t as [|b [|c r]]; intros H; try (simpl in H; lia).
  assert (Hne : c :: r <> []) by discriminate.
  change (h :: b :: (removelast (c :: r) ++ [last (c :: r) h]) = h :: b :: c :: r).
  rewrite <- (app_removelast_last h Hne). reflexivity.
Qed.

Lemma ultimo_None (s : string) : ultimo s = None <-> s = EmptyString.
Proof.
  unfold ultimo. split.
  - destruct (caracteres s) eqn:Hc; [intros _; apply caracteres_nil; exact Hc | discriminate].
  - intros ->. reflexivity.
Qed.

(** X18.  A card raises exactly when the identifier of the customer is NULL
    or empty, and then before any Streamlit call: the expander is not
    drawn. *)
Theorem mostrar_tarjeta_cliente_lanza
  (pulsado : bool) (cliente : Resultado.fila) (key_prefix : string) :
  (Resultado.cuit_dni cliente = None \/ Resultado.cuit_dni cliente = Some EmptyString)
  <-> exists e, mostrar_tarjeta_cliente pulsado cliente key_prefix = ([], Lanza e).
Proof.
  unfold mostrar_tarjeta_cliente, titulo. split.
  - intros [H|H]; rewrite H.
    + exists "TypeError". reflexivity.
    + exists "IndexError". reflexivity.
  - intros [e H].
    destruct (Resultado.cuit_dni cliente) as [cuit|]; [|left; reflexivity].
    destruct (ultimo cuit) as [u|] eqn:Hu.
    + discriminate H.
    + right. f_equal. apply ultimo_None. exact Hu.
Qed.

(** X19.  For an identifier of at least three characters the three groups
    of the title of the card, read without the hyphens, are the identifier,
    and the text shown normalises to the same digits as the identifier. *)
Theorem titulo_relee_cuit_dni (cliente : Resultado.fila) (cuit : string) :
  Resultado.cuit_dni cliente = Some cuit ->
  (3 <= length (caracteres cuit))%nat ->
  exists a b c : string,
    titulo cliente
    = inr ("📌 " ++ str_opcional (Resultado.nombre_display cliente) ++ " - "
           ++ a ++ "-" ++ b ++ "-" ++ c)%string
    /\ (a ++ b ++ c)%string = cuit
    /\ normalizar_cuit_dni (Some (a ++ "-" ++ b ++ "-" ++ c)%string)
       = normalizar_cuit_dni (Some cuit).
Proof.
  intros Hc Hlen. unfold titulo. rewrite Hc.
  unfold ultimo, hasta, desde_sin_ultimo.
  destruct (caracteres cuit) as [|h t] eqn:Hcar; [simpl in Hlen; lia|].
  exists (juntar (firstn 2 (h :: t))), (juntar (skipn 2 (removelast (h :: t)))), (last t h).
  assert (Hpartes : (juntar (firstn 2 (h :: t)) ++ juntar (skipn 2 (removelast (h :: t)))
                     ++ last t h)%string = cuit).
  { pose proof (f_equal juntar (tres_partes h t Hlen)) as Hj.
    rewrite !juntar_app in Hj.
    assert (Hu : juntar [last t h] = last t h) by apply append_vacio.
    rewrite Hu in Hj. rewrite Hj, <- Hcar. apply juntar_caracteres. }
  split; [reflexivity|]. split; [exact Hpartes|].
  rewrite !normalizar_cuit_dni_re_sub. rewrite <- Hpartes.
  rewrite !re_sub_no_digitos_app. reflexivity.
Qed.

(** X20.  For an identifier of one or two characters the title shows the
    whole identifier as first group, an empty second group and the last
    character once more as third group. *)
Theorem titulo_cuit_dni_corto (cliente : Resultado.fila) (cuit : string) :
  Resultado.cuit_dni cliente = Some cuit ->
  (1 <= length (caracteres cuit) < 3)%nat ->
  exists c : string,
    c <> EmptyString
    /\ ultimo cuit = Some c
    /\ titulo cliente
       = inr ("📌 " ++ str_opcional (Resultado.nombre_display cliente) ++ " - "
              ++ cuit ++ "--" ++ c)%string.
Proof.
  intros Hc Hlen. unfold titulo. rewrite Hc.
  unfold ultimo, hasta, desde_sin_ultimo.
  pose proof (caracteres_no_vacios cuit) as Hne.
  pose proof (juntar_caracteres cuit) as Hj.
  destruct (caracteres cuit) as [|h [|k [|z r]]]; simpl in Hlen; try lia.
  - exists h. apply Forall_inv in Hne.
    split; [exact Hne|]. split; [reflexivity|].
    cbn [firstn skipn removelast last juntar] in *.
    rewrite Hj. reflexivity.
  - exists k. apply Forall_inv_tail, Forall_inv in Hne.
    split; [exact Hne|]. split; [reflexivity|].
    cbn [firstn skipn removelast last juntar] in *.
    rewrite Hj. reflexivity.
Qed.

Lemma etiquetas_app (l l' : list llamada) :
  etiquetas (l ++ l') = (etiquetas l ++ etiquetas l')%list.
Proof.
  induction l as [|[] l IH]; simpl; try exact IH; [reflexivity|].
  rewrite IH. reflexivity.
Qed.

Lemma claves_app (l l' : list llamada) :
  claves (l ++ l') = (claves l ++ claves l')%list.
Proof.
  induction l as [|[] l IH]; simpl; try exact IH; [reflexivity|].
  rewrite IH. reflexivity.
Qed.

(** A card whose title can be built: one expander, one button, and the run
    goes on unless the button was pressed. *)
Lemma tarjeta_dibujada (pulsado : bool) (cliente : Resultado.fila) (key_prefix label : string) :
  titulo cliente = inr label ->
  snd (mostrar_tarjeta_cliente pulsado cliente key_prefix)
  = (if pulsado then Rerun cliente else Retorna)
  /\ etiquetas (fst (mostrar_tarjeta_cliente pulsado cliente key_prefix)) = [label]
  /\ claves (fst (mostrar_tarjeta_cliente pulsado cliente key_prefix))
     = [clave_de_tarjeta key_prefix cliente].
Proof.
  intros Ht. unfold mostrar_tarjeta_cliente, si_presente. rewrite Ht. cbv zeta.
  cbn [fst snd].
  split; [reflexivity|].
  repeat match goal with
         | |- context [if ?b then [Markdown ?m] else []] => destruct b
         end;
    cbn [app etiquetas claves]; split; reflexivity.
Qed.

Lemma tarjeta_no_dibujada (pulsado : bool) (cliente : Resultado.fila) (key_prefix e : string) :
  titulo cliente = inl e ->
  mostrar_tarjeta_cliente pulsado cliente key_prefix = ([], Lanza e).
Proof. intros Ht. unfold mostrar_tarjeta_cliente. rewrite Ht. reflexivity. Qed.

Lemma titulo_presente (cliente : Resultado.fila) :
  presente (Resultado.cuit_dni cliente) = true -> exists label, titulo cliente = inr label.
Proof.
  unfold presente, titulo. destruct (Resultado.cuit_dni cliente) as [cuit|]; [|discriminate].
  intros H. apply negb_true_iff in H.
  destruct (ultimo cuit) as [u|] eqn:Hu; [eexists; reflexivity|].
  apply ultimo_None in Hu. subst cuit. discriminate H.
Qed.

Lemma mostrar_tarjetas_completas
  (pulsado : Resultado.fila -> bool) (l : list Resultado.fila) (key_prefix : string) :
  (forall r, In r l -> presente (Resultado.cuit_dni r) = true) ->
  (forall r, pulsado r = false) ->
  snd (mostrar_tarjetas pulsado l key_prefix) = Retorna
  /\ map inr (etiquetas (fst (mostrar_tarjetas pulsado l key_prefix))) = map titulo l.
Proof.
  intros Hp Hno. induction l as [|c l IH]; [split; reflexivity|].
  destruct IH as [IHs IHe]; [intros r Hr; apply Hp; right; exact Hr|].
  destruct (titulo_presente c) as [label Hl]; [apply Hp; left; reflexivity|].
  destruct (tarjeta_dibujada false c key_prefix label Hl) as (Hs & He & _).
  cbn [mostrar_tarjetas]. rewrite (Hno c).
  destruct (mostrar_tarjeta_cliente false c key_prefix) as [lc fc].
  cbn [fst snd] in Hs, He. subst fc.
  destruct (mostrar_tarjetas pulsado l key_prefix) as [ll fl].
  cbn [fst snd] in *. split; [exact IHs|].
  rewrite etiquetas_app, He. cbn [app map]. rewrite IHe, Hl. reflexivity.
Qed.

Lemma mostrar_tarjetas_claves
  (pulsado : Resultado.fila -> bool) (l : list Resultado.fila) (key_prefix : string) :
  exists n,
    claves (fst (mostrar_tarjetas pulsado l key_prefix))
    = firstn n (map (clave_de_tarjeta key_prefix) l).
Proof.
  induction l as [|c l [n IH]]; [exists 0%nat; reflexivity|].
  cbn [mostrar_tarjetas].
  destruct (titulo c) as [e|label] eqn:Ht.
  - rewrite (tarjeta_no_dibujada _ _ _ _ Ht). exists 0%nat. reflexivity.
  - destruct (tarjeta_dibujada (pulsado c) c key_prefix label Ht) as (Hs & _ & Hk).
    destruct (mostrar_tarjeta_cliente (pulsado c) c key_prefix) as [lc fc].
    cbn [fst snd] in Hs, Hk.
    destruct (mostrar_tarjetas pulsado l key_prefix) as [ll fl].
    cbn [fst] in IH.
    destruct fc.
    + exists (S n). cbn [fst map firstn]. rewrite claves_app, Hk, IH. reflexivity.
    + exists 1%nat. cbn [fst map firstn]. rewrite Hk. reflexivity.
    + exists 1%nat. cbn [fst map firstn]. rewrite Hk. reflexivity.
Qed.

Lemma mostrar_grupo_tarjetas
  (encabezado : string) (pulsado : Resultado.fila -> bool)
  (l : list Resultado.fila) (key_prefix : string) :
  snd (mostrar_grupo encabezado pulsado l key_prefix)
  = snd (mostrar_tarjetas pulsado l key_prefix)
  /\ etiquetas (fst (mostrar_grupo encabezado pulsado l key_prefix))
     = etiquetas (fst (mostrar_tarjetas pulsado l key_prefix))
  /\ claves (fst (mostrar_grupo encabezado pulsado l key_prefix))
     = claves (fst (mostrar_tarjetas pulsado l key_prefix)).
Proof.
  unfold mostrar_grupo. destruct l as [|c l]; [repeat split|].
  destruct (mostrar_tarjetas pulsado (c :: l) key_prefix) as [ll fl].
  repeat split.
Qed.

(** A list in which no row scores more than an earlier one is its rows of
    at least 1000 followed by its rows below 1000. *)
Lemma particion_en_1000 (l : list Resultado.fila) :
  StronglySorted no_menor l ->
  (filter (fun r => (1000 <=? Resultado.relevancia_score r)%Z) l
   ++ filter (fun r => (Resultado.relevancia_score r <? 1000)%Z) l)%list = l.
Proof.
  induction 1 as [|x l Hs IH Hx]; [reflexivity|].
  cbn [filter].
  destruct (Z.leb_spec 1000 (Resultado.relevancia_score x)) as [Hge|Hlt].
  - destruct (Z.ltb_spec (Resultado.relevancia_score x) 1000) as [Hlt|_]; [lia|].
    cbn [app]. rewrite IH. reflexivity.
  - destruct (Z.ltb_spec (Resultado.relevancia_score x) 1000) as [_|Hge]; [|lia].
    assert (Hnada : filter (fun r => (1000 <=? Resultado.relevancia_score r)%Z) l = []).
    { apply filter_nada. apply Forall_forall. intros y Hy.
      rewrite Forall_forall in Hx. specialize (Hx y Hy). unfold no_menor in Hx.
      apply Z.leb_gt. lia. }
    rewrite Hnada in *. cbn [app] in *. rewrite IH. reflexivity.
Qed.

Lemma buscar_clientes_db_ordenada bd q tipo comercial limite res :
  valor (buscar_clientes_db bd q tipo comercial limite) = inr res ->
  StronglySorted no_menor res.
Proof.
  intros Hres.
  destruct (buscar_clientes_db_valor bd q tipo comercial limite) as [H|H];
    rewrite H in Hres; injection Hres as <-; [constructor|].
  apply Sorted_no_menor, consulta_busqueda_Sorted.
Qed.

(** X21.  When every customer found has an identifier and no button is
    pressed, the selector draws one card for each row that
    [buscar_clientes_db] returned, in the order of the list: splitting the
    list at 1000 points does not reorder it. *)
Theorem mostrar_resultados_en_orden
  bd (texto_busqueda : string) (tipo_cliente comercial : option string) (limite : Z)
  (res : list Resultado.fila) (pulsado : Resultado.fila -> bool) (key_prefix : string) :
  valor (buscar_clientes_db bd texto_busqueda tipo_cliente comercial limite) = inr res ->
  (forall r, In r res -> presente (Resultado.cuit_dni r) = true) ->
  (forall r, pulsado r = false) ->
  snd (mostrar_resultados pulsado res key_prefix) = Retorna
  /\ map inr (etiquetas (fst (mostrar_resultados pulsado res key_prefix))) = map titulo res.
Proof.
  intros Hres Hp Hno.
  pose proof (particion_en_1000 res (buscar_clientes_db_ordenada _ _ _ _ _ _ Hres)) as Hpart.
  unfold mostrar_resultados. destruct res as [|x res']; [split; reflexivity|].
  set (res := x :: res') in *.
  set (pri := filter (fun r => (1000 <=? Resultado.relevancia_score r)%Z) res) in *.
  set (com := filter (fun r => (Resultado.relevancia_score r <? 1000)%Z) res) in *.
  assert (Hpri : forall r, In r pri -> presente (Resultado.cuit_dni r) = true).
  { intros r Hr. apply Hp. apply filter_In in Hr. tauto. }
  assert (Hcom : forall r, In r com -> presente (Resultado.cuit_dni r) = true).
  { intros r Hr. apply Hp. apply filter_In in Hr. tauto. }
  destruct (mostrar_tarjetas_completas pulsado pri key_prefix Hpri Hno) as [Hs1 He1].
  destruct (mostrar_tarjetas_completas pulsado com key_prefix Hcom Hno) as [Hs2 He2].
  destruct (mostrar_grupo_tarjetas "#### 🔥 Tus clientes asignados" pulsado pri key_prefix)
    as (Gs1 & Ge1 & _).
  destruct (mostrar_grupo_tarjetas "#### 📋 Otros clientes" pulsado com key_prefix)
    as (Gs2 & Ge2 & _).
  destruct (mostrar_grupo "#### 🔥 Tus clientes asignados" pulsado pri key_prefix) as [l1 f1].
  destruct (mostrar_grupo "#### 📋 Otros clientes" pulsado com key_prefix) as [l2 f2].
  cbn [fst snd] in *.
  rewrite Hs1 in Gs1. rewrite Hs2 in Gs2. subst f1 f2. cbn [fst snd].
  split; [reflexivity|].
  rewrite etiquetas_app, map_app, Ge1, Ge2, He1, He2, <- map_app, Hpart. reflexivity.
Qed.

Lemma str_Z_inyectiva (a b : Z) : Limite.str_Z a = Limite.str_Z b -> a = b.
Proof.
  unfold Limite.str_Z. intros H.
  assert (Hn : forall z, Z.to_int z <> Decimal.Pos Decimal.Nil
                         /\ Z.to_int z <> Decimal.Neg Decimal.Nil).
  { intros [|p|p]; simpl; split; try discriminate;
      intros E; injection E as E; exact (DecimalPos.Unsigned.to_uint_nonnil p E). }
  apply (f_equal NilZero.int_of_string) in H.
  rewrite !NilZero.isi in H by apply Hn.
  injection H as H. apply DecimalZ.to_int_inj. exact H.
Qed.

Lemma clave_de_tarjeta_inyectiva (key_prefix : string) (a b : Resultado.fila) :
  clave_de_tarjeta key_prefix a = clave_de_tarjeta key_prefix b ->
  Resultado.id a = Resultado.id b.
Proof.
  unfold clave_de_tarjeta. intros H.
  apply append_cancela_izq, append_cancela_izq in H. apply str_Z_inyectiva. exact H.
Qed.

Lemma NoDup_claves (key_prefix : string) (l : list Resultado.fila) :
  NoDup (map Resultado.id l) -> NoDup (map (clave_de_tarjeta key_prefix) l).
Proof.
  induction l as [|x l IH]; simpl; intros H; [constructor|].
  inversion H as [|? ? Hnot Hl]; subst. constructor; [|apply IH; exact Hl].
  intros Hin. apply Hnot. apply in_map_iff in Hin. destruct Hin as (y & Hy & Hin).
  apply clave_de_tarjeta_inyectiva in Hy. rewrite <- Hy. apply in_map. exact Hin.
Qed.

Lemma NoDup_app_firstn {A : Type} (n m : nat) (l l' : list A) :
  NoDup (l ++ l') -> NoDup (firstn n l ++ firstn m l').
Proof.
  revert n. induction l as [|x l IH]; intros n H.
  - rewrite firstn_nil. simpl in *. apply NoDup_firstn_lista. exact H.
  - destruct n as [|n]; simpl.
    + apply NoDup_firstn_lista. apply NoDup_app_remove_l in H. exact H.
    + simpl in H. inversion H as [|? ? Hnot Hl]; subst.
      constructor; [|apply IH; exact Hl].
      intros Hin. apply Hnot. apply in_app_iff in Hin. apply in_app_iff.
      destruct Hin as [Hin|Hin]; [left | right]; eapply In_firstn; exact Hin.
Qed.

(** X22.  When the identifiers of the table are pairwise distinct, the keys
    of the buttons that the selector draws for the customers found are
    pairwise distinct, whichever button is pressed and whichever card
    raises. *)
Theorem mostrar_resultados_claves_distintas
  bd (texto_busqueda : string) (tipo_cliente comercial : option string) (limite : Z)
  (res : list Resultado.fila) (pulsado : Resultado.fila -> bool) (key_prefix : string) :
  NoDup (map Clientes.id (clientes bd)) ->
  valor (buscar_clientes_db bd texto_busqueda tipo_cliente comercial limite) = inr res ->
  NoDup (claves (fst (mostrar_resultados pulsado res key_prefix))).
Proof.
  intros Hnd Hres.
  pose proof (particion_en_1000 res (buscar_clientes_db_ordenada _ _ _ _ _ _ Hres)) as Hpart.
  assert (Hids : NoDup (map Resultado.id res)).
  { destruct (buscar_clientes_db_valor bd texto_busqueda tipo_cliente comercial limite)
      as [H|H]; rewrite H in Hres; injection Hres as <-; [constructor|].
    apply consulta_busqueda_sin_repetidos. exact Hnd. }
  apply (NoDup_claves key_prefix) in Hids.
  unfold mostrar_resultados. destruct res as [|x res']; [constructor|].
  set (res := x :: res') in *.
  set (pri := filter (fun r => (1000 <=? Resultado.relevancia_score r)%Z) res) in *.
  set (com := filter (fun r => (Resultado.relevancia_score r <? 1000)%Z) res) in *.
  rewrite <- Hpart, map_app in Hids.
  destruct (mostrar_tarjetas_claves pulsado pri key_prefix) as [n1 Hk1].
  destruct (mostrar_tarjetas_claves pulsado com key_prefix) as [n2 Hk2].
  destruct (mostrar_grupo_tarjetas "#### 🔥 Tus clientes asignados" pulsado pri key_prefix)
    as (_ & _ & Gk1).
  destruct (mostrar_grupo_tarjetas "#### 📋 Otros clientes" pulsado com key_prefix)
    as (_ & _ & Gk2).
  destruct (mostrar_grupo "#### 🔥 Tus clientes asignados" pulsado pri key_prefix) as [l1 f1].
  destruct (mostrar_grupo "#### 📋 Otros clientes" pulsado com key_prefix) as [l2 f2].
  cbn [fst snd] in *.
  rewrite Hk1 in Gk1. rewrite Hk2 in Gk2.
  destruct f1; cbn [fst].
  - rewrite claves_app, Gk1, Gk2. apply NoDup_app_firstn. exact Hids.
  - rewrite Gk1. apply NoDup_firstn_lista. apply NoDup_app_remove_r in Hids. exact Hids.
  - rewrite Gk1. apply NoDup_firstn_lista. apply NoDup_app_remove_r in Hids. exact Hids.
Qed.

End TarjetasDeClientes.

Section EjemplosDeTarjetasDeClientes.
Import Texto Sql Efectos Busqueda Caracteres Tarjeta.

Lemma titulo_relee_cuit_dni_witness :
  exists a b c : string,
    titulo (seleccionar (Some "Clara") EmptyString "%%" "sye" "sye%" "%sye%" Ejemplos.syemed)
    = inr ("📌 " ++ str_opcional
                      (Resultado.nombre_display
                         (seleccionar (Some "Clara") EmptyString "%%" "sye" "sye%" "%sye%"
                            Ejemplos.syemed))
           ++ " - " ++ a ++ "-" ++ b ++ "-" ++ c)%string
    /\ (a ++ b ++ c)%string = "30718343832"
    /\ normalizar_cuit_dni (Some (a ++ "-" ++ b ++ "-" ++ c)%string)
       = normalizar_cuit_dni (Some "30718343832").
Proof.
  apply (titulo_relee_cuit_dni
           (seleccionar (Some "Clara") EmptyString "%%" "sye" "sye%" "%sye%" Ejemplos.syemed)
           "30718343832").
  - reflexivity.
  - vm_compute. lia.
Defined.

Lemma titulo_cuit_dni_corto_witness :
  exists c : string,
    c <> EmptyString
    /\ ultimo "24" = Some c
    /\ titulo (seleccionar None "24" "%24%" "24" "24%" "%24%" MasEjemplos.farmacia)
       = inr ("📌 " ++ str_opcional
                         (Resultado.nombre_display
                            (seleccionar None "24" "%24%" "24" "24%" "%24%"
                               MasEjemplos.farmacia))
              ++ " - " ++ "24" ++ "--" ++ c)%string.
Proof.
  apply (titulo_cuit_dni_corto
           (seleccionar None "24" "%24%" "24" "24%" "%24%" MasEjemplos.farmacia) "24").
  - reflexivity.
  - vm_compute. lia.
Defined.

Lemma mostrar_resultados_en_orden_witness :
  snd (mostrar_resultados (fun _ => false)
         [seleccionar (Some "Clara") EmptyString "%%" "sye" "sye%" "%sye%" Ejemplos.syemed;
          seleccionar (Some "Clara") EmptyString "%%" "sye" "sye%" "%sye%" Ejemplos.perez]
         "cli") = Retorna
  /\ map inr (etiquetas (fst (mostrar_resultados (fun _ => false)
         [seleccionar (Some "Clara") EmptyString "%%" "sye" "sye%" "%sye%" Ejemplos.syemed;
          seleccionar (Some "Clara") EmptyString "%%" "sye" "sye%" "%sye%" Ejemplos.perez]
         "cli")))
     = map titulo
         [seleccionar (Some "Clara") EmptyString "%%" "sye" "sye%" "%sye%" Ejemplos.syemed;
          seleccionar (Some "Clara") EmptyString "%%" "sye" "sye%" "%sye%" Ejemplos.perez].
Proof.
  apply (mostrar_resultados_en_orden
           (sin_fallas [Ejemplos.perez; Ejemplos.syemed]) "sye" None (Some "Clara") 15).
  - reflexivity.
  - intros r [<-|[<-|[]]]; reflexivity.
  - reflexivity.
Defined.

Lemma mostrar_resultados_claves_distintas_witness :
  NoDup (claves (fst (mostrar_resultados (fun _ => false)
         [seleccionar (Some "Clara") EmptyString "%%" "sye" "sye%" "%sye%" Ejemplos.syemed;
          seleccionar (Some "Clara") EmptyString "%%" "sye" "sye%" "%sye%" Ejemplos.perez]
         "cli"))).
Proof.
  apply (mostrar_resultados_claves_distintas
           (sin_fallas [Ejemplos.perez; Ejemplos.syemed]) "sye" None (Some "Clara") 15).
  - simpl. constructor; [intros [H|[]]; discriminate H|].
    constructor; [intros []|constructor].
  - reflexivity.
Defined.

End EjemplosDeTarjetasDeClientes.

(* ===================================================================== *)
(** ** The sanitisers of the form *)
(* ===================================================================== *)

Section Sanitizacion.
Import Texto Caracteres Sanitizar.

Lemma py_len_app (a b : string) : py_len (a ++ b) = (py_len a + py_len b)%nat.
Proof.
  induction a as [|c a IH]; simpl; [reflexivity|]. rewrite IH. lia.
Qed.

Lemma todos_app (p : ascii -> bool) (a b : string) :
  todos p (a ++ b) = todos p a && todos p b.
Proof.
  induction a as [|c a IH]; simpl; [reflexivity|].
  rewrite IH, andb_assoc. reflexivity.
Qed.

Lemma todos_ext (p q : ascii -> bool) (s : string) :
  (forall c, p c = q c) -> todos p s = todos q s.
Proof.
  intros H. induction s as [|c s IH]; simpl; [reflexivity|]. rewrite H, IH. reflexivity.
Qed.

Lemma todos_implica (p q : ascii -> bool) (s : string) :
  (forall c, p c = true -> q c = true) -> todos p s = true -> todos q s = true.
Proof.
  intros H. induction s as [|c s IH]; simpl; [reflexivity|].
  intros Hs. apply andb_prop in Hs. destruct Hs as [Hc Hs].
  rewrite (H c Hc), (IH Hs). reflexivity.
Qed.

Ltac aritmetica :=
  repeat match goal with
         | H : _ && _ = true |- _ => apply andb_prop in H; destruct H
         | H : _ || _ = true |- _ => apply orb_prop in H; destruct H
         | H : (_ =? _)%nat = true |- _ => apply Nat.eqb_eq in H
         | H : (_ <=? _)%nat = true |- _ => apply Nat.leb_le in H
         end.

Lemma continuacion_segun (c : ascii) :
  (es_continuacion c = true <-> (128 <= codigo c < 192)%nat).
Proof.
  unfold es_continuacion. rewrite andb_true_iff, Nat.leb_le, Nat.ltb_lt. tauto.
Qed.

Lemma no_continuacion (c : ascii) :
  (codigo c < 128 \/ 192 <= codigo c)%nat -> es_continuacion c = false.
Proof.
  intros H. destruct (es_continuacion c) eqn:E; [|reflexivity].
  apply continuacion_segun in E. lia.
Qed.

Lemma si_continuacion (c : ascii) :
  (128 <= codigo c < 192)%nat -> es_continuacion c = true.
Proof. apply continuacion_segun. Qed.

(** A whitespace character at the head of a string: one character, of one
    to three bytes, none of them a printable ASCII byte. *)
Lemma espacio_inicial_Some (s r : string) :
  espacio_inicial s = Some r ->
  exists p, s = (p ++ r)%string
            /\ py_len p = 1%nat
            /\ (1 <= String.length p)%nat
            /\ todos (fun b => espacio_ascii b || no_ascii b) p = true.
Proof.
  unfold espacio_inicial. destruct s as [|a r1]; [discriminate|]. cbv zeta.
  destruct ((((9 <=? codigo a) && (codigo a <=? 13))
             || ((28 <=? codigo a) && (codigo a <=? 32)))%nat) eqn:H1.
  { intros [= <-]. exists (String a EmptyString).
    split; [reflexivity|]. split; [|split; [simpl; lia|]].
    - simpl. rewrite no_continuacion; [reflexivity|]. aritmetica; lia.
    - simpl. unfold espacio_ascii. rewrite H1. reflexivity. }
  destruct r1 as [|b r2]; [discriminate|].
  destruct (((codigo a =? 194) && ((codigo b =? 133) || (codigo b =? 160)))%nat) eqn:H2.
  { intros [= <-]. exists (String a (String b EmptyString)).
    split; [reflexivity|]. split; [|split; [simpl; lia|]].
    - simpl. rewrite (no_continuacion a), (si_continuacion b);
        [reflexivity | aritmetica; lia | aritmetica; lia].
    - simpl. unfold no_ascii.
      assert (Ha : (128 <=? codigo a)%nat = true) by (apply Nat.leb_le; aritmetica; lia).
      assert (Hb : (128 <=? codigo b)%nat = true) by (apply Nat.leb_le; aritmetica; lia).
      rewrite Ha, Hb, !orb_true_r. reflexivity. }
  destruct r2 as [|c r3]; [discriminate|].
  intros H.
  assert (Hr : r = r3
               /\ (192 <= codigo a)%nat /\ (128 <= codigo b < 192)%nat
               /\ (128 <= codigo c < 192)%nat).
  { repeat match type of H with
           | (if ?t then _ else _) = _ => destruct t eqn:?
           end; try discriminate H; injection H as <-;
      (split; [reflexivity|]); aritmetica; lia. }
  destruct Hr as (-> & Ha & Hb & Hc).
  exists (String a (String b (String c EmptyString))).
  split; [reflexivity|]. split; [|split; [simpl; lia|]].
  - simpl. rewrite (no_continuacion a), (si_continuacion b), (si_continuacion c);
      [reflexivity | lia | lia | lia].
  - simpl. unfold no_ascii.
    assert (Ha' : (128 <=? codigo a)%nat = true) by (apply Nat.leb_le; lia).
    assert (Hb' : (128 <=? codigo b)%nat = true) by (apply Nat.leb_le; lia).
    assert (Hc' : (128 <=? codigo c)%nat = true) by (apply Nat.leb_le; lia).
    rewrite Ha', Hb', Hc', !orb_true_r. reflexivity.
Qed.

Lemma espacio_inicial_sufijo (p : ascii -> bool) (s r : string) :
  espacio_inicial s = Some r -> todos p s = true -> todos p r = true.
Proof.
  intros H Hs. destruct (espacio_inicial_Some s r H) as (q & -> & _).
  rewrite todos_app in Hs. apply andb_prop in Hs. tauto.
Qed.

Lemma espacio_inicial_py_len (s r : string) :
  espacio_inicial s = Some r -> py_len s = S (py_len r).
Proof.
  intros H. destruct (espacio_inicial_Some s r H) as (q & -> & Hq & _).
  rewrite py_len_app, Hq. reflexivity.
Qed.

Lemma lstrip_aux_todos (p : ascii -> bool) (n : nat) (s : string) :
  todos p s = true -> todos p (lstrip_aux n s) = true.
Proof.
  revert s. induction n as [|n IH]; intros s Hs; simpl; [exact Hs|].
  destruct (espacio_inicial s) as [r|] eqn:He; [|exact Hs].
  apply IH. apply (espacio_inicial_sufijo p s r He Hs).
Qed.

Lemma lstrip_aux_py_len (n : nat) (s : string) : (py_len (lstrip_aux n s) <= py_len s)%nat.
Proof.
  revert s. induction n as [|n IH]; intros s; simpl; [lia|].
  destruct (espacio_inicial s) as [r|] eqn:He; [|lia].
  rewrite (espacio_inicial_py_len s r He). specialize (IH r). lia.
Qed.

Lemma rstrip_todos (p : ascii -> bool) (s : string) :
  todos p s = true -> todos p (rstrip s) = true.
Proof.
  induction s as [|c s IH]; [reflexivity|].
  intros Hs. cbn [rstrip]. destruct (lstrip (String c s)); [reflexivity|].
  simpl in Hs. apply andb_prop in Hs. destruct Hs as [Hc Hs].
  simpl. rewrite Hc, (IH Hs). reflexivity.
Qed.

Lemma rstrip_py_len (s : string) : (py_len (rstrip s) <= py_len s)%nat.
Proof.
  induction s as [|c s IH]; [simpl; lia|].
  cbn [rstrip]. destruct (lstrip (String c s)); simpl; lia.
Qed.

Lemma strip_todos (p : ascii -> bool) (s : string) :
  todos p s = true -> todos p (strip s) = true.
Proof. intros H. apply rstrip_todos, lstrip_aux_todos, H. Qed.

Lemma strip_py_len (s : string) : (py_len (strip s) <= py_len s)%nat.
Proof.
  unfold strip, lstrip.
  eapply Nat.le_trans; [apply rstrip_py_len | apply lstrip_aux_py_len].
Qed.

(** A word and what follows it make up the string, and what follows is
    empty or begins with a whitespace character. *)
Lemma palabra_partes (s : string) :
  s = (fst (palabra s) ++ snd (palabra s))%string
  /\ (snd (palabra s) = EmptyString
      \/ exists r, espacio_inicial (snd (palabra s)) = Some r).
Proof.
  induction s as [|c s [IH1 IH2]]; [split; [reflexivity | left; reflexivity]|].
  cbn [palabra]. destruct (espacio_inicial (String c s)) as [r|] eqn:He.
  - split; [reflexivity|]. right. exists r. exact He.
  - destruct (palabra s) as [w r]. cbn [fst snd] in *. split; [|exact IH2].
    simpl. rewrite <- IH1. reflexivity.
Qed.

Lemma split_aux_todos (p : ascii -> bool) (n : nat) (s : string) :
  todos p s = true -> Forall (fun w => todos p w = true) (split_aux n s).
Proof.
  revert s. induction n as [|n IH]; intros s Hs; [constructor|].
  cbn [split_aux].
  pose proof (lstrip_aux_todos p (String.length s) s Hs) as Hl. fold (lstrip s) in Hl.
  destruct (lstrip s) as [|c t]; [constructor|].
  destruct (palabra_partes (String c t)) as [Hp _].
  destruct (palabra (String c t)) as [w r]. cbn [fst snd] in Hp.
  rewrite Hp, todos_app in Hl. apply andb_prop in Hl. destruct Hl as [Hw Hr].
  constructor; [exact Hw | apply IH; exact Hr].
Qed.

Lemma unir_cons (sep w : string) (l : list string) :
  unir sep (w :: l)
  = match l with
    | [] => w
    | _ :: _ => (w ++ sep ++ unir sep l)%string
    end.
Proof. destruct l; reflexivity. Qed.

Lemma unir_todos (p : ascii -> bool) (sep : string) (l : list string) :
  todos p sep = true ->
  Forall (fun w => todos p w = true) l -> todos p (unir sep l) = true.
Proof.
  intros Hsep Hl. induction Hl as [|w l Hw Hl IH]; [reflexivity|].
  rewrite unir_cons. destruct l as [|w' l']; [exact Hw|].
  rewrite !todos_app, Hw, Hsep, IH. reflexivity.
Qed.

Lemma split_aux_py_len (n : nat) (s : string) :
  (py_len (unir " " (split_aux n s)) <= py_len (lstrip s))%nat.
Proof.
  revert s. induction n as [|n IH]; intros s; [simpl; lia|].
  cbn [split_aux].
  destruct (lstrip s) as [|c t]; [simpl; lia|].
  destruct (palabra_partes (String c t)) as [Hp Hr].
  destruct (palabra (String c t)) as [w r]. cbn [fst snd] in Hp, Hr.
  rewrite unir_cons.
  assert (Hlen : py_len (String c t) = (py_len w + py_len r)%nat)
    by (rewrite <- py_len_app, <- Hp; reflexivity).
  rewrite Hlen.
  destruct (split_aux n r) as [|w' l'] eqn:Hsp; [lia|].
  rewrite <- Hsp. rewrite !py_len_app.
  specialize (IH r).
  assert (Hls : (S (py_len (lstrip r)) <= py_len r)%nat).
  { destruct Hr as [->|[r' Hr']].
    - destruct n; discriminate Hsp.
    - rewrite (espacio_inicial_py_len r r' Hr').
      destruct (espacio_inicial_Some r r' Hr') as (q & Hq & _ & Hlq & _).
      unfold lstrip.
      assert (Hl : String.length r = S (String.length q - 1 + String.length r')).
      { rewrite Hq, length_append. lia. }
      rewrite Hl. cbn [lstrip_aux]. rewrite Hr'.
      pose proof (lstrip_aux_py_len (String.length q - 1 + String.length r') r'). lia. }
  change (py_len " ") with 1%nat. lia.
Qed.

Lemma quitar_todos (p : ascii -> bool) (c : ascii) (s : string) :
  todos p s = true ->
  todos (fun b => p b && negb (Ascii.eqb b c)) (quitar c s) = true.
Proof.
  induction s as [|d s IH]; [reflexivity|]. simpl.
  intros Hs. apply andb_prop in Hs. destruct Hs as [Hd Hs].
  destruct (Ascii.eqb d c) eqn:E; [apply IH; exact Hs|].
  simpl. rewrite Hd, E, (IH Hs). reflexivity.
Qed.

Lemma quitar_py_len (c : ascii) (s : string) : (py_len (quitar c s) <= py_len s)%nat.
Proof.
  induction s as [|d s IH]; [simpl; lia|]. simpl.
  destruct (Ascii.eqb d c); simpl; lia.
Qed.

Lemma quitar_todos_de (l : list ascii) (p : ascii -> bool) (s : string) :
  todos p s = true ->
  todos (fun b => p b && negb (existsb (Ascii.eqb b) l))
    (fold_left (fun texto char => quitar char texto) l s) = true.
Proof.
  revert p s. induction l as [|c l IH]; intros p s Hs.
  - cbn [fold_left existsb]. rewrite (todos_ext _ p); [exact Hs|].
    intros b. apply andb_true_r.
  - cbn [fold_left existsb].
    pose proof (IH _ _ (quitar_todos p c s Hs)) as H.
    erewrite todos_ext; [exact H|]. intros b. cbv beta.
    rewrite negb_orb, andb_assoc. reflexivity.
Qed.

Lemma quitar_todos_py_len (l : list ascii) (s : string) :
  (py_len (fold_left (fun texto char => quitar char texto) l s) <= py_len s)%nat.
Proof.
  revert s. induction l as [|c l IH]; intros s; [simpl; lia|].
  cbn [fold_left]. eapply Nat.le_trans; [apply IH | apply quitar_py_len].
Qed.

Lemma todos_siempre (s : string) : todos (fun _ => true) s = true.
Proof. induction s as [|c s IH]; [reflexivity | exact IH]. Qed.

(** X23.  Whatever the text and the length allowed, the result of
    [sanitizar_texto] holds none of the eleven characters it is meant to
    remove. *)
Theorem sanitizar_texto_sin_peligrosos (texto : option string) (max_length : Z) :
  todos (fun b => negb (es_peligroso b)) (sanitizar_texto texto max_length) = true.
Proof.
  unfold sanitizar_texto. destruct texto as [t|]; [|reflexivity].
  destruct (t =? EmptyString)%string; [reflexivity|]. cbv zeta.
  apply strip_todos. apply unir_todos; [reflexivity|].
  apply split_aux_todos.
  pose proof (quitar_todos_de caracteres_peligrosos (fun _ => true)
                (hasta_Z max_length t) (todos_siempre _)) as H.
  erewrite todos_ext; [exact H|]. intros b. reflexivity.
Qed.

(** Every character counts for at most one, and a string that begins in
    the middle of a character has a first piece that counts for none. *)
Lemma caracteres_py_len (s : string) :
  Forall (fun x => (py_len x <= 1)%nat) (caracteres s)
  /\ (forall d s', s = String d s' -> es_continuacion d = true ->
                   exists h t, caracteres s = h :: t /\ py_len h = 0%nat).
Proof.
  induction s as [|c s [IH1 IH2]]; [split; [constructor | discriminate]|].
  destruct s as [|d s].
  - split.
    + constructor; [|constructor]. simpl. destruct (es_continuacion c); lia.
    + intros d s' [= <- <-] Hd. exists (String c EmptyString), [].
      split; [reflexivity|]. simpl. rewrite Hd. reflexivity.
  - rewrite caracteres_cons. destruct (es_continuacion d) eqn:Hd.
    + destruct (IH2 d s eq_refl Hd) as (h & t & Hc & Hh).
      rewrite Hc in *. apply Forall_inv_tail in IH1. split.
      * constructor; [|exact IH1]. simpl. rewrite Hh. destruct (es_continuacion c); lia.
      * intros d' s' [= <- <-] Hc'. exists (String c h), t.
        split; [reflexivity|]. simpl. rewrite Hc', Hh. reflexivity.
    + split.
      * constructor; [|exact IH1]. simpl. destruct (es_continuacion c); lia.
      * intros d' s' [= <- <-] Hc'. exists (String c EmptyString), (caracteres (String d s)).
        split; [reflexivity|]. simpl. rewrite Hc'. reflexivity.
Qed.

Lemma juntar_firstn_py_len (n : nat) (l : list string) :
  Forall (fun x => (py_len x <= 1)%nat) l -> (py_len (juntar (firstn n l)) <= n)%nat.
Proof.
  revert l. induction n as [|n IH]; intros l Hl; [simpl; lia|].
  destruct Hl as [|x l Hx Hl]; [simpl; lia|].
  cbn [firstn juntar]. rewrite py_len_app. specialize (IH l Hl). lia.
Qed.

(** X24.  With a length allowed that is not negative, the result of
    [sanitizar_texto] has at most that many characters. *)
Theorem sanitizar_texto_longitud (texto : option string) (max_length : Z) :
  (0 <= max_length)%Z ->
  (Z.of_nat (py_len (sanitizar_texto texto max_length)) <= max_length)%Z.
Proof.
  intros Hmax. unfold sanitizar_texto. destruct texto as [t|]; [|simpl; lia].
  destruct (t =? EmptyString)%string; [simpl; lia|]. cbv zeta.
  assert (H : (py_len (strip (unir " " (split
                 (fold_left (fun texto char => quitar char texto)
                    caracteres_peligrosos (hasta_Z max_length t)))))
               <= Z.to_nat max_length)%nat).
  { eapply Nat.le_trans; [apply strip_py_len|].
    eapply Nat.le_trans; [apply split_aux_py_len|].
    eapply Nat.le_trans; [apply lstrip_aux_py_len|].
    eapply Nat.le_trans; [apply quitar_todos_py_len|].
    unfold hasta_Z. destruct (Z.ltb_spec max_length 0) as [Hneg|_]; [lia|].
    apply juntar_firstn_py_len. apply caracteres_py_len. }
  lia.
Qed.

Lemma sanitizar_texto_longitud_witness :
  (0 <= 4)%Z
  /\ (Z.of_nat (py_len (sanitizar_texto (Some "<b>año nuevo</b>") 4)) <= 4)%Z.
Proof.
  split; [lia|]. apply (sanitizar_texto_longitud (Some "<b>año nuevo</b>") 4). lia.
Defined.

Lemma espacio_inicial_length (s r : string) :
  espacio_inicial s = Some r -> (String.length r < String.length s)%nat.
Proof.
  intros H. destruct (espacio_inicial_Some s r H) as (q & -> & _ & Hq & _).
  rewrite length_append. lia.
Qed.

(** The fuel of [lstrip] is enough: no whitespace is left at the head. *)
Lemma lstrip_aux_sin_espacio (n : nat) (s : string) :
  (String.length s <= n)%nat ->
  espacio_inicial (lstrip_aux n s) = None /\ (String.length (lstrip_aux n s) <= String.length s)%nat.
Proof.
  revert s. induction n as [|n IH]; intros s Hn.
  - destruct s; [split; [reflexivity | simpl; lia] | simpl in Hn; lia].
  - cbn [lstrip_aux]. destruct (espacio_inicial s) as [r|] eqn:He; [|split; [exact He | lia]].
    pose proof (espacio_inicial_length s r He) as Hr.
    destruct (IH r) as [H1 H2]; [lia|]. split; [exact H1 | lia].
Qed.

(** The fuel of [split] is enough: more of it gives the same words. *)
Lemma split_aux_suficiente (n m : nat) (s : string) :
  (String.length s <= n)%nat -> (String.length s <= m)%nat ->
  split_aux n s = split_aux m s.
Proof.
  revert m s. induction n as [|n IH]; intros m s Hn Hm.
  - destruct s; [|simpl in Hn; lia]. destruct m; reflexivity.
  - destruct m as [|m]; [destruct s; [reflexivity | simpl in Hm; lia]|].
    cbn [split_aux].
    destruct (lstrip_aux_sin_espacio (String.length s) s (Nat.le_refl _)) as [He Hl].
    fold (lstrip s) in He, Hl.
    destruct (lstrip s) as [|c t]; [reflexivity|].
    destruct (palabra_partes (String c t)) as [Hp _].
    cbn [palabra] in *. rewrite He in *.
    destruct (palabra t) as [w r]. cbn [fst snd] in Hp.
    f_equal. apply IH.
    + apply (f_equal String.length) in Hp. simpl in Hp, Hl. rewrite length_append in Hp. lia.
    + apply (f_equal String.length) in Hp. simpl in Hp, Hl. rewrite length_append in Hp. lia.
Qed.

Lemma juntar_todos (p : ascii -> bool) (l : list string) :
  Forall (fun x => todos p x = true) l -> todos p (juntar l) = true.
Proof.
  induction 1 as [|x l Hx _ IH]; [reflexivity|].
  cbn [juntar]. rewrite todos_app, Hx, IH. reflexivity.
Qed.

Lemma en_clase_serie_bytes (car : string) :
  en_clase_serie car = true ->
  todos (fun b => alfanumerico_o_guion b || espacio_ascii b || no_ascii b) car = true.
Proof.
  unfold en_clase_serie. intros H. apply orb_prop in H. destruct H as [H|H].
  - destruct car as [|c [|d r]]; try discriminate H.
    simpl. rewrite H. reflexivity.
  - destruct (espacio_inicial car) as [[|x r]|] eqn:He; try discriminate H.
    destruct (espacio_inicial_Some car EmptyString He) as (q & -> & _ & _ & Hq).
    rewrite append_vacio.
    apply (todos_implica (fun b => espacio_ascii b || no_ascii b)); [|exact Hq].
    intros c Hc. rewrite <- orb_assoc, Hc. apply orb_true_r.
Qed.

(** X25.  In the result of [sanitizar_numero_serie] every byte is an ASCII
    letter, an ASCII digit, a hyphen, a one-byte whitespace character or a
    byte of a character beyond ASCII: no other ASCII character is kept. *)
Theorem sanitizar_numero_serie_bytes (numero_serie : option string) :
  todos (fun b => alfanumerico_o_guion b || espacio_ascii b || no_ascii b)
    (sanitizar_numero_serie numero_serie) = true.
Proof.
  unfold sanitizar_numero_serie. destruct numero_serie as [s|]; [|reflexivity].
  destruct (s =? EmptyString)%string; [reflexivity|].
  apply strip_todos. unfold re_sub_serie. apply juntar_todos.
  apply Forall_forall. intros x Hx. apply filter_In in Hx.
  apply en_clase_serie_bytes. tauto.
Qed.

Lemma alfanumerico_o_guion_codigo (c : ascii) :
  alfanumerico_o_guion c = true -> (45 <= codigo c < 128)%nat.
Proof.
  unfold alfanumerico_o_guion. intros H. aritmetica; lia.
Qed.

Lemma espacio_inicial_alfanumerico (c : ascii) (s : string) :
  alfanumerico_o_guion c = true -> espacio_inicial (String c s) = None.
Proof.
  intros H. apply alfanumerico_o_guion_codigo in H.
  assert (E : forall k, (128 <= k)%nat -> (codigo c =? k)%nat = false)
    by (intros k Hk; apply Nat.eqb_neq; lia).
  assert (L : forall k, (k <= 32)%nat -> (codigo c <=? k)%nat = false)
    by (intros k Hk; apply Nat.leb_gt; lia).
  unfold espacio_inicial. cbv zeta.
  rewrite (L 13%nat), (L 32%nat), !andb_false_r by lia. cbn [orb].
  destruct s as [|b [|d r]]; [reflexivity | |].
  - rewrite (E 194%nat) by lia. reflexivity.
  - rewrite (E 194%nat), (E 225%nat), (E 226%nat), (E 227%nat) by lia. reflexivity.
Qed.

Lemma caracteres_alfanumericos (s : string) :
  todos alfanumerico_o_guion s = true ->
  filter en_clase_serie (caracteres s) = caracteres s.
Proof.
  induction s as [|c s IH]; [reflexivity|].
  intros H. simpl in H. apply andb_prop in H. destruct H as [Hc Hs].
  destruct s as [|d s].
  - simpl. unfold en_clase_serie. rewrite Hc. reflexivity.
  - rewrite caracteres_cons.
    assert (Hd : es_continuacion d = false).
    { simpl in Hs. apply andb_prop in Hs. destruct Hs as [Hd _].
      apply alfanumerico_o_guion_codigo in Hd. apply no_continuacion. lia. }
    rewrite Hd. cbn [filter]. unfold en_clase_serie at 1. rewrite Hc. cbn [orb].
    rewrite (IH Hs). reflexivity.
Qed.

Lemma lstrip_alfanumerico (c : ascii) (s : string) :
  alfanumerico_o_guion c = true -> lstrip (String c s) = String c s.
Proof.
  intros H. unfold lstrip. cbn [String.length lstrip_aux].
  rewrite (espacio_inicial_alfanumerico c s H). reflexivity.
Qed.

Lemma strip_alfanumerico (s : string) :
  todos alfanumerico_o_guion s = true -> strip s = s.
Proof.
  intros H. unfold strip.
  assert (Hl : lstrip s = s).
  { destruct s as [|c s]; [reflexivity|].
    simpl in H. apply andb_prop in H. apply lstrip_alfanumerico. tauto. }
  rewrite Hl. induction s as [|c s IH]; [reflexivity|].
  simpl in H. apply andb_prop in H. destruct H as [Hc Hs].
  cbn [rstrip]. rewrite (lstrip_alfanumerico c s Hc). f_equal. apply IH; [exact Hs|].
  destruct s as [|d s]; [reflexivity|].
  simpl in Hs. apply andb_prop in Hs. apply lstrip_alfanumerico. tauto.
Qed.

(** X26.  A serial number made of ASCII letters, ASCII digits and hyphens
    only is returned as it is. *)
Theorem sanitizar_numero_serie_fijo (s : string) :
  todos alfanumerico_o_guion s = true ->
  sanitizar_numero_serie (Some s) = s.
Proof.
  intros H. unfold sanitizar_numero_serie.
  destruct (String.eqb_spec s EmptyString) as [->|_]; [reflexivity|].
  unfold re_sub_serie. rewrite (caracteres_alfanumericos s H), juntar_caracteres.
  apply strip_alfanumerico. exact H.
Qed.

Lemma sanitizar_numero_serie_fijo_witness :
  sanitizar_numero_serie (Some "SN-2024-00417") = "SN-2024-00417".
Proof.
  apply (sanitizar_numero_serie_fijo "SN-2024-00417"). reflexivity.
Defined.

End Sanitizacion.
